(** * hotel-boq core: a shallow embedding of the functional/reactive kernel

    The Python sources under [core/] are embedded module by module:
    [ftypes.py] (Maybe / Either and the domain validators), [compose.py]
    (compose, pipe, PipeLine, the composition helpers and the booking
    pipeline), [domain.py] (frozen dataclasses), [lazy.py] (offer
    generators), [memo.py] (memoised quote), [frp.py] (event bus),
    [recursion.py] (hotel filters), [transforms.py] (the cart) and
    [service.py] (search, quote, booking and integration services).

    Conventions of the embedding:
    - a Python [dict] with string keys is a [gmap string _];
    - a Python callable that may raise is a function into [outcome];
      one that may also act on its environment is a function into [Py W],
      a state-and-exception monad over the environment [W];
    - mutable lists that are shared by reference (the event bus' derived
      state) live in an explicit store of list objects;
    - nondeterministic inputs ([uuid4()], [datetime.now()]) are explicit
      arguments. *)

From Stdlib Require Import ZArith Lia Ascii.
From Stdlib Require Import Floats.PrimFloat Floats.SpecFloat Floats.FloatOps.
From stdpp Require Import base option list gmap strings sorting pretty.

Local Open Scope string_scope.
Local Open Scope list_scope.

(** ** Python values, exceptions and effects *)

Module py.

(** The scalar values that occur inside guest mappings, event payloads and
    search requests. *)
Inductive value :=
| VNone
| VBool (b : bool)
| VInt (n : Z)
| VStr (s : string).

#[global] Instance value_eq_dec : EqDecision value.
Proof. solve_decision. Defined.

(** Python truthiness ([bool(v)]). *)
Definition truthy (v : value) : bool :=
  match v with
  | VNone => false
  | VBool b => b
  | VInt n => negb (n =? 0)%Z
  | VStr s => negb (String.eqb s "")
  end.

(** Truthiness of [d.get(k)]: a missing key yields [None]. *)
Definition truthy_opt (o : option value) : bool :=
  match o with
  | Some v => truthy v
  | None => false
  end.

Definition int_of_bool (b : bool) : Z := if b then 1%Z else 0%Z.

(** Python [==] on these values: [bool] is a subtype of [int], so
    [True == 1]; values of unrelated types are unequal. *)
Definition eqb (a b : value) : bool :=
  match a, b with
  | VNone, VNone => true
  | VBool x, VBool y => Bool.eqb x y
  | VBool x, VInt n | VInt n, VBool x => (int_of_bool x =? n)%Z
  | VInt n, VInt m => (n =? m)%Z
  | VStr s, VStr t => String.eqb s t
  | _, _ => false
  end.

(** [a == b] where either side may come from [d.get(k)]. *)
Definition eqb_opt (a b : option value) : bool :=
  eqb (default VNone a) (default VNone b).

(** The exception classes the embedded code can raise. *)
Inductive exn :=
| KeyError (key : string)
| ValueError (msg : string)
| TypeError (msg : string)
| AttributeError (msg : string)
| IndexError (msg : string)
| RuntimeError (msg : string)
| OverflowError (msg : string).

(** [repr] of a string key without quotes or escapes in it. *)
Definition repr_str (s : string) : string := "'" +:+ s +:+ "'".

(** [str(e)]: a [KeyError] prints the [repr] of its key. *)
Definition str (e : exn) : string :=
  match e with
  | KeyError k => repr_str k
  | ValueError m | TypeError m | AttributeError m | IndexError m
  | RuntimeError m | OverflowError m => m
  end.

(** The result of running code that may raise. *)
Inductive outcome (A : Type) :=
| Ok (a : A)
| Raise (e : exn).
Arguments Ok {A} a.
Arguments Raise {A} e.

#[global] Instance outcome_ret : MRet outcome := @Ok.
#[global] Instance outcome_bind : MBind outcome := λ A B f m,
  match m with
  | Ok a => f a
  | Raise e => Raise e
  end.

(** [d[k]] on a dict: [KeyError(k)] when the key is missing. *)
Definition getitem {V} (d : gmap string V) (k : string) : outcome V :=
  match d !! k with
  | Some v => Ok v
  | None => Raise (KeyError k)
  end.

(** Code that may raise and may act on an environment [W]: the state a
    computation leaves behind is kept when it raises, as in Python. *)
Definition Py (W A : Type) : Type := W → outcome A * W.

Definition ret {W A} (a : A) : Py W A := λ w, (Ok a, w).
Definition bind {W A B} (m : Py W A) (f : A → Py W B) : Py W B := λ w,
  match m w with
  | (Ok a, w') => f a w'
  | (Raise e, w') => (Raise e, w')
  end.
Definition raise {W A} (e : exn) : Py W A := λ w, (Raise e, w).

(** [try: m  except Exception as e: h(e)]. *)
Definition try_except {W A} (m : Py W A) (h : exn → Py W A) : Py W A := λ w,
  match m w with
  | (Ok a, w') => (Ok a, w')
  | (Raise e, w') => h e w'
  end.

End py.

Notation "x ←ₚ m ; k" := (py.bind m (λ x, k))
  (at level 20, m at level 100, k at level 200, only parsing, right associativity).

(** ** core/ftypes.py: Maybe and Either *)

Module ftypes.

(** [_Just(value)] and [_Nothing()]. *)
Inductive Maybe (T : Type) :=
| Just (value : T)
| Nothing.
Arguments Just {T} value.
Arguments Nothing {T}.

(** [_Right(value)] and [_Left(error)]; [Either.right] and [Either.left]
    are the two constructors. *)
Inductive Either (E T : Type) :=
| Right (value : T)
| Left (error : E).
Arguments Right {E T} value.
Arguments Left {E T} error.

Section methods.
Context {W : Type}.

(** [Maybe.map]: [_Just.map] calls [func]; [_Nothing.map] ignores it. *)
Definition Maybe_map {T U} (self : Maybe T) (func : T → py.Py W U)
  : py.Py W (Maybe U) :=
  match self with
  | Just v => u ←ₚ func v; py.ret (Just u)
  | Nothing => py.ret Nothing
  end.

(** [Maybe.bind]. *)
Definition Maybe_bind {T U} (self : Maybe T) (func : T → py.Py W (Maybe U))
  : py.Py W (Maybe U) :=
  match self with
  | Just v => func v
  | Nothing => py.ret Nothing
  end.

(** [Either.map]. *)
Definition Either_map {E T U} (self : Either E T) (func : T → py.Py W U)
  : py.Py W (Either E U) :=
  match self with
  | Right v => u ←ₚ func v; py.ret (Right u)
  | Left e => py.ret (Left e)
  end.

(** [Either.bind]. *)
Definition Either_bind {E T U} (self : Either E T)
    (func : T → py.Py W (Either E U)) : py.Py W (Either E U) :=
  match self with
  | Right v => func v
  | Left e => py.ret (Left e)
  end.

(** [Either.map_error]. *)
Definition Either_map_error {E T} (self : Either E T) (func : E → py.Py W E)
  : py.Py W (Either E T) :=
  match self with
  | Right v => py.ret (Right v)
  | Left e => e' ←ₚ func e; py.ret (Left e')
  end.

End methods.

Definition Maybe_get_or_else {T} (self : Maybe T) (default : T) : T :=
  match self with
  | Just v => v
  | Nothing => default
  end.

Definition Maybe_is_just {T} (self : Maybe T) : bool :=
  match self with
  | Just _ => true
  | Nothing => false
  end.

(** [_Right.get_or_else] returns the value; [_Left.get_or_else] returns the
    default (not the error). *)
Definition Either_get_or_else {E T} (self : Either E T) (default : T) : T :=
  match self with
  | Right v => v
  | Left _ => default
  end.

Definition Either_is_right {E T} (self : Either E T) : bool :=
  match self with
  | Right _ => true
  | Left _ => false
  end.

Definition Either_is_left {E T} (self : Either E T) : bool :=
  negb (Either_is_right self).

End ftypes.

(** ** core/domain.py: the frozen dataclasses *)

Module domain.

Record Hotel := {
  Hotel_id : string;
  Hotel_name : string;
  Hotel_stars : Z;
  Hotel_city : string;
  Hotel_features : list string;
  Hotel_description : string }.

Record RoomType := {
  RoomType_id : string;
  RoomType_hotel_id : string;
  RoomType_name : string;
  RoomType_capacity : Z;
  RoomType_beds : list string;
  RoomType_features : list string;
  RoomType_size : string }.

Record RatePlan := {
  RatePlan_id : string;
  RatePlan_hotel_id : string;
  RatePlan_room_type_id : string;
  RatePlan_title : string;
  RatePlan_meal : string;
  RatePlan_refundable : bool;
  RatePlan_cancel_before_days : option Z;
  RatePlan_description : string }.

Record Price := {
  Price_id : string;
  Price_rate_id : string;
  Price_date : string;
  Price_amount : Z;
  Price_currency : string }.

Record Availability := {
  Availability_id : string;
  Availability_room_type_id : string;
  Availability_date : string;
  Availability_available : Z }.

Record CartItem := {
  CartItem_id : string;
  CartItem_hotel_id : string;
  CartItem_room_type_id : string;
  CartItem_rate_id : string;
  CartItem_checkin : string;
  CartItem_checkout : string;
  CartItem_guests : Z }.

(** [guest_id] is whatever the guest mapping stores under ['id']. *)
Record Booking := {
  Booking_id : string;
  Booking_guest_id : py.value;
  Booking_items : list CartItem;
  Booking_total : Z;
  Booking_status : string;
  Booking_created_at : string }.

Record Event := {
  Event_id : string;
  Event_ts : string;
  Event_name : string;
  Event_payload : gmap string py.value }.

Record Rule := {
  Rule_id : string;
  Rule_kind : string;
  Rule_payload : gmap string py.value }.

End domain.

(** ** core/compose.py: compose, pipe and PipeLine *)

Module compose.
Import py.

Section pipeline.
Context {V : Type}.

(** [compose] of a tuple of functions, applied to [arg], is
    [reduce(lambda acc, f: f(acc), reversed(functions), arg)]: the functions
    are applied from the last one to the first one; an exception raised by
    one of them ends the reduction. *)
Definition compose (functions : list (V → outcome V)) (arg : V) : outcome V :=
  foldl (λ acc f, acc ≫= f) (Ok arg) (reverse functions).

(** [pipe] hands its functions, in the order given, to [compose]. *)
Definition pipe (value : V) (functions : list (V → outcome V)) : outcome V :=
  compose functions value.

(** [PipeLine]: the start value ([None] when absent) and the functions
    recorded by [map], in the order of the calls. *)
Record PipeLine := {
  PipeLine_value : option V;
  PipeLine_functions : list (V → outcome V) }.

Definition PipeLine_of (value : V) : PipeLine :=
  {| PipeLine_value := Some value; PipeLine_functions := [] |}.

(** [PipeLine.map] appends [func] to the recorded functions. *)
Definition PipeLine_map (self : PipeLine) (func : V → outcome V) : PipeLine :=
  {| PipeLine_value := PipeLine_value self;
     PipeLine_functions := PipeLine_functions self ++ [func] |}.

Definition PipeLine_execute (self : PipeLine) : outcome V :=
  match PipeLine_value self with
  | None => Raise (ValueError "No value to execute pipeline")
  | Some value => pipe value (PipeLine_functions self)
  end.

Definition PipeLine_run (self : PipeLine) : outcome V := PipeLine_execute self.

End pipeline.
End compose.

(** ** core/lazy.py: the lazy offer generators *)

Module lazy.
Import domain.

(** [str.lower()] on ASCII text. *)
Definition lower_ascii (c : Ascii.ascii) : Ascii.ascii :=
  let n := Ascii.nat_of_ascii c in
  if (65 <=? n)%nat && (n <=? 90)%nat then Ascii.ascii_of_nat (n + 32) else c.

Fixpoint lower (s : string) : string :=
  match s with
  | EmptyString => EmptyString
  | String c s' => String (lower_ascii c) (lower s')
  end.

(** The index-building loops of [lazy_offers]: each record is appended to
    the list stored under its key, a fresh list being created for a key
    seen for the first time. *)
Definition build_index {A} (key : A → string) (records : list A)
  : gmap string (list A) :=
  foldl (λ index r, <[key r := default [] (index !! key r) ++ [r]]> index)
        ∅ records.

(** [index.get(k, [])]. *)
Definition index_get {A} (index : gmap string (list A)) (k : string) : list A :=
  default [] (index !! k).

Record indices := {
  room_types_by_hotel : gmap string (list RoomType);
  rates_by_room_type : gmap string (list RatePlan);
  prices_by_rate : gmap string (list Price);
  availability_by_room_type : gmap string (list Availability) }.

Definition build_indices (room_types : list RoomType) (rates : list RatePlan)
    (prices : list Price) (availability : list Availability) : indices :=
  {| room_types_by_hotel := build_index RoomType_hotel_id room_types;
     rates_by_room_type := build_index RatePlan_room_type_id rates;
     prices_by_rate := build_index Price_rate_id prices;
     availability_by_room_type :=
       build_index Availability_room_type_id availability |}.

(** A candidate is one iteration of the innermost loop of [lazy_offers]. *)
Definition candidate : Type := Hotel * RoomType * RatePlan.

(** The walk of the three nested loops, in iteration order. *)
Definition candidates (ix : indices) (hotels : list Hotel) : list candidate :=
  hotel ← hotels;
  room_type ← index_get (room_types_by_hotel ix) (Hotel_id hotel);
  rate ← index_get (rates_by_room_type ix) (RoomType_id room_type);
  [(hotel, room_type, rate)].

(** What [lazy_offers] yields: (hotel, room type, rate, price per night,
    available). *)
Definition offer : Type := Hotel * RoomType * RatePlan * Z * bool.

(** The body of the innermost loop up to the predicate test. *)
Definition price_amount (ix : indices) (rate : RatePlan) : Z :=
  match index_get (prices_by_rate ix) (RatePlan_id rate) with
  | p :: _ => Price_amount p
  | [] => 100
  end.

Definition is_available (ix : indices) (room_type : RoomType) : bool :=
  existsb (λ avail, (0 <? Availability_available avail)%Z)
          (index_get (availability_by_room_type ix) (RoomType_id room_type)).

Definition make_offer (ix : indices) (c : candidate) : offer :=
  let '(hotel, room_type, rate) := c in
  (hotel, room_type, rate, price_amount ix rate, is_available ix room_type).

Definition predicate : Type := Hotel → RoomType → RatePlan → Z → bool.

Definition accepts (ix : indices) (p : predicate) (c : candidate) : bool :=
  let '(hotel, room_type, rate) := c in
  p hotel room_type rate (price_amount ix rate).

(** The generator object of [lazy_offers] once its indices are built: the
    position inside the nested loops is the list of candidates the loops
    have still to visit.  [og_examined] is instrumentation: it counts the
    candidates on which the loop body has run. *)
Record offers_gen := {
  og_index : indices;
  og_predicate : predicate;
  og_pending : list candidate;
  og_examined : nat }.

Definition lazy_offers (hotels : list Hotel) (room_types : list RoomType)
    (rates : list RatePlan) (prices : list Price)
    (availability : list Availability) (p : predicate) : offers_gen :=
  let ix := build_indices room_types rates prices availability in
  {| og_index := ix; og_predicate := p;
     og_pending := candidates ix hotels; og_examined := 0 |}.

(** Run the loops until the next [yield] or until they end. *)
Fixpoint offers_scan (ix : indices) (p : predicate) (pending : list candidate)
    (examined : nat) : option offer * list candidate * nat :=
  match pending with
  | [] => (None, [], examined)
  | c :: rest =>
      if accepts ix p c then (Some (make_offer ix c), rest, S examined)
      else offers_scan ix p rest (S examined)
  end.

(** [next(offers)]: [None] stands for [StopIteration]. *)
Definition offers_next (g : offers_gen) : option offer * offers_gen :=
  let '(o, rest, n) :=
    offers_scan (og_index g) (og_predicate g) (og_pending g) (og_examined g) in
  (o, {| og_index := og_index g; og_predicate := og_predicate g;
         og_pending := rest; og_examined := n |}).

(** The [filters] dict of [lazy_search_results], by key; a missing key and
    a key bound to [None] both read as [None]. *)
Record filters := {
  filters_city : option string;
  filters_min_stars : option Z;
  filters_guests : option Z;
  filters_max_price : option Z;
  filters_features : option (list string) }.

Definition truthy_str (o : option string) : bool :=
  match o with
  | Some s => negb (String.eqb s "")
  | None => false
  end.

Definition truthy_int (o : option Z) : bool :=
  match o with
  | Some n => negb (n =? 0)%Z
  | None => false
  end.

Definition truthy_list {A} (o : option (list A)) : bool :=
  match o with
  | Some (_ :: _) => true
  | _ => false
  end.

(** [search_predicate], the closure over [filters]. *)
Definition search_predicate (f : filters) : predicate :=
  λ hotel room_type rate price,
  if truthy_str (filters_city f)
     && negb (String.eqb (lower (Hotel_city hotel))
                         (lower (default "" (filters_city f))))
  then false
  else if truthy_int (filters_min_stars f)
          && (Hotel_stars hotel <? default 0 (filters_min_stars f))%Z
  then false
  else if truthy_int (filters_guests f)
          && (RoomType_capacity room_type <? default 0 (filters_guests f))%Z
  then false
  else if truthy_int (filters_max_price f)
          && (default 0 (filters_max_price f) <? price)%Z
  then false
  else if truthy_list (filters_features f)
          && negb (forallb
                     (λ x, bool_decide
                             (x ∈ Hotel_features hotel
                                  ++ RoomType_features room_type))
                     (default [] (filters_features f)))
  then false
  else true.

(** The dict yielded by [lazy_search_results]. *)
Record search_result := {
  result_hotel : Hotel;
  result_room_type : RoomType;
  result_rate : RatePlan;
  result_price_per_night : Z;
  result_available : bool;
  result_total_price : Z }.

Definition make_result (o : offer) : search_result :=
  let '(hotel, room_type, rate, price, available) := o in
  {| result_hotel := hotel; result_room_type := room_type;
     result_rate := rate; result_price_per_night := price;
     result_available := available; result_total_price := (price * 3)%Z |}.

(** The test [limit and count >= limit]; [limit] is [None] or an int. *)
Definition limit_reached (limit : option Z) (count : Z) : bool :=
  truthy_int limit && (default 0%Z limit <=? count)%Z.

(** The generator object of [lazy_search_results]: the inner generator,
    [count], and whether the body has returned. *)
Record search_gen := {
  sg_offers : offers_gen;
  sg_limit : option Z;
  sg_count : Z;
  sg_finished : bool }.

Definition lazy_search_results (hotels : list Hotel)
    (room_types : list RoomType) (rates : list RatePlan)
    (prices : list Price) (availability : list Availability)
    (f : filters) (limit : option Z) : search_gen :=
  {| sg_offers := lazy_offers hotels room_types rates prices availability
                              (search_predicate f);
     sg_limit := limit; sg_count := 0; sg_finished := false |}.

(** [next(results)]: the [for] loop first draws the next offer from the
    inner generator and only then tests the limit.  [count += 1] runs when
    the generator is resumed; it is folded into the yielding step here. *)
Definition search_next (g : search_gen) : option search_result * search_gen :=
  if sg_finished g then (None, g)
  else
    let '(o, og) := offers_next (sg_offers g) in
    match o with
    | None =>
        (None, {| sg_offers := og; sg_limit := sg_limit g;
                  sg_count := sg_count g; sg_finished := true |})
    | Some x =>
        if limit_reached (sg_limit g) (sg_count g)
        then (None, {| sg_offers := og; sg_limit := sg_limit g;
                       sg_count := sg_count g; sg_finished := true |})
        else (Some (make_result x),
              {| sg_offers := og; sg_limit := sg_limit g;
                 sg_count := (sg_count g + 1)%Z; sg_finished := false |})
    end.

(** A consumer that calls [next] at most [n] times and keeps what it got. *)
Fixpoint take_results (n : nat) (g : search_gen)
  : list search_result * search_gen :=
  match n with
  | 0 => ([], g)
  | S n' =>
      match search_next g with
      | (None, g') => ([], g')
      | (Some r, g') =>
          let '(rs, g'') := take_results n' g' in (r :: rs, g'')
      end
  end.

(** [list(results)]: call [next] until [StopIteration].  Every yielding
    step consumes a pending candidate, so one call more than there are
    pending candidates always reaches the end. *)
Definition to_list (g : search_gen) : list search_result * search_gen :=
  take_results (S (length (og_pending (sg_offers g)))) g.

(** Every matching offer among [pending], as result dicts, in walk
    order. *)
Definition all_results (ix : indices) (p : predicate)
    (pending : list candidate) : list search_result :=
  map (λ c, make_result (make_offer ix c)) (List.filter (accepts ix p) pending).

End lazy.

(** ** core/memo.py: the memoised quote *)

Module memo.
Import py.

(** *** [datetime.strptime(s, '%Y-%m-%d')] and day arithmetic

    The library calls used by [quote_offer], on ASCII text: four digits,
    a dash, a month written [1[0-2]|0[1-9]|[1-9]], a dash, a day written
    [3[0-1]|[1-2]\d|0[1-9]|[1-9]| [1-9]], and nothing after it; the date
    must exist and its year must be at least 1. *)

Record date := { year : Z; month : Z; day : Z }.

Definition digit (c : Ascii.ascii) : option Z :=
  let n := Ascii.nat_of_ascii c in
  if (48 <=? n)%nat && (n <=? 57)%nat then Some (Z.of_nat n - 48)%Z else None.

Fixpoint split_dash (cs : list Ascii.ascii) : list (list Ascii.ascii) :=
  match cs with
  | [] => [[]]
  | c :: rest =>
      if Ascii.eqb c "-"%char then [] :: split_dash rest
      else match split_dash rest with
           | part :: parts => (c :: part) :: parts
           | [] => [[c]]
           end
  end.

Definition parse_year (cs : list Ascii.ascii) : option Z :=
  match cs with
  | [a; b; c; d] =>
      x ← digit a; y ← digit b; z ← digit c; t ← digit d;
      Some (1000 * x + 100 * y + 10 * z + t)%Z
  | _ => None
  end.

Definition parse_month (cs : list Ascii.ascii) : option Z :=
  match cs with
  | [a] => x ← digit a; if (1 <=? x)%Z then Some x else None
  | [a; b] =>
      x ← digit a; y ← digit b;
      if ((x =? 0) && (1 <=? y) || (x =? 1) && (y <=? 2))%Z
      then Some (10 * x + y)%Z else None
  | _ => None
  end.

Definition parse_day (cs : list Ascii.ascii) : option Z :=
  match cs with
  | [a] => x ← digit a; if (1 <=? x)%Z then Some x else None
  | [a; b] =>
      if Ascii.eqb a " "%char
      then y ← digit b; if (1 <=? y)%Z then Some y else None
      else x ← digit a; y ← digit b;
           if ((1 <=? 10 * x + y) && (10 * x + y <=? 31))%Z
           then Some (10 * x + y)%Z else None
  | _ => None
  end.

Definition is_leap (y : Z) : bool :=
  ((y mod 4 =? 0) && (negb (y mod 100 =? 0) || (y mod 400 =? 0)))%Z.

Definition days_in_month (y m : Z) : Z :=
  (if m =? 2 then (if is_leap y then 29 else 28)
   else if (m =? 4) || (m =? 6) || (m =? 9) || (m =? 11) then 30
   else 31)%Z.

(** Days of the year before the first day of month [m]. *)
Definition days_before_month (y m : Z) : Z :=
  (nth (Z.to_nat m) [0; 0; 31; 59; 90; 120; 151; 181; 212; 243; 273; 304; 334] 0
   + (if (2 <? m) && is_leap y then 1 else 0))%Z.

(** Days before January 1st of year [y]. *)
Definition days_before_year (y : Z) : Z :=
  (let y1 := y - 1 in y1 * 365 + y1 / 4 - y1 / 100 + y1 / 400)%Z.

(** [date.toordinal()]: January 1st of year 1 is day 1. *)
Definition toordinal (d : date) : Z :=
  (days_before_year (year d) + days_before_month (year d) (month d) + day d)%Z.

Definition strptime (s : string) : option date :=
  match split_dash (String.list_ascii_of_string s) with
  | [ys; ms; ds] =>
      y ← parse_year ys; m ← parse_month ms; d ← parse_day ds;
      if ((1 <=? y) && (d <=? days_in_month y m))%Z
      then Some {| year := y; month := m; day := d |} else None
  | _ => None
  end.

(** [(b - a).days] for two midnights. *)
Definition days_between (a b : date) : Z := (toordinal b - toordinal a)%Z.

(** A date of the calendar, and the date one day later; they serve to
    check that [toordinal] counts days. *)
Definition valid_date (d : date) : Prop :=
  (1 ≤ month d ≤ 12 ∧ 1 ≤ day d ≤ days_in_month (year d) (month d))%Z.

Definition next_day (d : date) : date :=
  if (day d <? days_in_month (year d) (month d))%Z
  then {| year := year d; month := month d; day := (day d + 1)%Z |}
  else if (month d <? 12)%Z
  then {| year := year d; month := (month d + 1)%Z; day := 1 |}
  else {| year := (year d + 1)%Z; month := 1; day := 1 |}.

(** *** [quote_offer] *)

(** The dict returned by [quote_offer]. *)
Record quote := {
  quote_hotel_id : string;
  quote_room_type_id : string;
  quote_rate_id : string;
  quote_checkin : string;
  quote_checkout : string;
  quote_guests : Z;
  quote_nights : Z;
  quote_total_price : Z;
  quote_currency : string;
  quote_calculated_at : string }.

(** A call of [quote_offer]: the six argument values, and how they are
    passed.  [arg_form] lists the names of the arguments passed by
    keyword, in the order written (the arguments before them are
    positional; a call Python accepts is meant): it is [[]] for
    [quote_offer(h, r, x, ci, co, g)] and the six names, in the order of
    the dict, for a call that unpacks a dict of keyword arguments, as
    [benchmark_quotes] does with [params].  [lru_cache] builds its key
    from the positional values followed by the keyword names and values,
    so the call as a whole, values and form, is the cache key. *)
Record quote_args := {
  arg_form : list string;
  arg_hotel_id : string;
  arg_room_type_id : string;
  arg_rate_id : string;
  arg_checkin : string;
  arg_checkout : string;
  arg_guests : Z }.

#[global] Instance quote_args_eq_dec : EqDecision quote_args.
Proof. solve_decision. Defined.

(** The undecorated function body; [now] is the reading of
    [datetime.now().isoformat()] and [time.sleep] is left out.  A string
    [strptime] rejects raises [ValueError]; the wording of its message,
    which quotes the string, is not modelled. *)
Definition quote_offer_body (a : quote_args) (now : string) : outcome quote :=
  match strptime (arg_checkin a) with
  | None => Raise (ValueError "time data does not match format")
  | Some checkin_date =>
      match strptime (arg_checkout a) with
      | None => Raise (ValueError "time data does not match format")
      | Some checkout_date =>
          let nights := days_between checkin_date checkout_date in
          let base_price := (nights * 100)%Z in
          Ok {| quote_hotel_id := arg_hotel_id a;
                quote_room_type_id := arg_room_type_id a;
                quote_rate_id := arg_rate_id a;
                quote_checkin := arg_checkin a;
                quote_checkout := arg_checkout a;
                quote_guests := arg_guests a;
                quote_nights := nights;
                quote_total_price := base_price;
                quote_currency := "USD";
                quote_calculated_at := now |}
      end
  end.

(** [lru_cache(maxsize=128)]: the entries, most recently used first.  A
    call that raises stores nothing.  Hit and miss counters are not
    modelled. *)
Definition maxsize : nat := 128.

Abbreviation cache := (list (quote_args * quote)).

Fixpoint cache_lookup (a : quote_args) (c : cache) : option quote :=
  match c with
  | [] => None
  | (k, q) :: rest => if decide (k = a) then Some q else cache_lookup a rest
  end.

Definition cache_remove (a : quote_args) (c : cache) : cache :=
  filter (λ kq, kq.1 ≠ a) c.

(** The decorated [quote_offer]. *)
Definition quote_offer (a : quote_args) (now : string) (c : cache)
  : outcome quote * cache :=
  match cache_lookup a c with
  | Some q => (Ok q, (a, q) :: cache_remove a c)
  | None =>
      match quote_offer_body a now with
      | Ok q => (Ok q, take maxsize ((a, q) :: c))
      | Raise e => (Raise e, c)
      end
  end.

(** Every entry was computed by the body from its own key. *)
Definition cache_ok (c : cache) : Prop :=
  Forall (λ kq, ∃ now, quote_offer_body kq.1 now = Ok kq.2) c.

End memo.

(** ** core/frp.py: the event bus *)

Module frp.
Import py domain.

(** An entry of a derived-state list: a dict built from an event. *)
Abbreviation entry := (gmap string value).

(** *** The store of list objects

    The lists held by the derived state are mutable objects reached by
    reference: [get_state] copies the dict, not the lists.  A reference is
    a number, the store maps references to the current contents. *)
Abbreviation loc := nat.

Record store := {
  cells : gmap loc (list entry);
  next_loc : loc }.

Definition empty_store : store := {| cells := ∅; next_loc := 0 |}.

(** A list display or comprehension: a fresh list object. *)
Definition alloc (l : list entry) (h : store) : loc * store :=
  (next_loc h, {| cells := <[next_loc h := l]> (cells h);
                  next_loc := S (next_loc h) |}).

Definition deref (h : store) (r : loc) : list entry :=
  default [] (cells h !! r).

(** [r.append(x)], in place. *)
Definition list_append (r : loc) (x : entry) (h : store) : store :=
  {| cells := <[r := deref h r ++ [x]]> (cells h); next_loc := next_loc h |}.

Section bus.
(** [W] is the environment subscriber callbacks act on; they do not reach
    the bus itself.  A filter predicate is a predicate on the event that
    may raise. *)
Context {W : Type}.

Record Subscription := {
  Subscription_id : string;
  Subscription_event_type : string;
  Subscription_callback : Event → Py W unit;
  Subscription_filter_predicate : option (Event → outcome bool) }.

Record EventBus := {
  _subscribers : gmap string (list Subscription);
  _event_history : list Event;
  _state : gmap string loc }.

(** The bus together with what its methods can touch: the store, standard
    output and the subscribers' environment.  [sys_notified] is
    instrumentation: the ids of the subscriptions whose callback has been
    called, in call order. *)
Record system := {
  sys_bus : EventBus;
  sys_store : store;
  sys_stdout : list string;
  sys_world : W;
  sys_notified : list string }.

Definition with_bus (b : EventBus) (s : system) : system :=
  {| sys_bus := b; sys_store := sys_store s; sys_stdout := sys_stdout s;
     sys_world := sys_world s; sys_notified := sys_notified s |}.

Definition with_store (h : store) (s : system) : system :=
  {| sys_bus := sys_bus s; sys_store := h; sys_stdout := sys_stdout s;
     sys_world := sys_world s; sys_notified := sys_notified s |}.

(** [EventBus.__init__]: five fresh empty lists. *)
Definition EventBus_init (h : store) : EventBus * store :=
  let '(r1, h) := alloc [] h in
  let '(r2, h) := alloc [] h in
  let '(r3, h) := alloc [] h in
  let '(r4, h) := alloc [] h in
  let '(r5, h) := alloc [] h in
  ({| _subscribers := ∅; _event_history := [];
      _state := <["cancellations" := r5]> (<["search_queries" := r4]>
                (<["price_changes" := r3]> (<["recent_bookings" := r2]>
                (<["active_holds" := r1]> ∅)))) |}, h).

Definition new_system (w : W) : system :=
  let '(b, h) := EventBus_init empty_store in
  {| sys_bus := b; sys_store := h; sys_stdout := []; sys_world := w;
     sys_notified := [] |}.

(** [subscribe]; [sub_id] is the reading of [str(uuid4())]. *)
Definition subscribe (event_type : string) (callback : Event → Py W unit)
    (filter_predicate : option (Event → outcome bool)) (sub_id : string)
    (b : EventBus) : string * EventBus :=
  let subscription :=
    {| Subscription_id := sub_id; Subscription_event_type := event_type;
       Subscription_callback := callback;
       Subscription_filter_predicate := filter_predicate |} in
  (sub_id,
   {| _subscribers :=
        <[event_type := default [] (_subscribers b !! event_type)
                        ++ [subscription]]> (_subscribers b);
      _event_history := _event_history b; _state := _state b |}).

(** The dict [{**event.payload, 'event_id': event.id, 'timestamp': event.ts}]. *)
Definition entry_of (event : Event) : entry :=
  <["timestamp" := VStr (Event_ts event)]>
    (<["event_id" := VStr (Event_id event)]> (Event_payload event)).

(** [self._state[key].append(x)]. *)
Definition state_append (key : string) (x : entry) : Py system unit := λ s,
  match _state (sys_bus s) !! key with
  | None => (Raise (KeyError key), s)
  | Some r => (Ok (), with_store (list_append r x (sys_store s)) s)
  end.

(** The comprehension of the [BOOKED] branch: a new list, bound to
    ['active_holds'] in place of the old one. *)
Definition keeps_hold (event : Event) (hold : entry) : bool :=
  negb (eqb_opt (hold !! "id") (Event_payload event !! "hold_id")).

Definition remove_hold (event : Event) : Py system unit := λ s,
  match _state (sys_bus s) !! "active_holds" with
  | None => (Raise (KeyError "active_holds"), s)
  | Some r =>
      let kept := List.filter (keeps_hold event) (deref (sys_store s) r) in
      let '(r', h) := alloc kept (sys_store s) in
      let b := sys_bus s in
      (Ok (),
       with_store h
         (with_bus {| _subscribers := _subscribers b;
                      _event_history := _event_history b;
                      _state := <["active_holds" := r']> (_state b) |} s))
  end.

(** [_update_state]. *)
Definition _update_state (event : Event) : Py system unit :=
  if String.eqb (Event_name event) "HOLD" then
    state_append "active_holds" (entry_of event)
  else if String.eqb (Event_name event) "BOOKED" then
    _ ←ₚ state_append "recent_bookings" (entry_of event);
    remove_hold event
  else if String.eqb (Event_name event) "CANCELLED" then
    state_append "cancellations" (entry_of event)
  else if String.eqb (Event_name event) "PRICE_CHANGED" then
    state_append "price_changes" (entry_of event)
  else if String.eqb (Event_name event) "SEARCH" then
    state_append "search_queries" (entry_of event)
  else ret ().

(** Run a callable of the subscriber on its environment. *)
Definition in_world {A} (m : Py W A) : Py system A := λ s,
  let '(r, w) := m (sys_world s) in
  (r, {| sys_bus := sys_bus s; sys_store := sys_store s;
         sys_stdout := sys_stdout s; sys_world := w;
         sys_notified := sys_notified s |}).

Definition print (line : string) : Py system unit := λ s,
  (Ok (), {| sys_bus := sys_bus s; sys_store := sys_store s;
             sys_stdout := sys_stdout s ++ [line]; sys_world := sys_world s;
             sys_notified := sys_notified s |}).

Definition note_call (sub_id : string) : Py system unit := λ s,
  (Ok (), {| sys_bus := sys_bus s; sys_store := sys_store s;
             sys_stdout := sys_stdout s; sys_world := sys_world s;
             sys_notified := sys_notified s ++ [sub_id] |}).

(** The body of the notification loop for one subscriber: the [try]
    block, with the filter test and the call, and its [except] handler. *)
Definition deliver (subscriber : Subscription) (event : Event)
  : Py system unit :=
  try_except
    (skip ←ₚ match Subscription_filter_predicate subscriber with
             | None => ret false
             | Some p => ok ←ₚ (λ s, (p event, s)); ret (negb ok)
             end;
     if skip : bool then ret ()
     else _ ←ₚ note_call (Subscription_id subscriber);
          in_world (Subscription_callback subscriber event))
    (λ e, print ("Error in event subscriber "
                 +:+ Subscription_id subscriber +:+ ": " +:+ str e)).

Fixpoint notify (subscribers : list Subscription) (event : Event)
  : Py system unit :=
  match subscribers with
  | [] => ret ()
  | subscriber :: rest => _ ←ₚ deliver subscriber event; notify rest event
  end.

Definition append_history (event : Event) : Py system unit := λ s,
  let b := sys_bus s in
  (Ok (), with_bus {| _subscribers := _subscribers b;
                      _event_history := _event_history b ++ [event];
                      _state := _state b |} s).

(** [publish]. *)
Definition publish (event : Event) : Py system unit :=
  _ ←ₚ append_history event;
  _ ←ₚ _update_state event;
  λ s, match _subscribers (sys_bus s) !! Event_name event with
       | Some subscribers => notify subscribers event s
       | None => (Ok (), s)
       end.

(** [get_state]: [self._state.copy()], a new dict holding the same list
    references. *)
Definition get_state (b : EventBus) : gmap string loc := _state b.

(** A caller's [snapshot[key].append(x)] on a dict returned by
    [get_state]. *)
Definition snapshot_append (snapshot : gmap string loc) (key : string)
    (x : entry) : Py system unit := λ s,
  match snapshot !! key with
  | None => (Raise (KeyError key), s)
  | Some r => (Ok (), with_store (list_append r x (sys_store s)) s)
  end.

(** Reading a list through a dict of references, at store [h]. *)
Definition read (h : store) (d : gmap string loc) (key : string)
  : list entry :=
  default [] (deref h <$> d !! key).

(** The derived state as the bus sees it. *)
Definition derived (s : system) (key : string) : list entry :=
  read (sys_store s) (_state (sys_bus s)) key.

(** The five keys of the derived state. *)
Definition state_keys : list string :=
  ["active_holds"; "recent_bookings"; "price_changes"; "search_queries";
   "cancellations"].

(** Invariant of a bus built by [EventBus_init] and driven by [publish]:
    the five keys are bound, distinct keys hold distinct list objects, and
    every list object held was allocated. *)
Definition wf (s : system) : Prop :=
  (∀ k, k ∈ state_keys → is_Some (_state (sys_bus s) !! k))
  ∧ (∀ k1 k2 r, _state (sys_bus s) !! k1 = Some r →
                _state (sys_bus s) !! k2 = Some r → k1 = k2)
  ∧ (∀ k r, _state (sys_bus s) !! k = Some r → r < next_loc (sys_store s)).

(** What [_update_state] does, read on the contents of the derived
    state. *)
Definition reduced (event : Event) (d : string → list entry) (key : string)
  : list entry :=
  if String.eqb (Event_name event) "HOLD" then
    if String.eqb key "active_holds" then d key ++ [entry_of event] else d key
  else if String.eqb (Event_name event) "BOOKED" then
    if String.eqb key "recent_bookings" then d key ++ [entry_of event]
    else if String.eqb key "active_holds"
    then List.filter (keeps_hold event) (d key)
    else d key
  else if String.eqb (Event_name event) "CANCELLED" then
    if String.eqb key "cancellations" then d key ++ [entry_of event] else d key
  else if String.eqb (Event_name event) "PRICE_CHANGED" then
    if String.eqb key "price_changes" then d key ++ [entry_of event] else d key
  else if String.eqb (Event_name event) "SEARCH" then
    if String.eqb key "search_queries" then d key ++ [entry_of event]
    else d key
  else d key.

(** The subscriber's filter lets the event through: there is no filter,
    or it returns true. *)
Definition accepts (event : Event) (subscriber : Subscription) : bool :=
  match Subscription_filter_predicate subscriber with
  | None => true
  | Some p => match p event with
              | Ok b => b
              | Raise _ => false
              end
  end.

(** What a step on the derived state leaves alone. *)
Definition same_frame (s s' : system) : Prop :=
  _subscribers (sys_bus s') = _subscribers (sys_bus s)
  ∧ _event_history (sys_bus s') = _event_history (sys_bus s)
  ∧ sys_stdout s' = sys_stdout s
  ∧ sys_world s' = sys_world s
  ∧ sys_notified s' = sys_notified s.

(** The subscribers registered for [event.name], in registration order. *)
Definition subscribers_of (event : Event) (b : EventBus)
  : list Subscription :=
  default [] (_subscribers b !! Event_name event).

End bus.
End frp.

(** ** core/service.py: search, booking and batch quotes *)

Module service.
Import py domain ftypes.

(** *** SearchService *)

(** [list.sort(key=..., reverse=True)]: a stable sort into descending key
    order; elements with equal keys keep their relative order.  Keys are
    integers here (the factory's scorers return ints, or the floats 1.0
    and 0.0). *)
Fixpoint insert_desc {A} (key : A → Z) (x : A) (l : list A) : list A :=
  match l with
  | [] => [x]
  | y :: l' =>
      if (key x <? key y)%Z then y :: insert_desc key x l' else x :: y :: l'
  end.

Definition sort_reverse {A} (key : A → Z) (l : list A) : list A :=
  foldr (insert_desc key) [] l.

(** The order a stable descending sort by [key] produces from a list
    ordered by [R]: a larger key first, and [R] among equal keys. *)
Definition then_by {A} (key : A → Z) (R : relation A) : relation A :=
  λ x y, (key y < key x)%Z ∨ (key x = key y ∧ R x y).

(** The order after one such sort per scorer, in configuration order. *)
Definition order_after {A} (scorers : list (A → Z)) (R : relation A)
  : relation A :=
  foldl (λ R scorer, then_by scorer R) R scorers.

Record SearchService := {
  filters : list (lazy.search_result → bool);
  scorers : list (lazy.search_result → Z) }.

(** The [search_request] dict: the keys read by [lazy_search_results], and
    ['limit'], which may be missing ([None] here), or present with value
    [None] or an int. *)
Record search_request := {
  request_filters : lazy.filters;
  request_limit : option (option Z) }.

(** [search_request.get('limit', 50)]. *)
Definition request_limit_or_50 (r : search_request) : option Z :=
  default (Some 50%Z) (request_limit r).

(** [apply_filters]: [all(filter_func(result) ...)]. *)
Definition apply_filters (self : SearchService) (result : lazy.search_result)
  : bool :=
  forallb (λ filter_func, filter_func result) (filters self).

(** The filtered list, before any sorting. *)
Definition filtered_results (self : SearchService) (hotels : list Hotel)
    (room_types : list RoomType) (rates : list RatePlan)
    (prices : list Price) (availability : list Availability)
    (request : search_request) : list lazy.search_result :=
  let results :=
    (lazy.to_list
       (lazy.lazy_search_results hotels room_types rates prices availability
          (request_filters request) (request_limit_or_50 request))).1 in
  List.filter (apply_filters self) results.

(** [SearchService.search]: one in-place sort per scorer, in order. *)
Definition search (self : SearchService) (hotels : list Hotel)
    (room_types : list RoomType) (rates : list RatePlan)
    (prices : list Price) (availability : list Availability)
    (request : search_request) : list lazy.search_result :=
  foldl (λ results scorer, sort_reverse scorer results)
        (filtered_results self hotels room_types rates prices availability
                          request)
        (scorers self).

(** [create_search_service].  The result dicts carry no ['search_city'],
    ['search_guests'] or ['search_max_price'] key, so the three filters
    read [None], the default 1 and [None]. *)
Definition city_filter (result : lazy.search_result) : bool := true.

Definition capacity_filter (result : lazy.search_result) : bool :=
  (1 <=? RoomType_capacity (lazy.result_room_type result))%Z.

Definition price_filter (result : lazy.search_result) : bool := true.

Definition price_scorer (result : lazy.search_result) : Z :=
  (- lazy.result_price_per_night result)%Z.

Definition rating_scorer (result : lazy.search_result) : Z :=
  Hotel_stars (lazy.result_hotel result).

Definition availability_scorer (result : lazy.search_result) : Z :=
  if lazy.result_available result then 1%Z else 0%Z.

Definition create_search_service : SearchService :=
  {| filters := [city_filter; capacity_filter; price_filter];
     scorers := [price_scorer; rating_scorer; availability_scorer] |}.

(** *** BookingService *)

(** The [booking_data] dict by key; ['total'] is missing until
    [_calculate_totals] adds it. *)
Record booking_data := {
  data_guest : gmap string value;
  data_items : list CartItem;
  data_prices : list Price;
  data_availability : list Availability;
  data_rules : list Rule;
  data_total : option Z }.

(** What flows between pipeline stages: the dict, or a [Booking]. *)
Inductive stage_value :=
| Data (d : booking_data)
| Booked (b : Booking).

Record BookingService := {
  validators : list (stage_value → outcome (Either string stage_value));
  quoter : CartItem → list Price → outcome Z;
  finalizer : stage_value → outcome stage_value }.

(** [_validate_booking]: on a [Left] result it raises
    [ValueError(result.get_or_else("Validation failed"))]. *)
Fixpoint validate_loop
    (vs : list (stage_value → outcome (Either string stage_value)))
    (booking_data : stage_value) : outcome stage_value :=
  match vs with
  | [] => Ok booking_data
  | validator :: rest =>
      result ← validator booking_data;
      match result with
      | Right _ => validate_loop rest booking_data
      | Left e =>
          Raise (ValueError (Either_get_or_else (Left e) "Validation failed"))
      end
  end.

Definition _validate_booking (self : BookingService)
    (booking_data : stage_value) : outcome stage_value :=
  validate_loop (validators self) booking_data.

(** [sum(self.quoter(item, prices) for item in items)]. *)
Fixpoint sum_quotes (q : CartItem → list Price → outcome Z)
    (prices : list Price) (items : list CartItem) (acc : Z) : outcome Z :=
  match items with
  | [] => Ok acc
  | item :: rest => x ← q item prices; sum_quotes q prices rest (acc + x)%Z
  end.

Definition not_subscriptable : exn :=
  TypeError "'Booking' object is not subscriptable".

Definition _calculate_totals (self : BookingService)
    (booking_data : stage_value) : outcome stage_value :=
  match booking_data with
  | Booked _ => Raise not_subscriptable
  | Data d =>
      total ← sum_quotes (quoter self) (data_prices d) (data_items d) 0%Z;
      Ok (Data {| data_guest := data_guest d; data_items := data_items d;
                  data_prices := data_prices d;
                  data_availability := data_availability d;
                  data_rules := data_rules d; data_total := Some total |})
  end.

Definition _finalize_booking (self : BookingService)
    (booking_data : stage_value) : outcome stage_value :=
  finalizer self booking_data.

(** [create_booking]: the three stages are recorded with [PipeLine.map] in
    the order validate, totals, finalize, and run by [PipeLine.run]. *)
Definition create_booking (self : BookingService) (guest : gmap string value)
    (cart_items : list CartItem) (prices : list Price)
    (availability : list Availability) (rules : list Rule)
  : Either string stage_value :=
  let booking_pipeline :=
    compose.PipeLine_map
      (compose.PipeLine_map
         (compose.PipeLine_map
            (compose.PipeLine_of
               (Data {| data_guest := guest; data_items := cart_items;
                        data_prices := prices;
                        data_availability := availability;
                        data_rules := rules; data_total := None |}))
            (_validate_booking self))
         (_calculate_totals self))
      (_finalize_booking self) in
  match compose.PipeLine_run booking_pipeline with
  | Ok result => Right result
  | Raise e => Left (str e)
  end.

(** [create_booking_service] and its local functions. *)
Fixpoint contains_at (s : string) : bool :=
  match s with
  | EmptyString => false
  | String c s' => Ascii.eqb c "@"%char || contains_at s'
  end.

Definition no_get : exn :=
  AttributeError "'Booking' object has no attribute 'get'".

(** ['@' not in email] needs a string; on a truthy value of another type
    the test raises [TypeError] (CPython's wording up to 3.12). *)
Definition validate_guest_data (booking_data : stage_value)
  : outcome (Either string stage_value) :=
  match booking_data with
  | Booked _ => Raise no_get
  | Data d =>
      let guest := data_guest d in
      if negb (truthy_opt (guest !! "name"))
      then Ok (Left "Guest name is required")
      else if negb (truthy_opt (guest !! "email"))
      then Ok (Left "Guest email is required")
      else match guest !! "email" with
           | Some (VStr email) =>
               if negb (contains_at email)
               then Ok (Left "Invalid email format")
               else Ok (Right booking_data)
           | Some (VBool _) =>
               Raise (TypeError "argument of type 'bool' is not iterable")
           | _ => Raise (TypeError "argument of type 'int' is not iterable")
           end
  end.

Fixpoint first_sold_out (items : list CartItem) : option string :=
  match items with
  | [] => None
  | item :: rest =>
      if String.prefix "sold_out" (CartItem_room_type_id item)
      then Some (CartItem_room_type_id item)
      else first_sold_out rest
  end.

Definition validate_availability (booking_data : stage_value)
  : outcome (Either string stage_value) :=
  match booking_data with
  | Booked _ => Raise no_get
  | Data d =>
      match first_sold_out (data_items d) with
      | Some room => Ok (Left ("Room " +:+ room +:+ " is not available"))
      | None => Ok (Right booking_data)
      end
  end.

Definition calculate_item_price (item : CartItem) (prices : list Price)
  : outcome Z :=
  let nights := 3%Z in Ok (CartItem_guests item * 100 * nights)%Z.

(** [finalize_booking]; [uid] is the reading of [uuid4().hex[:8]] and
    [now] that of [datetime.now().strftime(...)].  The keyword arguments
    of [Booking(...)] are evaluated in the order written. *)
Definition finalize_booking (uid now : string) (booking_data : stage_value)
  : outcome stage_value :=
  match booking_data with
  | Booked _ => Raise not_subscriptable
  | Data d =>
      guest_id ← getitem (data_guest d) "id";
      total ← match data_total d with
              | Some t => Ok t
              | None => Raise (KeyError "total")
              end;
      Ok (Booked {| Booking_id := "booking_" +:+ uid;
                    Booking_guest_id := guest_id;
                    Booking_items := data_items d;
                    Booking_total := total;
                    Booking_status := "confirmed";
                    Booking_created_at := now |})
  end.

Definition create_booking_service (uid now : string) : BookingService :=
  {| validators := [validate_guest_data; validate_availability];
     quoter := calculate_item_price;
     finalizer := finalize_booking uid now |}.

(** *** AsyncQuoteService *)

Section quote_batch.
(** An item is the keyword dict of one quote request.
    [calculate_single_quote item] is the outcome of awaiting the coroutine
    of that name: the quote, or the exception it ended with.
    [asyncio.gather] with [return_exceptions=True] waits for all of them
    and hands both kinds back as values, in the order of the items. *)
Context {Item Quote : Type}.
Variable calculate_single_quote : Item → outcome Quote.

Record failed_quote := {
  failed_item : Item;
  failed_error : string }.

Record batch_result := {
  successful : list Quote;
  failed : list failed_quote;
  total_count : nat;
  success_count : nat;
  failure_count : nat }.

Definition gather (items : list Item) : list (outcome Quote) :=
  map calculate_single_quote items.

(** The grouping loop over [enumerate(results)]; [items[i]] raises
    [IndexError] when [i] is out of range. *)
Fixpoint group_results (items : list Item)
    (results : list (nat * outcome Quote))
    (successful_quotes : list Quote) (failed_quotes : list failed_quote)
  : outcome (list Quote * list failed_quote) :=
  match results with
  | [] => Ok (successful_quotes, failed_quotes)
  | (i, Raise e) :: rest =>
      match items !! i with
      | None => Raise (IndexError "list index out of range")
      | Some item =>
          group_results items rest successful_quotes
            (failed_quotes
               ++ [{| failed_item := item; failed_error := str e |}])
      end
  | (i, Ok q) :: rest =>
      group_results items rest (successful_quotes ++ [q]) failed_quotes
  end.

Definition enumerate {A} (l : list A) : list (nat * A) :=
  zip (seq 0 (length l)) l.

(** [AsyncQuoteService.quote_batch]. *)
Definition quote_batch (items : list Item) : outcome batch_result :=
  let results := gather items in
  '(successful_quotes, failed_quotes) ←
    group_results items (enumerate results) [] [];
  Ok {| successful := successful_quotes;
        failed := failed_quotes;
        total_count := length items;
        success_count := length successful_quotes;
        failure_count := length failed_quotes |}.

(** The quotes of the items whose coroutine returned, and the failure
    records of those whose coroutine raised, each in item order. *)
Definition quotes_of (items : list Item) : list Quote :=
  omap (λ item, match calculate_single_quote item with
                | Ok q => Some q
                | Raise _ => None
                end) items.

Definition failures_of (items : list Item) : list failed_quote :=
  omap (λ item, match calculate_single_quote item with
                | Ok _ => None
                | Raise e => Some {| failed_item := item;
                                     failed_error := str e |}
                end) items.

End quote_batch.

End service.

(** ** Sample data used by the concrete evaluations *)

Module sample.
Import py domain.

Definition hotel_1 : Hotel :=
  {| Hotel_id := "hotel_1"; Hotel_name := "Grand Plaza"; Hotel_stars := 5;
     Hotel_city := "Moscow"; Hotel_features := ["wifi"];
     Hotel_description := "" |}.

Definition room_1 : RoomType :=
  {| RoomType_id := "room_1"; RoomType_hotel_id := "hotel_1";
     RoomType_name := "Standard"; RoomType_capacity := 2;
     RoomType_beds := ["double"]; RoomType_features := [];
     RoomType_size := "" |}.

Definition rate_1 : RatePlan :=
  {| RatePlan_id := "rate_1"; RatePlan_hotel_id := "hotel_1";
     RatePlan_room_type_id := "room_1"; RatePlan_title := "Flexible";
     RatePlan_meal := "BB"; RatePlan_refundable := true;
     RatePlan_cancel_before_days := Some 1%Z; RatePlan_description := "" |}.

Definition rate_2 : RatePlan :=
  {| RatePlan_id := "rate_2"; RatePlan_hotel_id := "hotel_1";
     RatePlan_room_type_id := "room_1"; RatePlan_title := "Saver";
     RatePlan_meal := "RO"; RatePlan_refundable := false;
     RatePlan_cancel_before_days := None; RatePlan_description := "" |}.

(** A [filters] dict without any key. *)
Definition no_filters : lazy.filters :=
  {| lazy.filters_city := None; lazy.filters_min_stars := None;
     lazy.filters_guests := None; lazy.filters_max_price := None;
     lazy.filters_features := None |}.

(** [lazy_search_results((hotel_1,), (room_1,), (rate_1, rate_2), (), (),
    {}, limit)]. *)
Definition two_rates (limit : option Z) : lazy.search_gen :=
  lazy.lazy_search_results [hotel_1] [room_1] [rate_1; rate_2] [] []
    no_filters limit.

(** A HOLD event with payload [{'id': 'h1'}] and a BOOKED event with
    payload [{'hold_id': 'h1'}]. *)
Definition hold_h1 : Event :=
  {| Event_id := "e1"; Event_ts := "2024-01-01T10:00:00";
     Event_name := "HOLD"; Event_payload := {["id" := VStr "h1"]} |}.

Definition booked_h1 : Event :=
  {| Event_id := "e2"; Event_ts := "2024-01-01T10:05:00";
     Event_name := "BOOKED"; Event_payload := {["hold_id" := VStr "h1"]} |}.

(** A bus just constructed, with no subscriber, and the dict its
    [get_state()] returns. *)
Definition fresh_bus : frp.system (W:=unit) := frp.new_system tt.

Definition snapshot : gmap string nat := frp.get_state (frp.sys_bus fresh_bus).

(** Two subscribers to HOLD on an environment that is a log of lines: the
    first raises, the second writes a line. *)
Definition failing_callback (event : Event) : Py (list string) unit :=
  λ log, (Raise (RuntimeError "boom"), log).

Definition logging_callback (event : Event) : Py (list string) unit :=
  λ log, (Ok (), log ++ ["second saw " +:+ Event_id event]).

Definition bus_two_subscribers : frp.system (W:=list string) :=
  let s := frp.new_system [] in
  let '(_, b) := frp.subscribe "HOLD" failing_callback None "sub-1"
                   (frp.sys_bus s) in
  let '(_, b) := frp.subscribe "HOLD" logging_callback None "sub-2" b in
  frp.with_bus b s.

End sample.

(** ** core/recursion.py: the filter functions *)

Module recursion.
Import py domain.

(** [domain.SearchFilters]; an absent optional field is [None]. *)
Record SearchFilters := {
  SearchFilters_city : option string;
  SearchFilters_checkin : option string;
  SearchFilters_checkout : option string;
  SearchFilters_guests : option Z;
  SearchFilters_min_price : option Z;
  SearchFilters_max_price : option Z;
  SearchFilters_features : list string;
  SearchFilters_stars : list Z }.

(** [by_city(city)]. *)
Definition by_city (city : string) (hotel : Hotel) : bool :=
  String.eqb (lazy.lower (Hotel_city hotel)) (lazy.lower city).

(** [by_capacity(guests)]. *)
Definition by_capacity (guests : Z) (room : RoomType) : bool :=
  (guests <=? RoomType_capacity room)%Z.

(** [by_features(required)] on a hotel, which has a [features]
    attribute. *)
Definition by_features (required : list string) (hotel : Hotel) : bool :=
  forallb (λ feature, bool_decide (feature ∈ Hotel_features hotel)) required.

(** [by_price_range(min_amt, max_amt, currency)]. *)
Definition by_price_range (min_amt max_amt : Z) (currency : string)
    (price : Price) : bool :=
  (min_amt <=? Price_amount price)%Z && (Price_amount price <=? max_amt)%Z
  && String.eqb (Price_currency price) currency.

(** [compose_filters]: [all(f(item) for f in filters)]. *)
Definition compose_filters {A} (filters : list (A → bool)) (item : A) : bool :=
  forallb (λ f, f item) filters.

(** The list [filter_funcs] built by [filter_hotels]. *)
Definition filter_funcs (filters : SearchFilters) : list (Hotel → bool) :=
  (if lazy.truthy_str (SearchFilters_city filters)
   then [by_city (default "" (SearchFilters_city filters))] else [])
  ++ (match SearchFilters_features filters with
      | [] => []
      | _ :: _ => [by_features (SearchFilters_features filters)]
      end)
  ++ (match SearchFilters_stars filters with
      | [] => []
      | _ :: _ =>
          [λ hotel, bool_decide (Hotel_stars hotel
                                 ∈ SearchFilters_stars filters)]
      end).

(** [filter_hotels]. *)
Definition filter_hotels (hotels : list Hotel) (filters : SearchFilters)
  : list Hotel :=
  match filter_funcs filters with
  | [] => hotels
  | funcs => List.filter (compose_filters funcs) hotels
  end.

(** What the three tests of [filter_hotels] ask of a hotel. *)
Definition matches (filters : SearchFilters) (hotel : Hotel) : Prop :=
  (∀ city, SearchFilters_city filters = Some city → city ≠ "" →
           lazy.lower (Hotel_city hotel) = lazy.lower city)
  ∧ (∀ feature, feature ∈ SearchFilters_features filters →
                feature ∈ Hotel_features hotel)
  ∧ (SearchFilters_stars filters ≠ [] →
     Hotel_stars hotel ∈ SearchFilters_stars filters).

End recursion.

(** ** core/compose.py and core/ftypes.py: composition with Either *)

Module pipelines.
Import py ftypes.

(** A computation without effects, as one over any environment. *)
Definition of_outcome {W A} (o : outcome A) : Py W A := λ w, (o, w).

Section effects.
Context {W V : Type}.

(** [Either.try_except(func, Exception)]: the value in a [Right], or the
    text of the exception in a [Left]. *)
Definition Either_try_except (func : Py W V) : Py W (Either string V) :=
  try_except (v ←ₚ func; ret (Right v)) (λ e, ret (Left (str e))).

(** [ftypes.compose]: the functions are applied from the first to the
    last; an exception ends the loop. *)
Fixpoint ftypes_compose (functions : list (V → Py W V)) (arg : V) : Py W V :=
  match functions with
  | [] => ret arg
  | func :: rest => result ←ₚ func arg; ftypes_compose rest result
  end.

(** The loop of [either_compose]'s [composed]:
    [result = result.bind(lambda x: Either.try_except(lambda: func(x)))]
    for each function in turn. *)
Fixpoint either_loop (functions : list (V → Py W V))
    (result : Either string V) : Py W (Either string V) :=
  match functions with
  | [] => ret result
  | func :: rest =>
      result' ←ₚ Either_bind result (λ x, Either_try_except (func x));
      either_loop rest result'
  end.

(** [either_compose]. *)
Definition either_compose (functions : list (V → Py W V)) (arg : V)
  : Py W (Either string V) :=
  either_loop functions (Right arg).

(** [Maybe.from_nullable]; [None] is the absent value. *)
Definition Maybe_from_nullable (value : option V) : Maybe V :=
  match value with
  | Some v => Just v
  | None => Nothing
  end.

(** The loop of [safe_compose]'s [composed]. *)
Fixpoint safe_loop (functions : list (V → Py W (option V)))
    (result : Maybe V) : Py W (Maybe V) :=
  match functions with
  | [] => ret result
  | func :: rest =>
      result' ←ₚ Maybe_bind result
                   (λ x, v ←ₚ func x; ret (Maybe_from_nullable v));
      safe_loop rest result'
  end.

(** [safe_compose]. *)
Definition safe_compose (functions : list (V → Py W (option V))) (arg : V)
  : Py W (Maybe V) :=
  safe_loop functions (Just arg).

End effects.

(** [Maybe.to_either]. *)
Definition Maybe_to_either {T} (self : Maybe T) (error_msg : string)
  : Either string T :=
  match self with
  | Just v => Right v
  | Nothing => Left error_msg
  end.

End pipelines.

(** ** core/ftypes.py: the domain validators *)

Module validators.
Import py domain ftypes.

(** [bind] and [map] of [Either] and [Maybe] applied to functions without
    effects. *)
Definition bind {E T U} (self : Either E T) (func : T → Either E U)
  : Either E U :=
  match self with
  | Right v => func v
  | Left e => Left e
  end.

Definition map {E T U} (self : Either E T) (func : T → U) : Either E U :=
  match self with
  | Right v => Right (func v)
  | Left e => Left e
  end.

(** [safe_rate] and [safe_room_lookup]: the first record with the id. *)
Fixpoint safe_rate (rates : list RatePlan) (rate_id : string)
  : Maybe RatePlan :=
  match rates with
  | [] => Nothing
  | rate :: rest =>
      if String.eqb (RatePlan_id rate) rate_id then Just rate
      else safe_rate rest rate_id
  end.

Fixpoint safe_room_lookup (room_types : list RoomType) (room_id : string)
  : Maybe RoomType :=
  match room_types with
  | [] => Nothing
  | room :: rest =>
      if String.eqb (RoomType_id room) room_id then Just room
      else safe_room_lookup rest room_id
  end.

(** [validate_dates]; two midnights compare as their ordinals do, and a
    string [strptime] rejects ends in the [except ValueError] branch. *)
Definition validate_dates (checkin checkout : string)
  : Either string (string * string) :=
  match memo.strptime checkin, memo.strptime checkout with
  | Some checkin_date, Some checkout_date =>
      if (memo.toordinal checkout_date <=? memo.toordinal checkin_date)%Z
      then Left "Checkout date must be after checkin date"
      else if (30 <? memo.days_between checkin_date checkout_date)%Z
      then Left "Maximum stay is 30 days"
      else Right (checkin, checkout)
  | _, _ => Left "Invalid date format. Use YYYY-MM-DD"
  end.

(** [validate_guests]; the f-string prints the capacity in decimal. *)
Definition validate_guests (guests room_capacity : Z) : Either string Z :=
  if (guests <=? 0)%Z then Left "Number of guests must be positive"
  else if (room_capacity <? guests)%Z
  then Left ("Room capacity exceeded. Maximum: " +:+ pretty room_capacity
             +:+ " guests")
  else Right guests.

(** The test inside [any(...)] of [validate_cart_item]; dates compare as
    strings. *)
Definition covers (item : CartItem) (avail : Availability) : bool :=
  String.eqb (Availability_room_type_id avail) (CartItem_room_type_id item)
  && String.leb (CartItem_checkin item) (Availability_date avail)
  && String.ltb (Availability_date avail) (CartItem_checkout item)
  && (0 <? Availability_available avail)%Z.

(** [validate_cart_item]; [rules] is not read. *)
Definition validate_cart_item (item : CartItem)
    (availability : list Availability) (rules : list Rule)
  : Either string CartItem :=
  let available :=
    match availability with
    | [] => true
    | _ :: _ => existsb (covers item) availability
    end in
  if negb available then Left "No availability for selected dates"
  else if (4 <? CartItem_guests item)%Z
  then Left "Guest count exceeds maximum room capacity"
  else Right item.

(** [sum(item.guests * 100 for item in booking.items)]. *)
Definition calculated_total (items : list CartItem) : Z :=
  foldl (λ acc item, acc + CartItem_guests item * 100)%Z 0%Z items.

(** [validate_booking_total]; [prices] is not read. *)
Definition validate_booking_total (booking : Booking) (prices : list Price)
  : Either string Booking :=
  let total := calculated_total (Booking_items booking) in
  if (10 <? Z.abs (total - Booking_total booking))%Z
  then Left ("Price mismatch detected. Expected: " +:+ pretty total
             +:+ ", Got: " +:+ pretty (Booking_total booking))
  else Right booking.

(** The loop of [validate_booking]:
    [validation_result.bind(lambda b: validate_item(item).map(lambda _: b))]
    for each item in turn. *)
Definition validate_items (availability : list Availability)
    (rules : list Rule) (items : list CartItem)
    (validation_result : Either string Booking) : Either string Booking :=
  foldl (λ result item,
           bind result
             (λ b, map (validate_cart_item item availability rules)
                       (λ _, b)))
        validation_result items.

(** [validate_booking]. *)
Definition validate_booking (booking : Booking) (prices : list Price)
    (availability : list Availability) (rules : list Rule)
  : Either string Booking :=
  bind (validate_items availability rules (Booking_items booking)
          (Right booking))
       (λ b, validate_booking_total b prices).

(** The [booking_data] dict of [safe_booking_pipeline], by key. *)
Record pipeline_data := {
  pipeline_checkin : string;
  pipeline_checkout : string;
  pipeline_guests : Z;
  pipeline_rate_id : string }.

(** What a call of [safe_booking_pipeline] ends in: a value, or the
    [NameError] of a name that no scope binds. *)
Inductive pipeline_run :=
| Returns (result : Either string RatePlan)
| RaisesNameError (name : string).

(** The result of the first two lambdas, each a run. *)
Inductive stage_run (T : Type) :=
| Stage (result : Either string T)
| StageNameError (name : string).
Arguments Stage {T} result.
Arguments StageNameError {T} name.

(** [safe_booking_pipeline].  The three lambdas are run from the first to
    the last.  Only the first lambda binds [data]; in the bodies of the
    inner lambdas of the second and the third, [data] is a free name that
    neither the function nor the module binds, so evaluating it raises
    [NameError].  [bind] runs an inner lambda only on a [Right]. *)
Definition safe_booking_pipeline (booking_data : pipeline_data)
    (rates : list RatePlan) (rooms : list RoomType)
    (availability : list Availability) : pipeline_run :=
  let dates_result : Either string (string * string) :=
    validate_dates (pipeline_checkin booking_data)
                   (pipeline_checkout booking_data) in
  let guests_result : stage_run Z :=
    match dates_result with
    | Right dates => StageNameError "data"
    | Left e => Stage (Left e)
    end in
  match guests_result with
  | StageNameError name => RaisesNameError name
  | Stage (Right guests) => RaisesNameError "data"
  | Stage (Left e) => Returns (Left e)
  end.

End validators.

(** ** core/compose.py: the booking pipeline *)

Module booking_pipeline.
Import py ftypes.

(** A number that is an [int] or a [float]. *)
Inductive number (F : Type) :=
| Int (n : Z)
| Float (x : F).
Arguments Int {F} n.
Arguments Float {F} x.

(** The reading of [datetime.now()]: its date, and whether its time of
    day is past midnight. *)
Record clock := {
  clock_today : memo.date;
  clock_past_midnight : bool }.

(** [(checkin - today).days] for a checkin at midnight: whole days,
    rounded down. *)
Definition days_until (now : clock) (checkin : memo.date) : Z :=
  (memo.toordinal checkin - memo.toordinal (clock_today now)
   - (if clock_past_midnight now then 1 else 0))%Z.

Section stages.
(** [F] stands for Python's floats and [times_0_9 total] for the product
    [total * 0.9] of an int and that float, which raises [OverflowError]
    when the int is beyond the range of floats. *)
Context {F : Type}.
Variable times_0_9 : Z → outcome F.

(** The [booking] dict by key.  The first three keys must be there;
    the others are optional in the input or added on the way. *)
Record booking := {
  booking_checkin : string;
  booking_checkout : string;
  booking_guests : Z;
  booking_room_type_id : option string;
  booking_price_per_night : option Z;
  booking_available : option bool;
  booking_total_price : option Z;
  booking_nights : option Z;
  booking_early_booking_discount : bool;
  booking_final_price : option (number F);
  booking_booking_id : option string;
  booking_status : option string;
  booking_created_at : option string }.

Definition bad_date : exn := ValueError "time data does not match format".

(** [validate_booking_dates]. *)
Definition validate_booking_dates (b : booking) : outcome booking :=
  match memo.strptime (booking_checkin b) with
  | None => Raise bad_date
  | Some checkin =>
      match memo.strptime (booking_checkout b) with
      | None => Raise bad_date
      | Some checkout =>
          if (memo.toordinal checkout <=? memo.toordinal checkin)%Z
          then Raise (ValueError "Checkout date must be after checkin date")
          else if (30 <? memo.days_between checkin checkout)%Z
          then Raise (ValueError "Maximum stay is 30 days")
          else Ok b
      end
  end.

(** [validate_guest_count]. *)
Definition validate_guest_count (b : booking) : outcome booking :=
  if (booking_guests b <=? 0)%Z
  then Raise (ValueError "Number of guests must be positive")
  else if (10 <? booking_guests b)%Z
  then Raise (ValueError "Maximum 10 guests per booking")
  else Ok b.

(** [check_room_availability]. *)
Definition check_room_availability (b : booking) : outcome booking :=
  if bool_decide (booking_room_type_id b = Some "room_sold_out")
  then Raise (ValueError "Room not available for selected dates")
  else Ok {| booking_checkin := booking_checkin b;
             booking_checkout := booking_checkout b;
             booking_guests := booking_guests b;
             booking_room_type_id := booking_room_type_id b;
             booking_price_per_night := booking_price_per_night b;
             booking_available := Some true;
             booking_total_price := booking_total_price b;
             booking_nights := booking_nights b;
             booking_early_booking_discount :=
               booking_early_booking_discount b;
             booking_final_price := booking_final_price b;
             booking_booking_id := booking_booking_id b;
             booking_status := booking_status b;
             booking_created_at := booking_created_at b |}.

(** [calculate_total_price]. *)
Definition calculate_total_price (b : booking) : outcome booking :=
  match memo.strptime (booking_checkin b) with
  | None => Raise bad_date
  | Some checkin =>
      match memo.strptime (booking_checkout b) with
      | None => Raise bad_date
      | Some checkout =>
          let nights := memo.days_between checkin checkout in
          let price_per_night := default 100%Z (booking_price_per_night b) in
          let total := (nights * price_per_night * booking_guests b)%Z in
          Ok {| booking_checkin := booking_checkin b;
                booking_checkout := booking_checkout b;
                booking_guests := booking_guests b;
                booking_room_type_id := booking_room_type_id b;
                booking_price_per_night := booking_price_per_night b;
                booking_available := booking_available b;
                booking_total_price := Some total;
                booking_nights := Some nights;
                booking_early_booking_discount :=
                  booking_early_booking_discount b;
                booking_final_price := booking_final_price b;
                booking_booking_id := booking_booking_id b;
                booking_status := booking_status b;
                booking_created_at := booking_created_at b |}
      end
  end.

(** [apply_discounts]; [now] is the reading of [datetime.now()]. *)
Definition apply_discounts (now : clock) (b : booking) : outcome booking :=
  match booking_total_price b with
  | None => Raise (KeyError "total_price")
  | Some total =>
      match memo.strptime (booking_checkin b) with
      | None => Raise bad_date
      | Some checkin =>
          let early := (30 <? days_until now checkin)%Z in
          final_price ← (if early
                         then x ← times_0_9 total; Ok (Float x)
                         else Ok (Int total));
          Ok {| booking_checkin := booking_checkin b;
                booking_checkout := booking_checkout b;
                booking_guests := booking_guests b;
                booking_room_type_id := booking_room_type_id b;
                booking_price_per_night := booking_price_per_night b;
                booking_available := booking_available b;
                booking_total_price := booking_total_price b;
                booking_nights := booking_nights b;
                booking_early_booking_discount :=
                  early || booking_early_booking_discount b;
                booking_final_price := Some final_price;
                booking_booking_id := booking_booking_id b;
                booking_status := booking_status b;
                booking_created_at := booking_created_at b |}
      end
  end.

(** [create_booking_record]; [uid] is the reading of
    [uuid4().hex[:8].upper()] and [created] that of
    [datetime.now().isoformat()]. *)
Definition create_booking_record (uid created : string) (b : booking)
  : outcome booking :=
  Ok {| booking_checkin := booking_checkin b;
        booking_checkout := booking_checkout b;
        booking_guests := booking_guests b;
        booking_room_type_id := booking_room_type_id b;
        booking_price_per_night := booking_price_per_night b;
        booking_available := booking_available b;
        booking_total_price := booking_total_price b;
        booking_nights := booking_nights b;
        booking_early_booking_discount := booking_early_booking_discount b;
        booking_final_price := booking_final_price b;
        booking_booking_id := Some ("BK_" +:+ uid);
        booking_status := Some "confirmed";
        booking_created_at := Some created |}.

(** [create_booking_pipeline()], applied to a booking. *)
Definition create_booking_pipeline {W} (now : clock) (uid created : string)
    (b : booking) : Py W (Either string booking) :=
  pipelines.either_compose
    (List.map (λ stage x, pipelines.of_outcome (stage x))
       [validate_booking_dates; validate_guest_count;
        check_room_availability; calculate_total_price;
        apply_discounts now; create_booking_record uid created])
    b.

End stages.
End booking_pipeline.

(** ** core/memo.py: sequences of calls *)

Module memo_runs.
Import py.

(** The cache after a sequence of calls of [quote_offer], each with its
    arguments and its clock reading. *)
Definition run_calls (calls : list (memo.quote_args * string))
    (c : memo.cache) : memo.cache :=
  foldl (λ c call, (memo.quote_offer call.1 call.2 c).2) c calls.

(** The same argument values, passed in another form. *)
Definition with_form (form : list string) (a : memo.quote_args)
  : memo.quote_args :=
  {| memo.arg_form := form; memo.arg_hotel_id := memo.arg_hotel_id a;
     memo.arg_room_type_id := memo.arg_room_type_id a;
     memo.arg_rate_id := memo.arg_rate_id a;
     memo.arg_checkin := memo.arg_checkin a;
     memo.arg_checkout := memo.arg_checkout a;
     memo.arg_guests := memo.arg_guests a |}.

(** The keyword names of a call that unpacks the dict [params] of
    [benchmark_quotes]. *)
Definition params_form : list string :=
  ["hotel_id"; "room_type_id"; "rate_id"; "checkin"; "checkout"; "guests"].

End memo_runs.

(** ** core/service.py: holds and the integration workflows *)

Module workflows.
Import py domain ftypes.

(** *** [BookingService.hold_booking] *)

(** The [hold_data] dict by key; ['total'] and ['status'] are missing
    until [calculate_hold_totals] adds them. *)
Record hold_data := {
  hold_guest : gmap string value;
  hold_items : list CartItem;
  hold_prices : list Price;
  hold_availability : list Availability;
  hold_hold_id : string;
  hold_created_at : string;
  hold_total : option Z;
  hold_status : option string }.

(** [validate_hold]: the dict has no ['rules'] key, so every item is
    validated against the empty tuple of rules; the first [Left] is
    returned through [map_error]. *)
Fixpoint validate_hold_items (availability : list Availability)
    (items : list CartItem) (hold : hold_data) : Either string hold_data :=
  match items with
  | [] => Right hold
  | item :: rest =>
      match validators.validate_cart_item item availability [] with
      | Left e => Left ("Item validation failed: " +:+ e)
      | Right _ => validate_hold_items availability rest hold
      end
  end.

Definition validate_hold (hold : hold_data) : Either string hold_data :=
  validate_hold_items (hold_availability hold) (hold_items hold) hold.

(** [calculate_hold_totals]: the sum of the quoter over the items, any
    exception turned into a [Left]. *)
Definition calculate_hold_totals (self : service.BookingService)
    (hold : hold_data) : Either string hold_data :=
  match service.sum_quotes (service.quoter self) (hold_prices hold)
          (hold_items hold) 0%Z with
  | Ok total =>
      Right {| hold_guest := hold_guest hold; hold_items := hold_items hold;
               hold_prices := hold_prices hold;
               hold_availability := hold_availability hold;
               hold_hold_id := hold_hold_id hold;
               hold_created_at := hold_created_at hold;
               hold_total := Some total; hold_status := Some "held" |}
  | Raise e => Left ("Calculation failed: " +:+ str e)
  end.

(** [hold_booking]; [uid] is the reading of [uuid4().hex[:8]] and [now]
    that of [datetime.now().isoformat()]. *)
Definition hold_booking (self : service.BookingService)
    (guest : gmap string value) (cart_items : list CartItem)
    (prices : list Price) (availability : list Availability)
    (uid now : string) : Either string hold_data :=
  let hold :=
    {| hold_guest := guest; hold_items := cart_items; hold_prices := prices;
       hold_availability := availability; hold_hold_id := "hold_" +:+ uid;
       hold_created_at := now; hold_total := None; hold_status := None |} in
  validators.bind (validators.bind (Right hold) validate_hold)
    (calculate_hold_totals self).

(** *** [loop.run_in_executor]

    [run_in_executor(executor, func, *args)] has no keyword parameters:
    called with keyword arguments it raises [TypeError] naming the first
    of them, and [func] is not called (the wording is that of CPython
    3.10 and later).  [call] is the outcome of [func] on the positional
    arguments. *)
Definition run_in_executor {A} (call : outcome A) (kwargs : list string)
  : outcome A :=
  match kwargs with
  | [] => call
  | k :: _ =>
      Raise (TypeError
               ("BaseEventLoop.run_in_executor() got an unexpected keyword argument "
                +:+ repr_str k))
  end.

(** *** [AsyncSearchService.search_parallel] and
        [IntegrationService.parallel_search_workflow] *)

(** One search per request, handed to the executor with positional
    arguments only; [gather] returns the results in request order and the
    comprehension drops those that are exceptions. *)
Definition search_parallel (self : service.SearchService)
    (requests : list service.search_request) (hotels : list Hotel)
    (room_types : list RoomType) (rates : list RatePlan)
    (prices : list Price) (availability : list Availability)
  : list (list lazy.search_result) :=
  let results :=
    map (λ request,
           run_in_executor
             (Ok (service.search self hotels room_types rates prices
                    availability request)) [])
        requests in
  omap (λ r, match r with Ok x => Some x | Raise _ => None end) results.

(** The [unique_hotels] dict, in insertion order: a result is stored
    under its hotel id unless the id is already a key. *)
Definition unique_by_hotel (all_results : list lazy.search_result)
  : list (string * lazy.search_result) :=
  foldl (λ unique_hotels result,
           let hotel_id := Hotel_id (lazy.result_hotel result) in
           if bool_decide (hotel_id ∈ unique_hotels.*1) then unique_hotels
           else unique_hotels ++ [(hotel_id, result)])
        [] all_results.

Record parallel_result := {
  total_searches : nat;
  total_results : nat;
  unique_hotels : nat;
  results_per_search : list nat;
  unique_results : list lazy.search_result }.

Definition parallel_search_workflow (self : service.SearchService)
    (search_requests : list service.search_request) (hotels : list Hotel)
    (room_types : list RoomType) (rates : list RatePlan)
    (prices : list Price) (availability : list Availability)
  : parallel_result :=
  let search_results :=
    search_parallel self search_requests hotels room_types rates prices
      availability in
  let all_results := concat search_results in
  let unique := unique_by_hotel all_results in
  {| total_searches := length search_requests;
     total_results := length all_results;
     unique_hotels := length unique;
     results_per_search := length <$> search_results;
     unique_results := unique.*2 |}.

(** *** [IntegrationService.end_to_end_workflow] *)

Section integration.
(** [W] is the environment of the event bus' subscribers, [Quote] the
    dict a quote calculation returns; [calculate_quote ()] is the outcome
    of [QuoteService.calculate_quote] on the positional arguments
    [run_in_executor] is given for it: none. *)
Context {W Quote : Type}.
Variable calculate_quote : unit → outcome Quote.

Record IntegrationService := {
  search_service : service.SearchService;
  booking_service : service.BookingService }.

(** The request dict: the keys [search] reads, and ['checkin'] and
    ['checkout'], strings when present.  ['guests'], when present, is an
    int. *)
Record request := {
  request_search : service.search_request;
  request_checkin : option string;
  request_checkout : option string }.

Definition get_checkin (r : request) : string :=
  default "2024-01-15" (request_checkin r).

Definition get_checkout (r : request) : string :=
  default "2024-01-18" (request_checkout r).

Definition get_guests (r : request) : Z :=
  default 2%Z
    (lazy.filters_guests (service.request_filters (request_search r))).

(** An element of [quote_items], by key, and its keys in the order of the
    dict display. *)
Record quote_item := {
  item_hotel_id : string;
  item_room_type_id : string;
  item_rate_id : string;
  item_checkin : string;
  item_checkout : string;
  item_guests : Z;
  item_nights : Z;
  item_base_price_per_night : Z }.

Definition item_keys : list string :=
  ["hotel_id"; "room_type_id"; "rate_id"; "checkin"; "checkout"; "guests";
   "nights"; "base_price_per_night"].

Definition quote_item_of (r : request) (result : lazy.search_result)
  : quote_item :=
  {| item_hotel_id := Hotel_id (lazy.result_hotel result);
     item_room_type_id := RoomType_id (lazy.result_room_type result);
     item_rate_id := RatePlan_id (lazy.result_rate result);
     item_checkin := get_checkin r;
     item_checkout := get_checkout r;
     item_guests := get_guests r;
     item_nights := 3;
     item_base_price_per_night := lazy.result_price_per_night result |}.

(** [calculate_single_quote] of [quote_batch]: the item is passed to
    [run_in_executor] as keyword arguments. *)
Definition calculate_single_quote (item : quote_item) : outcome Quote :=
  run_in_executor (calculate_quote ()) item_keys.

(** The readings of [uuid4()] and [datetime.now()] made by the workflow:
    per cart item, and for the booking event. *)
Record readings := {
  cart_uid : nat → string;
  hold_event_id : nat → string;
  hold_event_ts : nat → string;
  booked_event_id : string;
  booked_event_ts : string }.

(** [create_hold_event] and [create_booking_event], on the global bus. *)
Definition create_hold_event (item : gmap string value) (id ts : string)
  : Py (frp.system (W:=W)) unit :=
  frp.publish {| Event_id := id; Event_ts := ts; Event_name := "HOLD";
                 Event_payload := item |}.

Definition create_booking_event (booking : gmap string value)
    (id ts : string) : Py (frp.system (W:=W)) unit :=
  frp.publish {| Event_id := id; Event_ts := ts; Event_name := "BOOKED";
                 Event_payload := booking |}.

Definition hold_payload (cart_item : CartItem) : gmap string value :=
  <["guests" := VInt (CartItem_guests cart_item)]>
  (<["checkout" := VStr (CartItem_checkout cart_item)]>
  (<["checkin" := VStr (CartItem_checkin cart_item)]>
  (<["room_type_id" := VStr (CartItem_room_type_id cart_item)]>
  (<["hotel_id" := VStr (CartItem_hotel_id cart_item)]>
  (<["cart_item_id" := VStr (CartItem_id cart_item)]> ∅))))).

(** The loop over [enumerate(zip(top_results, successful))]. *)
Fixpoint hold_cart_items (rd : readings) (r : request) (i : nat)
    (pairs : list (lazy.search_result * Quote)) (cart_items : list CartItem)
  : Py (frp.system (W:=W)) (list CartItem) :=
  match pairs with
  | [] => ret cart_items
  | (result, quote) :: rest =>
      let cart_item :=
        {| CartItem_id := "cart_" +:+ cart_uid rd i;
           CartItem_hotel_id := Hotel_id (lazy.result_hotel result);
           CartItem_room_type_id :=
             RoomType_id (lazy.result_room_type result);
           CartItem_rate_id := RatePlan_id (lazy.result_rate result);
           CartItem_checkin := get_checkin r;
           CartItem_checkout := get_checkout r;
           CartItem_guests := get_guests r |} in
      _ ←ₚ create_hold_event (hold_payload cart_item) (hold_event_id rd i)
             (hold_event_ts rd i);
      hold_cart_items rd r (S i) rest (cart_items ++ [cart_item])
  end.

Definition booked_payload (booking : Booking) : gmap string value :=
  <["status" := VStr (Booking_status booking)]>
  (<["items_count" := VInt (Z.of_nat (length (Booking_items booking)))]>
  (<["total" := VInt (Booking_total booking)]>
  (<["guest_id" := Booking_guest_id booking]>
  (<["booking_id" := VStr (Booking_id booking)]> ∅)))).

(** The four dicts the workflow can return: the failure at step
    ['search'], the failure at step ['quotation'] with its
    ['failed_quotes'], the success, and the failure at step ['booking']. *)
Inductive workflow_result :=
| SearchFailed
| QuotationFailed
    (failed_quotes : list (service.failed_quote (Item:=quote_item)))
| BookingSucceeded (booking_id : string) (total : Z) (status : string)
    (search_results_count items_booked quotes_calculated : nat)
| BookingFailed (error : string)
    (search_results_count quotes_calculated : nat).

Definition lift {St A} (o : outcome A) : Py St A := λ s, (o, s).

(** [end_to_end_workflow].  In the last branch [get_or_else] is called on
    a [Left]. *)
Definition end_to_end_workflow (self : IntegrationService) (r : request)
    (guest_data : gmap string value) (hotels : list Hotel)
    (room_types : list RoomType) (rates : list RatePlan)
    (prices : list Price) (availability : list Availability)
    (rules : list Rule) (rd : readings)
  : Py (frp.system (W:=W)) workflow_result :=
  let search_results :=
    service.search (search_service self) hotels room_types rates prices
      availability (request_search r) in
  match search_results with
  | [] => ret SearchFailed
  | _ :: _ =>
      let top_results := take 3 search_results in
      let quote_items := map (quote_item_of r) top_results in
      quote_result ←ₚ
        lift (service.quote_batch calculate_single_quote quote_items);
      match service.successful quote_result with
      | [] => ret (QuotationFailed (service.failed quote_result))
      | _ :: _ =>
          cart_items ←ₚ
            hold_cart_items rd r 0
              (zip top_results (service.successful quote_result)) [];
          match service.create_booking (booking_service self) guest_data
                  cart_items prices availability rules with
          | Right (service.Booked booking) =>
              _ ←ₚ create_booking_event (booked_payload booking)
                     (booked_event_id rd) (booked_event_ts rd);
              ret (BookingSucceeded (Booking_id booking)
                     (Booking_total booking) (Booking_status booking)
                     (length search_results)
                     (length (Booking_items booking))
                     (service.success_count quote_result))
          | Right (service.Data _) =>
              raise (AttributeError "'dict' object has no attribute 'id'")
          | Left e =>
              ret (BookingFailed
                     (Either_get_or_else (Left e : Either string string)
                        "Unknown error")
                     (length search_results)
                     (service.success_count quote_result))
          end
      end
  end.

End integration.

End workflows.

(** ** core/frp.py: unsubscribing and the bus' queries *)

Module bus_queries.
Import py domain.

(** The slice [events[-limit:]]: the last [limit] elements when [limit]
    is positive; with [limit = 0] the start index is 0, and with a
    negative [limit] it is [-limit], counted from the front. *)
Definition last_slice {A} (limit : Z) (events : list A) : list A :=
  if (0 <? limit)%Z then drop (length events - Z.to_nat limit) events
  else drop (Z.to_nat (- limit)) events.

Section queries.
Context {W : Type}.

(** [get_event_history]; [event_type] is tested for truthiness. *)
Definition get_event_history (limit : Z) (event_type : option string)
    (b : frp.EventBus (W:=W)) : list Event :=
  let events := frp._event_history b in
  let events :=
    if lazy.truthy_str event_type
    then List.filter
           (λ e, String.eqb (Event_name e) (default "" event_type)) events
    else events in
  last_slice limit events.

(** [get_subscriber_count]. *)
Definition get_subscriber_count (event_type : option string)
    (b : frp.EventBus (W:=W)) : nat :=
  if lazy.truthy_str event_type
  then length (default [] (frp._subscribers b !! default "" event_type))
  else map_fold (λ _ subs total, total + length subs) 0
                (frp._subscribers b).

(** The inner loop of [unsubscribe]: [subscribers.pop(i)] at the first
    subscription with the id, if there is one. *)
Fixpoint pop_first (sub_id : string)
    (subscribers : list (frp.Subscription (W:=W)))
  : option (list (frp.Subscription (W:=W))) :=
  match subscribers with
  | [] => None
  | sub :: rest =>
      if String.eqb (frp.Subscription_id sub) sub_id then Some rest
      else cons sub <$> pop_first sub_id rest
  end.

(** [unsubscribe].  The outer loop visits the event types in the dict's
    iteration order, which the map does not record: [order] is that
    order. *)
Fixpoint unsubscribe (order : list string) (sub_id : string)
    (b : frp.EventBus (W:=W)) : bool * frp.EventBus (W:=W) :=
  match order with
  | [] => (false, b)
  | event_type :: rest =>
      match pop_first sub_id
              (default [] (frp._subscribers b !! event_type)) with
      | Some subscribers =>
          (true,
           {| frp._subscribers :=
                <[event_type := subscribers]> (frp._subscribers b);
              frp._event_history := frp._event_history b;
              frp._state := frp._state b |})
      | None => unsubscribe rest sub_id b
      end
  end.

(** The id is carried by no subscription of the bus. *)
Definition unused_id (sub_id : string) (b : frp.EventBus (W:=W)) : Prop :=
  map_Forall
    (λ _ subscribers,
       Forall (λ sub, frp.Subscription_id sub ≠ sub_id) subscribers)
    (frp._subscribers b).

(** A caller publishing a sequence of events, one after the other. *)
Fixpoint publish_all (events : list Event) : Py (frp.system (W:=W)) unit :=
  match events with
  | [] => ret ()
  | event :: rest => _ ←ₚ frp.publish event; publish_all rest
  end.

End queries.

End bus_queries.

(** ** core/transforms.py: the cart *)

Module transforms.
Import domain.

(** [hold_item]: [cart + (item,)]. *)
Definition hold_item (cart : list CartItem) (item : CartItem)
  : list CartItem :=
  cart ++ [item].

(** [remove_hold]: the items whose id differs from [item_id]. *)
Definition remove_hold (cart : list CartItem) (item_id : string)
  : list CartItem :=
  List.filter (λ item, negb (String.eqb (CartItem_id item) item_id)) cart.

End transforms.

(** ** core/service.py: [AsyncQuoteService.quote_with_fallback] *)

Module fallback.
Import py.

Section quote_with_fallback.
Context {Quote : Type}.

(** [QuoteService.calculate_quote] has six required parameters: called
    with no argument it raises [TypeError]. *)
Definition calculate_quote_without_arguments : outcome Quote :=
  Raise (TypeError
           "QuoteService.calculate_quote() missing 6 required positional arguments: 'hotel_id', 'room_type_id', 'rate_id', 'checkin', 'checkout', and 'guests'").

(** What [quote_with_fallback] returns: the calculated quote, or the
    fallback dict. *)
Inductive fallback_result :=
| Quoted (quote : Quote)
| Fallback (quote : gmap string value).

(** [quote_with_fallback]: the item is passed to [run_in_executor] as
    keyword arguments; any exception selects the fallback dict.  (The
    order of the keywords shows only in the message of the exception,
    which is dropped.) *)
Definition quote_with_fallback (item : gmap string value)
    (fallback_price : Z) : fallback_result :=
  match workflows.run_in_executor calculate_quote_without_arguments
          (map_to_list item).*1 with
  | Ok quote => Quoted quote
  | Raise _ =>
      Fallback
        (<["fallback_used" := VBool true]>
        (<["currency" := VStr "USD"]>
        (<["final_total" := VInt fallback_price]>
        (<["total_with_tax" := VInt fallback_price]>
        (<["base_price" := VInt fallback_price]> item)))))
  end.

End quote_with_fallback.

End fallback.

(** ** core/service.py: QuoteService *)

Module quotes.
Import py ftypes.
Import booking_pipeline (number, Int, Float, clock, days_until).

Section calculators.
(** [F] stands for Python's floats: [to_float n] is the conversion of an
    int operand of a mixed operation (it raises beyond the range of
    floats), [fmul] and [fadd] are the product and the sum of two floats,
    [round2 x] is [round(x, 2)], and [f_0_1], [f_0_05], [f_0_95] and
    [f_0_9] are the literals [0.1] (also written [0.10]), [0.05], [0.95]
    and [0.90]. *)
Context {F : Type}.
Variable to_float : Z → outcome F.
Variables fmul fadd : F → F → F.
Variable round2 : F → F.
Variables f_0_1 f_0_05 f_0_95 f_0_9 : F.

Definition as_float (n : number F) : outcome F :=
  match n with
  | Int z => to_float z
  | Float x => Ok x
  end.

(** [n * x] and [n + x] for a number [n] and a float [x]. *)
Definition times (n : number F) (x : F) : outcome F :=
  y ← as_float n; Ok (fmul y x).

Definition plus (n : number F) (x : F) : outcome F :=
  y ← as_float n; Ok (fadd y x).

(** [a * b] for two numbers: an int when both are. *)
Definition mul (a b : number F) : outcome (number F) :=
  match a, b with
  | Int x, Int y => Ok (Int (x * y)%Z)
  | _, _ => x ← as_float a; y ← as_float b; Ok (Float (fmul x y))
  end.

(** [round(total, 2)]: an int is returned as it is. *)
Definition round_2 (total : number F) : number F :=
  match total with
  | Int z => Int z
  | Float x => Float (round2 x)
  end.

(** The quote dict on its way through the calculators: the ten keys
    [quote_offer] sets, and the keys the calculators read or add, [None]
    while missing. *)
Record quote := {
  quote_offer_keys : memo.quote;
  quote_base_price_per_night : option (number F);
  quote_base_price : option (number F);
  quote_occupancy_tax : option F;
  quote_city_tax : option F;
  quote_total_tax : option F;
  quote_total_with_tax : option F;
  quote_early_booking_discount : option F;
  quote_long_stay_discount : option F;
  quote_final_total : option (number F) }.

Definition of_quote_offer (q : memo.quote) : quote :=
  {| quote_offer_keys := q; quote_base_price_per_night := None;
     quote_base_price := None; quote_occupancy_tax := None;
     quote_city_tax := None; quote_total_tax := None;
     quote_total_with_tax := None; quote_early_booking_discount := None;
     quote_long_stay_discount := None; quote_final_total := None |}.

(** [calculate_base_price]. *)
Definition calculate_base_price (q : quote) : outcome quote :=
  let nights := Int (memo.quote_nights (quote_offer_keys q)) in
  let price_per_night := default (Int 100) (quote_base_price_per_night q) in
  x ← mul nights price_per_night;
  base_price ← mul x (Int (memo.quote_guests (quote_offer_keys q)));
  Ok {| quote_offer_keys := quote_offer_keys q;
        quote_base_price_per_night := quote_base_price_per_night q;
        quote_base_price := Some base_price;
        quote_occupancy_tax := quote_occupancy_tax q;
        quote_city_tax := quote_city_tax q;
        quote_total_tax := quote_total_tax q;
        quote_total_with_tax := quote_total_with_tax q;
        quote_early_booking_discount := quote_early_booking_discount q;
        quote_long_stay_discount := quote_long_stay_discount q;
        quote_final_total := quote_final_total q |}.

(** [calculate_taxes]. *)
Definition calculate_taxes (q : quote) : outcome quote :=
  let base_price := default (Int 0) (quote_base_price q) in
  occupancy_tax ← times base_price f_0_1;
  city_tax ← times base_price f_0_05;
  let total_tax := fadd occupancy_tax city_tax in
  total_with_tax ← plus base_price total_tax;
  Ok {| quote_offer_keys := quote_offer_keys q;
        quote_base_price_per_night := quote_base_price_per_night q;
        quote_base_price := quote_base_price q;
        quote_occupancy_tax := Some occupancy_tax;
        quote_city_tax := Some city_tax;
        quote_total_tax := Some total_tax;
        quote_total_with_tax := Some total_with_tax;
        quote_early_booking_discount := quote_early_booking_discount q;
        quote_long_stay_discount := quote_long_stay_discount q;
        quote_final_total := quote_final_total q |}.

(** [apply_discounts]; [now] is the reading of [datetime.now()].  The
    two discounts are applied one after the other to [total], which
    starts as [quote.get('total_with_tax', 0)]. *)
Definition apply_discounts (now : clock) (q : quote) : outcome quote :=
  let total :=
    match quote_total_with_tax q with
    | Some x => Float x
    | None => Int 0
    end in
  let checkin_str := memo.quote_checkin (quote_offer_keys q) in
  '(total, early) ←
    (if negb (String.eqb checkin_str "") then
       match memo.strptime checkin_str with
       | None => Raise (ValueError "time data does not match format")
       | Some checkin =>
           if (30 <? days_until now checkin)%Z
           then x ← times total f_0_95; Ok (Float x, Some f_0_05)
           else Ok (total, quote_early_booking_discount q)
       end
     else Ok (total, quote_early_booking_discount q));
  '(total, long) ←
    (if (7 <? memo.quote_nights (quote_offer_keys q))%Z
     then x ← times total f_0_9; Ok (Float x, Some f_0_1)
     else Ok (total, quote_long_stay_discount q));
  let base := quote_offer_keys q in
  Ok {| quote_offer_keys :=
          {| memo.quote_hotel_id := memo.quote_hotel_id base;
             memo.quote_room_type_id := memo.quote_room_type_id base;
             memo.quote_rate_id := memo.quote_rate_id base;
             memo.quote_checkin := memo.quote_checkin base;
             memo.quote_checkout := memo.quote_checkout base;
             memo.quote_guests := memo.quote_guests base;
             memo.quote_nights := memo.quote_nights base;
             memo.quote_total_price := memo.quote_total_price base;
             memo.quote_currency := "USD";
             memo.quote_calculated_at := memo.quote_calculated_at base |};
        quote_base_price_per_night := quote_base_price_per_night q;
        quote_base_price := quote_base_price q;
        quote_occupancy_tax := quote_occupancy_tax q;
        quote_city_tax := quote_city_tax q;
        quote_total_tax := quote_total_tax q;
        quote_total_with_tax := quote_total_with_tax q;
        quote_early_booking_discount := early;
        quote_long_stay_discount := long;
        quote_final_total := Some (round_2 total) |}.

Record QuoteService := {
  price_calculator : quote → outcome quote;
  tax_calculator : quote → outcome quote;
  discount_calculator : quote → outcome quote }.

(** [create_quote_service]; [now] is the reading of [datetime.now()] in
    [apply_discounts]. *)
Definition create_quote_service (now : clock) : QuoteService :=
  {| price_calculator := calculate_base_price;
     tax_calculator := calculate_taxes;
     discount_calculator := apply_discounts now |}.

(** [calculate_quote]: the memoised base quote, handed to [pipe] with
    the three calculators in the order price, tax, discount.
    [calculated_at] is the reading of the clock inside [quote_offer]. *)
Definition calculate_quote (self : QuoteService) (a : memo.quote_args)
    (calculated_at : string) (c : memo.cache) : outcome quote * memo.cache :=
  match memo.quote_offer a calculated_at c with
  | (Ok base_quote, c') =>
      (compose.pipe (of_quote_offer base_quote)
         [price_calculator self; tax_calculator self;
          discount_calculator self], c')
  | (Raise e, c') => (Raise e, c')
  end.

(** [safe_calculate_quote]: the two date strings are compared as
    strings. *)
Definition safe_calculate_quote (self : QuoteService) (a : memo.quote_args)
    (calculated_at : string) (c : memo.cache)
  : Either string quote * memo.cache :=
  if (memo.arg_guests a <=? 0)%Z
  then (Left "Number of guests must be positive", c)
  else if String.leb (memo.arg_checkout a) (memo.arg_checkin a)
  then (Left "Checkout date must be after checkin", c)
  else
    match calculate_quote self a calculated_at c with
    | (Ok q, c') => (Right q, c')
    | (Raise e, c') => (Left ("Calculation failed: " +:+ str e), c')
    end.

End calculators.

End quotes.

(** ** core/service.py: [create_booking_workflow] *)

Module booking_workflow.
Import py domain ftypes.

Section workflow.
(** [X] stands for the keys of the dicts that no stage modelled here
    reads (['search_params'], ['metadata'], ['priced_items'], ...). *)
Context {X : Type}.

(** A dict on its way through the workflow: ['guest'] (a mapping) and
    ['items'], each present or not.  An item of the request is the
    keyword dict of a [CartItem]; it is kept as the record of those
    fields. *)
Record workflow_data := {
  data_guest : option (gmap string value);
  data_items : option (list CartItem);
  data_rest : X }.

(** What flows between the stages: such a dict, or what
    [create_booking] returned in a [Right]. *)
Inductive workflow_value :=
| Dict (d : workflow_data)
| Stage (v : service.stage_value).

(** [finalize_booking_creation]; [uid] and [now] are the readings of the
    factory's finalizer.  When [create_booking] returns a [Left], the
    [ValueError] carries [result.get_or_else("Booking creation
    failed")]. *)
Definition finalize_booking_creation (uid now : string)
    (booking_data : workflow_value) : outcome workflow_value :=
  match booking_data with
  | Stage _ => Raise service.not_subscriptable
  | Dict d =>
      guest ← match data_guest d with
              | Some guest => Ok guest
              | None => Raise (KeyError "guest")
              end;
      items ← match data_items d with
              | Some items => Ok items
              | None => Raise (KeyError "items")
              end;
      match service.create_booking (service.create_booking_service uid now)
              guest items [] [] [] with
      | Right v => Ok (Stage v)
      | Left e =>
          Raise (ValueError
                   (Either_get_or_else (Left e : Either string string)
                      "Booking creation failed"))
      end
  end.

(** [create_booking_workflow]: [compose] of the three stages in the
    order prepare, enrich, finalize, inside [safe_workflow].  The first
    two stages are parameters here. *)
Definition create_booking_workflow
    (prepare_booking_data enrich_with_pricing
       : workflow_value → outcome workflow_value)
    (uid now : string) (request : workflow_value)
  : Either string workflow_value :=
  match compose.compose
          [prepare_booking_data; enrich_with_pricing;
           finalize_booking_creation uid now] request with
  | Ok result => Right result
  | Raise e => Left (str e)
  end.

End workflow.

End booking_workflow.

(** ** More sample data *)

Module fixtures.
Import py domain.

(** A cart item for two guests and a booking of it at the factory
    quoter's total. *)
Definition cart_item_1 : CartItem :=
  {| CartItem_id := "cart_1"; CartItem_hotel_id := "hotel_1";
     CartItem_room_type_id := "room_1"; CartItem_rate_id := "rate_1";
     CartItem_checkin := "2024-01-15"; CartItem_checkout := "2024-01-18";
     CartItem_guests := 2 |}.

Definition booking_600 : Booking :=
  {| Booking_id := "booking_1"; Booking_guest_id := VStr "guest_1";
     Booking_items := [cart_item_1]; Booking_total := 600;
     Booking_status := "confirmed"; Booking_created_at := "2024-01-01" |}.

(** The arguments of a quote for the stay of [cart_item_1]. *)
Definition quote_args_1 : memo.quote_args :=
  {| memo.arg_form := []; memo.arg_hotel_id := "hotel_1";
     memo.arg_room_type_id := "room_1";
     memo.arg_rate_id := "rate_1"; memo.arg_checkin := "2024-01-15";
     memo.arg_checkout := "2024-01-18"; memo.arg_guests := 2 |}.

(** A booking request whose checkout is the day of its checkin, at a
    clock reading of 1 January 2024, 09:00. *)
Definition same_day_booking
  : booking_pipeline.booking (F:=PrimFloat.float) :=
  {| booking_pipeline.booking_checkin := "2024-01-15";
     booking_pipeline.booking_checkout := "2024-01-15";
     booking_pipeline.booking_guests := 0;
     booking_pipeline.booking_room_type_id := Some "room_sold_out";
     booking_pipeline.booking_price_per_night := None;
     booking_pipeline.booking_available := None;
     booking_pipeline.booking_total_price := None;
     booking_pipeline.booking_nights := None;
     booking_pipeline.booking_early_booking_discount := false;
     booking_pipeline.booking_final_price := None;
     booking_pipeline.booking_booking_id := None;
     booking_pipeline.booking_status := None;
     booking_pipeline.booking_created_at := None |}.

Definition new_year_morning : booking_pipeline.clock :=
  {| booking_pipeline.clock_today :=
       {| memo.year := 2024; memo.month := 1; memo.day := 1 |};
     booking_pipeline.clock_past_midnight := true |}.

Definition january_15 : memo.date :=
  {| memo.year := 2024; memo.month := 1; memo.day := 15 |}.

(** The quote [quote_offer] computes for [quote_args_1] at 09:00 on
    1 January 2024. *)
Definition quote_1 : memo.quote :=
  {| memo.quote_hotel_id := "hotel_1"; memo.quote_room_type_id := "room_1";
     memo.quote_rate_id := "rate_1"; memo.quote_checkin := "2024-01-15";
     memo.quote_checkout := "2024-01-18"; memo.quote_guests := 2;
     memo.quote_nights := 3; memo.quote_total_price := 300;
     memo.quote_currency := "USD";
     memo.quote_calculated_at := "2024-01-01T09:00:00" |}.


(** The same stay quoted for three guests. *)
Definition quote_args_2 : memo.quote_args :=
  {| memo.arg_form := []; memo.arg_hotel_id := "hotel_1";
     memo.arg_room_type_id := "room_1";
     memo.arg_rate_id := "rate_1"; memo.arg_checkin := "2024-01-15";
     memo.arg_checkout := "2024-01-18"; memo.arg_guests := 3 |}.


(** Binary64 floats for the quote service and the booking pipeline.
    [float_of_int] is Python's conversion of an int: the nearest float,
    ties to even, and [OverflowError] when that is beyond the largest
    float.  The sample quotes round no float. *)
Definition float_of_int (n : Z) : outcome PrimFloat.float :=
  let x :=
    FloatOps.SF2Prim
      (SpecFloat.binary_normalize FloatOps.prec FloatOps.emax n 0 false) in
  if PrimFloat.is_infinity x
  then Raise (OverflowError "int too large to convert to float")
  else Ok x.

Definition float_0_1 : PrimFloat.float := 0x1.999999999999ap-4%float.
Definition float_0_05 : PrimFloat.float := 0x1.999999999999ap-5%float.
Definition float_0_95 : PrimFloat.float := 0x1.e666666666666p-1%float.
Definition float_0_9 : PrimFloat.float := 0x1.ccccccccccccdp-1%float.


(** The pairs of dates across the end of a month, of February in a leap
    year and in a common year, and of a year, with the nights between
    them. *)
Definition month_end_stays : list (string * string * Z) :=
  [("2024-01-31", "2024-02-02", 2%Z); ("2024-02-28", "2024-03-01", 2%Z);
   ("2023-02-28", "2023-03-01", 1%Z); ("2023-12-31", "2024-01-01", 1%Z);
   ("2024-01-15", "2024-03-15", 60%Z)].


(** [total * 0.9] on those floats. *)
Definition float_times_0_9 (total : Z) : outcome PrimFloat.float :=
  x ← float_of_int total; Ok (PrimFloat.mul x float_0_9).

(** A booking request for two nights in March, made on 1 January. *)
Definition early_booking : booking_pipeline.booking (F:=PrimFloat.float) :=
  {| booking_pipeline.booking_checkin := "2024-03-01";
     booking_pipeline.booking_checkout := "2024-03-03";
     booking_pipeline.booking_guests := 2;
     booking_pipeline.booking_room_type_id := None;
     booking_pipeline.booking_price_per_night := None;
     booking_pipeline.booking_available := None;
     booking_pipeline.booking_total_price := None;
     booking_pipeline.booking_nights := None;
     booking_pipeline.booking_early_booking_discount := false;
     booking_pipeline.booking_final_price := None;
     booking_pipeline.booking_booking_id := None;
     booking_pipeline.booking_status := None;
     booking_pipeline.booking_created_at := None |}.


(** The same request at a price per night beyond the range of floats. *)
Definition huge_price_booking
  : booking_pipeline.booking (F:=PrimFloat.float) :=
  {| booking_pipeline.booking_checkin := "2024-03-01";
     booking_pipeline.booking_checkout := "2024-03-03";
     booking_pipeline.booking_guests := 2;
     booking_pipeline.booking_room_type_id := None;
     booking_pipeline.booking_price_per_night := Some (10 ^ 400)%Z;
     booking_pipeline.booking_available := None;
     booking_pipeline.booking_total_price := None;
     booking_pipeline.booking_nights := None;
     booking_pipeline.booking_early_booking_discount := false;
     booking_pipeline.booking_final_price := None;
     booking_pipeline.booking_booking_id := None;
     booking_pipeline.booking_status := None;
     booking_pipeline.booking_created_at := None |}.

End fixtures.

(** * Properties *)

Import py domain ftypes.

(** ** Maybe and Either (core/ftypes.py) *)

Section ftypes_laws.
Context {W : Type}.

Lemma Either_bind_Left {E A B} (e : E) (f : A → Py W (Either E B)) w :
  Either_bind (Left e) f w = (Ok (Left e), w).
Proof. reflexivity. Qed.

Lemma Either_map_Left {E A B} (e : E) (f : A → Py W B) w :
  Either_map (Left e) f w = (Ok (Left e), w).
Proof. reflexivity. Qed.

Lemma Maybe_bind_Nothing {A B} (f : A → Py W (Maybe B)) w :
  Maybe_bind Nothing f w = (Ok Nothing, w).
Proof. reflexivity. Qed.

Lemma Maybe_map_Nothing {A B} (f : A → Py W B) w :
  Maybe_map Nothing f w = (Ok Nothing, w).
Proof. reflexivity. Qed.

Lemma Either_map_id {E A} (m : Either E A) (w : W) :
  Either_map m py.ret w = (Ok m, w).
Proof. destruct m; reflexivity. Qed.

Lemma Maybe_map_id {A} (m : Maybe A) (w : W) :
  Maybe_map m py.ret w = (Ok m, w).
Proof. destruct m; reflexivity. Qed.

Lemma Either_bind_assoc {E A B C} (m : Either E A)
    (f : A → Py W (Either E B)) (g : B → Py W (Either E C)) w :
  (r ←ₚ Either_bind m f; Either_bind r g) w
  = Either_bind m (λ x, r ←ₚ f x; Either_bind r g) w.
Proof. destruct m; reflexivity. Qed.

Lemma Maybe_bind_assoc {A B C} (m : Maybe A)
    (f : A → Py W (Maybe B)) (g : B → Py W (Maybe C)) w :
  (r ←ₚ Maybe_bind m f; Maybe_bind r g) w
  = Maybe_bind m (λ x, r ←ₚ f x; Maybe_bind r g) w.
Proof. destruct m; reflexivity. Qed.

End ftypes_laws.

(** C4.  A [Left] or [Nothing] short-circuits [bind] and [map]: the result
    is the same [Left] or [Nothing] and the environment [w] is returned
    untouched, whatever the supplied function would do to it (so the
    function is not run).  The monad laws hold: [map] of the identity is
    the identity, [Right(x).bind(f)] and [Just(x).bind(f)] are [f(x)], and
    [bind] is associative.  They are stated for functions that may even
    have effects or raise, pure functions being a special case. *)
Theorem maybe_either_short_circuit_and_laws (W E A B C : Type) :
  (∀ (e : E) (f : A → Py W (Either E B)) w,
     Either_bind (Left e) f w = (Ok (Left e), w))
  ∧ (∀ (e : E) (f : A → Py W B) w,
       Either_map (Left e) f w = (Ok (Left e), w))
  ∧ (∀ (f : A → Py W (Maybe B)) w, Maybe_bind Nothing f w = (Ok Nothing, w))
  ∧ (∀ (f : A → Py W B) w, Maybe_map Nothing f w = (Ok Nothing, w))
  ∧ (∀ (m : Either E A) (w : W), Either_map m py.ret w = (Ok m, w))
  ∧ (∀ (m : Maybe A) (w : W), Maybe_map m py.ret w = (Ok m, w))
  ∧ (∀ (x : A) (f : A → Py W (Either E B)) w,
       Either_bind (Right x) f w = f x w)
  ∧ (∀ (x : A) (f : A → Py W (Maybe B)) w, Maybe_bind (Just x) f w = f x w)
  ∧ (∀ (m : Either E A) (f : A → Py W (Either E B))
       (g : B → Py W (Either E C)) w,
       (r ←ₚ Either_bind m f; Either_bind r g) w
       = Either_bind m (λ x, r ←ₚ f x; Either_bind r g) w)
  ∧ (∀ (m : Maybe A) (f : A → Py W (Maybe B)) (g : B → Py W (Maybe C)) w,
       (r ←ₚ Maybe_bind m f; Maybe_bind r g) w
       = Maybe_bind m (λ x, r ←ₚ f x; Maybe_bind r g) w).
Proof.
  repeat apply conj; intros.
  - apply Either_bind_Left.
  - apply Either_map_Left.
  - apply Maybe_bind_Nothing.
  - apply Maybe_map_Nothing.
  - apply Either_map_id.
  - apply Maybe_map_id.
  - reflexivity.
  - reflexivity.
  - apply Either_bind_assoc.
  - apply Maybe_bind_assoc.
Qed.

(** ** Booking (core/service.py, core/compose.py) *)

(** [pipe] runs its functions from the last to the first. *)
Lemma pipe_three {V} (f g h : V → outcome V) (x : V) :
  compose.pipe x [f; g; h] = (h x ≫= g) ≫= f.
Proof. reflexivity. Qed.

(** [_validate_booking] replaces the validator's message: for a guest
    without a name it raises [ValueError("Validation failed")]. *)
Lemma validate_booking_loses_message uid now (d : service.booking_data) :
  truthy_opt (service.data_guest d !! "name") = false →
  service._validate_booking (service.create_booking_service uid now)
    (service.Data d)
  = Raise (ValueError "Validation failed").
Proof.
  intros Hname. unfold service._validate_booking. simpl.
  rewrite Hname. reflexivity.
Qed.

(** The factory's finalizer raises [KeyError] on the dict the pipeline
    starts from, which has no ['total'] key. *)
Lemma finalize_booking_initial uid now guest items prices availability rules :
  service.finalize_booking uid now
    (service.Data {| service.data_guest := guest;
                     service.data_items := items;
                     service.data_prices := prices;
                     service.data_availability := availability;
                     service.data_rules := rules;
                     service.data_total := None |})
  = Raise (KeyError (if guest !! "id" is Some _ then "total" else "id")).
Proof.
  unfold service.finalize_booking, getitem. simpl.
  destruct (guest !! "id"); reflexivity.
Qed.

(** C1 (what the code does instead).  [create_booking] of the factory's
    service runs the finalizer first, on a dict without ['total']: for
    every guest mapping and every cart the result is [Left("'id'")] when
    the guest has no ['id'] key and [Left("'total'")] otherwise, hence
    never [Left("Guest name is required")]. *)
Theorem create_booking_returns_keyerror_text
    (uid now : string) (guest : gmap string value) (items : list CartItem)
    (prices : list Price) (availability : list Availability)
    (rules : list Rule) :
  service.create_booking (service.create_booking_service uid now)
    guest items prices availability rules
  = Left (if guest !! "id" is Some _ then "'total'" else "'id'")
  ∧ service.create_booking (service.create_booking_service uid now)
      guest items prices availability rules
    ≠ Left "Guest name is required".
Proof.
  assert (Hrun :
    service.create_booking (service.create_booking_service uid now)
      guest items prices availability rules
    = Left (if guest !! "id" is Some _ then "'total'" else "'id'")).
  { unfold service.create_booking, compose.PipeLine_run,
      compose.PipeLine_execute.
    cbn [compose.PipeLine_map compose.PipeLine_of compose.PipeLine_value
         compose.PipeLine_functions app].
    rewrite pipe_three.
    unfold service._finalize_booking at 1.
    cbn [service.finalizer service.create_booking_service].
    rewrite finalize_booking_initial.
    destruct (guest !! "id"); reflexivity. }
  split; [exact Hrun|].
  rewrite Hrun. destruct (guest !! "id"); discriminate.
Qed.

(** ** The memoised quote (core/memo.py) *)

Section memo_facts.
Import memo.

(** [toordinal] counts days: the next calendar day has the next ordinal. *)
Lemma days_before_year_succ (y : Z) :
  days_before_year (y + 1)
  = (days_before_year y + 365 + (if is_leap y then 1 else 0))%Z.
Proof.
  unfold days_before_year, is_leap. cbv zeta.
  replace (y + 1 - 1)%Z with y by lia.
  destruct (Z.eqb_spec (y mod 4) 0), (Z.eqb_spec (y mod 100) 0),
    (Z.eqb_spec (y mod 400) 0); cbn [andb orb negb];
    Z.div_mod_to_equations; lia.
Qed.

Lemma toordinal_next_day (d : date) :
  valid_date d → toordinal (next_day d) = (toordinal d + 1)%Z.
Proof.
  destruct d as [y m dd]. unfold valid_date, next_day, toordinal. cbn [year month day].
  intros [Hm Hd].
  destruct (Z.ltb_spec dd (days_in_month y m)) as [Hlt|Hge]; cbn [year month day].
  { lia. }
  assert (dd = days_in_month y m) as -> by lia.
  destruct (Z.ltb_spec m 12) as [Hm12|Hm12]; cbn [year month day].
  - assert (m = 1 ∨ m = 2 ∨ m = 3 ∨ m = 4 ∨ m = 5 ∨ m = 6 ∨ m = 7 ∨ m = 8
            ∨ m = 9 ∨ m = 10 ∨ m = 11)%Z as Hcases by lia.
    unfold days_before_month, days_in_month.
    generalize (days_before_year y). intros k. clear Hm Hd Hge Hm12.
    destruct (is_leap y);
      repeat (destruct Hcases as [->|Hcases]; [simpl; lia|]);
      subst m; simpl; lia.
  - assert (m = 12)%Z as -> by lia.
    rewrite days_before_year_succ.
    unfold days_before_month, days_in_month.
    generalize (days_before_year y). intros k.
    destruct (is_leap y); simpl; lia.
Qed.

Lemma cache_lookup_elem (a : quote_args) (c : cache) (q : quote) :
  cache_lookup a c = Some q → (a, q) ∈ c.
Proof.
  induction c as [|[k q'] c IH]; cbn; [discriminate|].
  destruct (decide (k = a)) as [->|Hne].
  - intros [= ->]. left.
  - intros H. right. auto.
Qed.

Lemma cache_ok_lookup (a : quote_args) (c : cache) (q : quote) :
  cache_ok c → cache_lookup a c = Some q →
  ∃ now, quote_offer_body a now = Ok q.
Proof.
  intros Hok Hq. apply cache_lookup_elem in Hq.
  unfold cache_ok in Hok. rewrite Forall_forall in Hok.
  apply (Hok (a, q)). exact Hq.
Qed.

(** The cache invariant holds of the empty cache and is kept by every
    call, and the cache never grows past [maxsize]. *)
Lemma cache_ok_nil : cache_ok [].
Proof. constructor. Qed.

Lemma quote_offer_cache_ok (a : quote_args) (now : string) (c : cache) :
  cache_ok c → cache_ok (quote_offer a now c).2.
Proof.
  intros Hok. unfold quote_offer.
  destruct (cache_lookup a c) as [q|] eqn:Hq.
  - cbn. constructor.
    + cbn. eapply cache_ok_lookup; eauto.
    + unfold cache_remove. apply Forall_forall. intros kq Hin.
      apply list_elem_of_filter in Hin as [_ Hin].
      unfold cache_ok in Hok. rewrite Forall_forall in Hok. auto.
  - destruct (quote_offer_body a now) as [q|e] eqn:Hbody; cbn [snd];
      [|exact Hok].
    apply Forall_take. constructor; [cbn; eauto|exact Hok].
Qed.

Lemma quote_offer_cache_size (a : quote_args) (now : string) (c : cache) :
  (length c ≤ maxsize)%nat → (length (quote_offer a now c).2 ≤ maxsize)%nat.
Proof.
  intros Hlen. unfold quote_offer.
  destruct (cache_lookup a c) as [q|] eqn:Hq.
  - cbn. apply cache_lookup_elem in Hq.
    unfold cache_remove.
    assert (length (filter (λ kq : quote_args * quote, kq.1 ≠ a) c)
            < length c)%nat;
      [|lia].
    clear Hlen. induction c as [|[k q'] c IH]; [inversion Hq|].
    rewrite filter_cons. cbn.
    destruct (decide (k ≠ a)) as [Hne|Heq].
    + cbn. apply elem_of_cons in Hq as [[= <- <-]|Hq]; [done|].
      specialize (IH Hq). lia.
    + pose proof (length_filter (λ kq : quote_args * quote, kq.1 ≠ a) c). lia.
  - destruct (quote_offer_body a now); cbn [snd]; [|exact Hlen].
    rewrite length_take. lia.
Qed.

Lemma quote_offer_body_fields (a : quote_args) (now : string) (q : quote)
    (d1 d2 : date) :
  strptime (arg_checkin a) = Some d1 → strptime (arg_checkout a) = Some d2 →
  quote_offer_body a now = Ok q →
  quote_nights q = days_between d1 d2
  ∧ quote_total_price q = (quote_nights q * 100)%Z
  ∧ quote_currency q = "USD".
Proof.
  unfold quote_offer_body. intros -> -> [= <-]. cbn. auto.
Qed.

End memo_facts.

(** [strptime] returns dates of the calendar, the day after such a date
    is one, and [toordinal] grows by one with each day: so
    [days_between] counts the calendar days from one date to the other. *)
Lemma digit_bounds (c : Ascii.ascii) (x : Z) :
  memo.digit c = Some x → (0 ≤ x ≤ 9)%Z.
Proof.
  unfold memo.digit.
  destruct (Nat.leb_spec 48 (Ascii.nat_of_ascii c)); [|discriminate].
  destruct (Nat.leb_spec (Ascii.nat_of_ascii c) 57); [|discriminate].
  cbn [andb]. intros [= <-]. lia.
Qed.

Lemma parse_month_bounds (cs : list Ascii.ascii) (m : Z) :
  memo.parse_month cs = Some m → (1 ≤ m ≤ 12)%Z.
Proof.
  unfold memo.parse_month.
  destruct cs as [|a [|b [|? ?]]]; try discriminate.
  - destruct (memo.digit a) as [x|] eqn:Hx; [|discriminate].
    apply digit_bounds in Hx. cbn.
    destruct (Z.leb_spec 1 x); [|discriminate]. intros [= <-]. lia.
  - destruct (memo.digit a) as [x|] eqn:Hx; [|discriminate].
    destruct (memo.digit b) as [y|] eqn:Hy; [|discriminate].
    apply digit_bounds in Hx, Hy. cbn.
    destruct (Z.eqb_spec x 0), (Z.leb_spec 1 y), (Z.eqb_spec x 1),
      (Z.leb_spec y 2); cbn; try discriminate; intros [= <-]; lia.
Qed.

Lemma parse_day_bounds (cs : list Ascii.ascii) (d : Z) :
  memo.parse_day cs = Some d → (1 ≤ d)%Z.
Proof.
  unfold memo.parse_day.
  destruct cs as [|a [|b [|? ?]]]; try discriminate.
  - destruct (memo.digit a) as [x|] eqn:Hx; [|discriminate]. cbn.
    destruct (Z.leb_spec 1 x); [|discriminate]. intros [= <-]. lia.
  - destruct (Ascii.eqb a " ").
    + destruct (memo.digit b) as [y|] eqn:Hy; [|discriminate]. cbn.
      destruct (Z.leb_spec 1 y); [|discriminate]. intros [= <-]. lia.
    + destruct (memo.digit a) as [x|] eqn:Hx; [|discriminate].
      destruct (memo.digit b) as [y|] eqn:Hy; [|discriminate]. cbn.
      destruct (Z.leb_spec 1 (10 * x + y)); [|discriminate].
      destruct (Z.leb_spec (10 * x + y) 31); [|discriminate].
      intros [= <-]. lia.
Qed.

Lemma strptime_valid (s : string) (d : memo.date) :
  memo.strptime s = Some d → memo.valid_date d.
Proof.
  unfold memo.strptime.
  destruct (memo.split_dash _) as [|ys [|ms [|ds [|? ?]]]]; try discriminate.
  destruct (memo.parse_year ys) as [y|]; [|discriminate].
  destruct (memo.parse_month ms) as [m|] eqn:Hm; [|discriminate].
  destruct (memo.parse_day ds) as [dd|] eqn:Hd; [|discriminate].
  cbn. apply parse_month_bounds in Hm. apply parse_day_bounds in Hd.
  destruct (Z.leb_spec 1 y); [|discriminate].
  destruct (Z.leb_spec dd (memo.days_in_month y m)); [|discriminate].
  cbn [andb]. intros [= <-]. unfold memo.valid_date. cbn. lia.
Qed.

Lemma days_in_month_pos (y m : Z) : (28 ≤ memo.days_in_month y m)%Z.
Proof.
  unfold memo.days_in_month.
  repeat match goal with |- context [if ?b then _ else _] => destruct b end;
    lia.
Qed.

Lemma next_day_valid (d : memo.date) :
  memo.valid_date d → memo.valid_date (memo.next_day d).
Proof.
  destruct d as [y m dd]. unfold memo.valid_date, memo.next_day.
  cbn [memo.year memo.month memo.day]. intros [Hm Hd].
  destruct (Z.ltb_spec dd (memo.days_in_month y m));
    cbn [memo.year memo.month memo.day]; [lia|].
  destruct (Z.ltb_spec m 12); cbn [memo.year memo.month memo.day].
  - pose proof (days_in_month_pos y (m + 1)). lia.
  - pose proof (days_in_month_pos (y + 1) 1). lia.
Qed.

Lemma iter_next_day_valid (n : nat) (d : memo.date) :
  memo.valid_date d → memo.valid_date (Nat.iter n memo.next_day d).
Proof.
  intros Hd. induction n as [|n IH]; [done|].
  rewrite Nat.iter_succ. by apply next_day_valid.
Qed.

(** The [n]-th calendar day after [d] is [n] days after [d]. *)
Lemma days_between_iter_next_day (n : nat) (d : memo.date) :
  memo.valid_date d →
  memo.days_between d (Nat.iter n memo.next_day d) = Z.of_nat n.
Proof.
  intros Hd. unfold memo.days_between.
  induction n as [|n IH]; [cbn; lia|].
  rewrite Nat.iter_succ.
  rewrite toordinal_next_day by (by apply iter_next_day_valid). lia.
Qed.

(** C8.  From any cache state the decorated [quote_offer] can be in, a
    call whose two date strings parse returns a record whose [nights] is
    the day difference checkout minus checkin: when the checkout is the
    [n]-th calendar day after the checkin, [nights] is [n], and when the
    checkin is the [n]-th calendar day after the checkout, [nights] is
    [-n] (the calendar being that of the months' lengths and the leap
    years).  Its [total_price] is [nights * 100] and its [currency] is
    ["USD"].  The call [quote_offer("hotel_1", "room_1", "rate_1",
    "2024-01-01", "2024-01-03", 2)] returns [nights == 2],
    [total_price == 200], [currency == "USD"]; stays across the end of a
    month, of February and of a year are counted by the calendar too. *)
Theorem quote_offer_nights_total_currency (now : string) (c : memo.cache) :
  memo.cache_ok c →
  (∀ (a : memo.quote_args) (d1 d2 : memo.date),
     memo.strptime (memo.arg_checkin a) = Some d1 →
     memo.strptime (memo.arg_checkout a) = Some d2 →
     ∃ q, (memo.quote_offer a now c).1 = Ok q
          ∧ memo.quote_nights q = memo.days_between d1 d2
          ∧ (∀ n : nat, Nat.iter n memo.next_day d1 = d2 →
               memo.quote_nights q = Z.of_nat n)
          ∧ (∀ n : nat, Nat.iter n memo.next_day d2 = d1 →
               memo.quote_nights q = (- Z.of_nat n)%Z)
          ∧ memo.quote_total_price q = (memo.quote_nights q * 100)%Z
          ∧ memo.quote_currency q = "USD")
  ∧ (∃ q, (memo.quote_offer
             {| memo.arg_form := []; memo.arg_hotel_id := "hotel_1";
                memo.arg_room_type_id := "room_1";
                memo.arg_rate_id := "rate_1";
                memo.arg_checkin := "2024-01-01";
                memo.arg_checkout := "2024-01-03";
                memo.arg_guests := 2 |} now c).1 = Ok q
          ∧ memo.quote_nights q = 2%Z
          ∧ memo.quote_total_price q = 200%Z
          ∧ memo.quote_currency q = "USD")
  ∧ (∀ (a : memo.quote_args) (nights : Z),
       (memo.arg_checkin a, memo.arg_checkout a, nights) ∈ fixtures.month_end_stays →
       ∃ q, (memo.quote_offer a now c).1 = Ok q
            ∧ memo.quote_nights q = nights
            ∧ memo.quote_total_price q = (nights * 100)%Z).
Proof.
  intros Hok.
  assert (Hgen : ∀ (a : memo.quote_args) (d1 d2 : memo.date),
     memo.strptime (memo.arg_checkin a) = Some d1 →
     memo.strptime (memo.arg_checkout a) = Some d2 →
     ∃ q, (memo.quote_offer a now c).1 = Ok q
          ∧ memo.quote_nights q = memo.days_between d1 d2
          ∧ (∀ n : nat, Nat.iter n memo.next_day d1 = d2 →
               memo.quote_nights q = Z.of_nat n)
          ∧ (∀ n : nat, Nat.iter n memo.next_day d2 = d1 →
               memo.quote_nights q = (- Z.of_nat n)%Z)
          ∧ memo.quote_total_price q = (memo.quote_nights q * 100)%Z
          ∧ memo.quote_currency q = "USD").
  { intros a d1 d2 H1 H2.
    assert (Hfields : ∀ now' q, memo.quote_offer_body a now' = Ok q →
              memo.quote_nights q = memo.days_between d1 d2
              ∧ memo.quote_total_price q = (memo.quote_nights q * 100)%Z
              ∧ memo.quote_currency q = "USD").
    { intros now' q. by apply quote_offer_body_fields. }
    assert (∃ q, (memo.quote_offer a now c).1 = Ok q
                 ∧ memo.quote_nights q = memo.days_between d1 d2
                 ∧ memo.quote_total_price q = (memo.quote_nights q * 100)%Z
                 ∧ memo.quote_currency q = "USD")
      as (q & Hq & Hn & Ht & Hc).
    { unfold memo.quote_offer.
      destruct (memo.cache_lookup a c) as [q|] eqn:Hq.
      - destruct (cache_ok_lookup a c q Hok Hq) as [now' Hbody].
        exists q. split; [reflexivity|]. by apply (Hfields now').
      - destruct (memo.quote_offer_body a now) as [q|e] eqn:Hbody.
        + exists q. split; [reflexivity|]. by apply (Hfields now).
        + unfold memo.quote_offer_body in Hbody.
          rewrite H1, H2 in Hbody. discriminate. }
    exists q. split; [exact Hq|]. split; [exact Hn|].
    split; [|split; [|by split]].
    - intros n <-. rewrite Hn. apply days_between_iter_next_day.
      by apply (strptime_valid (memo.arg_checkin a)).
    - intros n <-. rewrite Hn.
      pose proof (days_between_iter_next_day n d2
                    (strptime_valid _ _ H2)) as Hback.
      unfold memo.days_between in Hback |- *. lia. }
  split; [exact Hgen|]. split.
  - destruct (Hgen {| memo.arg_form := []; memo.arg_hotel_id := "hotel_1";
                      memo.arg_room_type_id := "room_1";
                      memo.arg_rate_id := "rate_1";
                      memo.arg_checkin := "2024-01-01";
                      memo.arg_checkout := "2024-01-03";
                      memo.arg_guests := 2 |}
                   {| memo.year := 2024; memo.month := 1; memo.day := 1 |}
                   {| memo.year := 2024; memo.month := 1; memo.day := 3 |})
      as (q & Hq & _ & Hn & _ & Ht & Hc);
      [vm_compute; reflexivity | vm_compute; reflexivity |].
    specialize (Hn 2%nat eq_refl).
    exists q. rewrite Ht, Hn.
    split; [exact Hq|]. split; [reflexivity|].
    split; [reflexivity|exact Hc].
  - intros a nights Hin. unfold fixtures.month_end_stays in Hin.
    assert (∃ d1 (n : nat),
              memo.strptime (memo.arg_checkin a) = Some d1
              ∧ memo.strptime (memo.arg_checkout a)
                = Some (Nat.iter n memo.next_day d1)
              ∧ nights = Z.of_nat n) as (d1 & n & H1 & H2 & ->).
    { repeat (apply elem_of_cons in Hin as [Hin|Hin];
              [injection Hin as -> -> ->;
               match goal with
               | |- ∃ d1 n, memo.strptime ?s = Some d1 ∧ _ ∧ ?k = _ =>
                   let r := eval vm_compute in (memo.strptime s) in
                   match r with
                   | Some ?d => exists d, (Z.to_nat k)
                   end
               end;
               split; [vm_compute; reflexivity|];
               split; [vm_compute; reflexivity|reflexivity]|]).
      by apply elem_of_nil in Hin. }
    destruct (Hgen a d1 _ H1 H2) as (q & Hq & _ & Hn & _ & Ht & _).
    specialize (Hn n eq_refl).
    exists q. split; [exact Hq|]. split; [exact Hn|]. by rewrite Ht, Hn.
Qed.

Lemma quote_offer_scenario_witness :
  memo.cache_ok []
  ∧ (∃ q, (memo.quote_offer
             {| memo.arg_form := []; memo.arg_hotel_id := "hotel_1";
                memo.arg_room_type_id := "room_1";
                memo.arg_rate_id := "rate_1";
                memo.arg_checkin := "2024-01-01";
                memo.arg_checkout := "2024-01-03";
                memo.arg_guests := 2 |} "2024-01-01T09:00:00" []).1 = Ok q
          ∧ memo.quote_nights q = 2%Z
          ∧ memo.quote_total_price q = 200%Z
          ∧ memo.quote_currency q = "USD")
  ∧ (∃ q, (memo.quote_offer
             {| memo.arg_form := []; memo.arg_hotel_id := "hotel_1";
                memo.arg_room_type_id := "room_1";
                memo.arg_rate_id := "rate_1";
                memo.arg_checkin := "2024-01-31";
                memo.arg_checkout := "2024-02-02";
                memo.arg_guests := 2 |} "2024-01-01T09:00:00" []).1 = Ok q
          ∧ memo.quote_nights q = 2%Z
          ∧ memo.quote_total_price q = 200%Z).
Proof.
  split; [exact cache_ok_nil|]. split.
  - exact (proj1 (proj2 (quote_offer_nights_total_currency
                           "2024-01-01T09:00:00" [] cache_ok_nil))).
  - apply (proj2 (proj2 (quote_offer_nights_total_currency
                           "2024-01-01T09:00:00" [] cache_ok_nil))).
    cbn [memo.arg_checkin memo.arg_checkout]. apply list_elem_of_here.
Defined.

(** ** Batch quotes (core/service.py) *)

Section quote_batch_facts.
Context {Item Quote : Type}.
Variable task : Item → outcome Quote.

Lemma quotes_failures_cons_ok (item : Item) (rest : list Item) (q : Quote) :
  task item = Ok q →
  service.quotes_of task (item :: rest) = q :: service.quotes_of task rest
  ∧ service.failures_of task (item :: rest) = service.failures_of task rest.
Proof.
  intros H. unfold service.quotes_of, service.failures_of. simpl.
  by rewrite H.
Qed.

Lemma quotes_failures_cons_raise (item : Item) (rest : list Item) (e : exn) :
  task item = Raise e →
  service.quotes_of task (item :: rest) = service.quotes_of task rest
  ∧ service.failures_of task (item :: rest)
    = {| service.failed_item := item; service.failed_error := str e |}
      :: service.failures_of task rest.
Proof.
  intros H. unfold service.quotes_of, service.failures_of. simpl.
  by rewrite H.
Qed.

(** The grouping loop, started anywhere inside the batch. *)
Lemma group_results_from (pre rest : list Item)
    (acc_ok : list Quote) (acc_failed : list (service.failed_quote (Item:=Item))) :
  service.group_results (pre ++ rest)
    (zip (seq (length pre) (length rest)) (service.gather task rest))
    acc_ok acc_failed
  = Ok (acc_ok ++ service.quotes_of task rest,
        acc_failed ++ service.failures_of task rest).
Proof.
  revert pre acc_ok acc_failed.
  induction rest as [|item rest IH]; intros pre acc_ok acc_failed.
  - cbn. by rewrite !app_nil_r.
  - cbn [length seq service.gather map zip zip_with].
    replace (pre ++ item :: rest) with ((pre ++ [item]) ++ rest)
      by (by rewrite <- app_assoc).
    specialize (IH (pre ++ [item])).
    rewrite length_app in IH. cbn [length] in IH.
    replace (length pre + 1) with (S (length pre)) in IH by lia.
    destruct (task item) as [q|e] eqn:Htask; cbn [service.group_results].
    + destruct (quotes_failures_cons_ok item rest q Htask) as [-> ->].
      fold (service.gather task rest). rewrite IH.
      by rewrite <- app_assoc.
    + destruct (quotes_failures_cons_raise item rest e Htask) as [-> ->].
      assert (((pre ++ [item]) ++ rest) !! length pre = Some item) as ->.
      { rewrite <- app_assoc. by apply list_lookup_middle. }
      fold (service.gather task rest). rewrite IH.
      by rewrite <- app_assoc.
Qed.

Lemma quotes_failures_length (items : list Item) :
  length (service.quotes_of task items)
  + length (service.failures_of task items) = length items.
Proof.
  induction items as [|item items IH]; [done|].
  destruct (task item) as [q|e] eqn:Htask.
  - destruct (quotes_failures_cons_ok item items q Htask) as [-> ->].
    cbn [length]. lia.
  - destruct (quotes_failures_cons_raise item items e Htask) as [-> ->].
    cbn [length]. lia.
Qed.

End quote_batch_facts.

(** C9.  [quote_batch] returns normally for every list of items and every
    behaviour of the per-item coroutine.  [successful] holds exactly the
    quotes of the items whose coroutine returned and [failed] exactly one
    record, with the item and [str] of the exception, for each item whose
    coroutine raised, both in item order; so every item is counted once,
    [total_count] is the number of items and
    [success_count + failure_count == total_count]. *)
Theorem quote_batch_partitions_items (Item Quote : Type)
    (task : Item → outcome Quote) (items : list Item) :
  ∃ r, service.quote_batch task items = Ok r
       ∧ service.successful r = service.quotes_of task items
       ∧ service.failed r = service.failures_of task items
       ∧ service.total_count r = length items
       ∧ service.success_count r = length (service.successful r)
       ∧ service.failure_count r = length (service.failed r)
       ∧ service.success_count r + service.failure_count r
         = service.total_count r
       ∧ (∀ i item, items !! i = Some item →
            (∃ q, task item = Ok q ∧ q ∈ service.successful r)
            ∨ (∃ e, task item = Raise e
                    ∧ {| service.failed_item := item;
                         service.failed_error := str e |}
                      ∈ service.failed r)).
Proof.
  unfold service.quote_batch, service.enumerate.
  pose proof (group_results_from task [] items [] []) as Hloop.
  cbn [app length] in Hloop.
  unfold service.gather at 1. rewrite length_map.
  fold (service.gather task items). rewrite Hloop. cbn.
  eexists. split; [reflexivity|]. cbn.
  repeat apply conj; try reflexivity.
  - apply quotes_failures_length.
  - intros i item Hi. apply list_elem_of_lookup_2 in Hi.
    destruct (task item) as [q|e] eqn:Htask.
    + left. exists q. split; [done|].
      unfold service.quotes_of. apply list_elem_of_omap.
      exists item. by rewrite Htask.
    + right. exists e. split; [done|].
      unfold service.failures_of. apply list_elem_of_omap.
      exists item. by rewrite Htask.
Qed.

(** ** The lazy generators (core/lazy.py) *)

Section lazy_facts.
Import lazy.

(** The index built by the loops maps a key to the records carrying it,
    in input order. *)
Lemma build_index_app {A} (key : A → string) (l1 l2 : list A) :
  build_index key (l1 ++ l2)
  = foldl (λ index r, <[key r := default [] (index !! key r) ++ [r]]> index)
          (build_index key l1) l2.
Proof. unfold build_index. by rewrite foldl_app. Qed.

Lemma index_get_build_index {A} (key : A → string) (l : list A) (k : string) :
  index_get (build_index key l) k
  = List.filter (λ r, bool_decide (key r = k)) l.
Proof.
  induction l as [|r l IH] using rev_ind.
  - unfold index_get, build_index. cbn. by rewrite lookup_empty.
  - rewrite build_index_app. cbn [foldl].
    rewrite List.filter_app. cbn [List.filter].
    unfold index_get in *.
    destruct (decide (key r = k)) as [Heq|Hne].
    + rewrite bool_decide_eq_true_2 by done. subst k.
      rewrite lookup_insert_eq. cbn [default]. by rewrite IH.
    + rewrite bool_decide_eq_false_2 by done.
      rewrite lookup_insert_ne by done. rewrite IH. by rewrite app_nil_r.
Qed.

(** The walk visits exactly the triples of the join, hotel by hotel. *)
Lemma candidates_elem (hotels : list domain.Hotel)
    (room_types : list domain.RoomType) (rates : list domain.RatePlan)
    (prices : list domain.Price) (availability : list domain.Availability)
    (hotel : domain.Hotel) (room_type : domain.RoomType)
    (rate : domain.RatePlan) :
  (hotel, room_type, rate)
    ∈ candidates (build_indices room_types rates prices availability) hotels
  ↔ hotel ∈ hotels
    ∧ room_type ∈ room_types
    ∧ domain.RoomType_hotel_id room_type = domain.Hotel_id hotel
    ∧ rate ∈ rates
    ∧ domain.RatePlan_room_type_id rate = domain.RoomType_id room_type.
Proof.
  unfold candidates, build_indices. cbn.
  rewrite list_elem_of_bind. split.
  - intros (h & Hin & Hh).
    apply list_elem_of_bind in Hin as (r & Hin & Hr).
    apply list_elem_of_bind in Hin as (t & Hin & Ht).
    apply list_elem_of_singleton in Hin as [= -> -> ->].
    rewrite index_get_build_index in Hr.
    rewrite index_get_build_index in Ht.
    apply list_elem_of_In, List.filter_In in Hr as [Hr Hrk].
    apply list_elem_of_In, List.filter_In in Ht as [Ht Htk].
    apply bool_decide_eq_true in Hrk, Htk.
    rewrite <- !list_elem_of_In in *. done.
  - intros (Hh & Hr & Hrk & Ht & Htk).
    exists hotel. split; [|done].
    apply list_elem_of_bind. exists room_type. split.
    + apply list_elem_of_bind. exists rate. split; [by left|].
      rewrite index_get_build_index.
      apply list_elem_of_In, List.filter_In. split.
      * by apply list_elem_of_In.
      * by apply bool_decide_eq_true.
    + rewrite index_get_build_index.
      apply list_elem_of_In, List.filter_In. split.
      * by apply list_elem_of_In.
      * by apply bool_decide_eq_true.
Qed.

(** One run of the inner generator: it stops at the first accepted
    candidate, having examined it and the rejected ones before it, or
    examines everything that was pending. *)
Lemma offers_scan_spec (ix : indices) (p : predicate)
    (pending : list candidate) (n : nat) :
  match offers_scan ix p pending n with
  | (Some o, rest, n') =>
      ∃ skipped c,
        pending = skipped ++ c :: rest
        ∧ List.filter (accepts ix p) skipped = []
        ∧ accepts ix p c = true
        ∧ o = make_offer ix c
        ∧ n' = n + length skipped + 1
  | (None, rest, n') =>
      rest = [] ∧ List.filter (accepts ix p) pending = []
      ∧ n' = n + length pending
  end.
Proof.
  revert n. induction pending as [|c pending IH]; intros n; cbn.
  - split; [done|]. split; [done|lia].
  - destruct (accepts ix p c) eqn:Hc.
    + exists [], c. cbn. repeat split; try done. lia.
    + specialize (IH (S n)).
      destruct (offers_scan ix p pending (S n)) as [[[o|] rest] n'].
      * destruct IH as (skipped & c' & -> & Hs & Hc' & -> & ->).
        exists (c :: skipped), c'. cbn. rewrite Hc.
        repeat split; try done. lia.
      * destruct IH as (-> & Hf & ->). repeat split; try done. lia.
Qed.

End lazy_facts.

Section lazy_consumers.
Import lazy.

Lemma search_next_finished (g : search_gen) :
  sg_finished g = true → search_next g = (None, g).
Proof. intros H. unfold search_next. by rewrite H. Qed.

(** Without a truthy limit a consumer that keeps calling [next] receives
    every matching offer, and by then all pending candidates have been
    examined. *)
Lemma take_results_unlimited (n : nat) (g : search_gen) :
  sg_finished g = false → truthy_int (sg_limit g) = false →
  length (og_pending (sg_offers g)) < n →
  (take_results n g).1
  = all_results (og_index (sg_offers g)) (og_predicate (sg_offers g))
                (og_pending (sg_offers g))
  ∧ sg_finished (take_results n g).2 = true
  ∧ og_examined (sg_offers (take_results n g).2)
    = og_examined (sg_offers g) + length (og_pending (sg_offers g)).
Proof.
  revert g. induction n as [|n IH]; intros g Hfin Hlim Hlen; [lia|].
  destruct g as [[ix p pending ex] limit count fin].
  cbn in Hfin, Hlim, Hlen. subst fin. cbn [take_results].
  unfold search_next, offers_next. cbn [sg_finished sg_offers og_index
    og_predicate og_pending og_examined sg_limit sg_count].
  pose proof (offers_scan_spec ix p pending ex) as Hscan.
  destruct (offers_scan ix p pending ex) as [[[o|] rest] ex'].
  - destruct Hscan as (skipped & c & -> & Hskip & Hc & -> & ->).
    unfold limit_reached. rewrite Hlim. cbn [andb].
    rewrite length_app in Hlen. cbn [length] in Hlen.
    match goal with
    | |- context [take_results n ?g'] =>
        destruct (IH g') as (Hres & Hend & Hex); [done|done|cbn; lia|];
        destruct (take_results n g') as [rs g'']
    end.
    cbn in Hres, Hend, Hex |- *. subst rs.
    split; [|split; [done|]].
    + unfold all_results. rewrite List.filter_app, Hskip. cbn.
      by rewrite Hc.
    + rewrite Hex, length_app. cbn. lia.
  - destruct Hscan as (-> & Hnone & ->). cbn.
    unfold all_results. rewrite Hnone. done.
Qed.

(** With a positive limit no consumer receives more than
    [limit - count] results. *)
Lemma take_results_bounded (n : nat) (g : search_gen) (L : Z) :
  sg_limit g = Some L → (0 < L)%Z → (0 ≤ sg_count g ≤ L)%Z →
  (length (take_results n g).1 ≤ Z.to_nat (L - sg_count g))%nat.
Proof.
  revert g. induction n as [|n IH]; intros g HL Hpos Hcount; [cbn; lia|].
  destruct g as [[ix p pending ex] limit count fin].
  cbn in HL, Hcount. subst limit. cbn [take_results].
  unfold search_next, offers_next. cbn [sg_finished sg_offers og_index
    og_predicate og_pending og_examined sg_limit sg_count].
  destruct fin; [cbn; lia|].
  destruct (offers_scan ix p pending ex) as [[[o|] rest] ex']; [|cbn; lia].
  unfold limit_reached, truthy_int.
  change (default 0%Z (Some L)) with L.
  destruct (Z.eqb_spec L 0) as [->|_]; [lia|]. cbn [negb andb].
  destruct (Z.leb_spec L count) as [Hge|Hlt]; [cbn; lia|].
  match goal with
  | |- context [take_results n ?g'] =>
      specialize (IH g' eq_refl Hpos); destruct (take_results n g') as [rs g'']
  end.
  cbn in IH |- *. specialize (IH ltac:(lia)). lia.
Qed.

(** Once [count] has reached a positive limit, [next] ends the
    generator. *)
Lemma search_next_at_limit (g : search_gen) (L : Z) :
  sg_limit g = Some L → (0 < L)%Z → (L ≤ sg_count g)%Z →
  (search_next g).1 = None ∧ sg_finished (search_next g).2 = true.
Proof.
  intros HL Hpos Hcount. unfold search_next.
  destruct (sg_finished g) eqn:Hfin; [done|].
  destruct (offers_next (sg_offers g)) as [[o|] og]; [|done].
  unfold limit_reached, truthy_int. rewrite HL.
  change (default 0%Z (Some L)) with L.
  destruct (Z.eqb_spec L 0) as [->|_]; [lia|]. cbn [negb andb].
  destruct (Z.leb_spec L (sg_count g)); [done|lia].
Qed.

End lazy_consumers.

(** C10.  [lazy_search_results] tests [limit] for truthiness: with
    [limit=None] and with [limit=0] alike, draining the generator yields
    every matching offer of the whole walk, in walk order; on the sample
    with two matching offers a caller passing [limit=0] receives both. *)
Theorem lazy_search_results_falsy_limit_yields_all
    (hotels : list Hotel) (room_types : list RoomType)
    (rates : list RatePlan) (prices : list Price)
    (availability : list Availability) (f : lazy.filters) :
  (lazy.to_list
     (lazy.lazy_search_results hotels room_types rates prices availability
        f None)).1
  = lazy.all_results
      (lazy.build_indices room_types rates prices availability)
      (lazy.search_predicate f)
      (lazy.candidates
         (lazy.build_indices room_types rates prices availability) hotels)
  ∧ (lazy.to_list
       (lazy.lazy_search_results hotels room_types rates prices availability
          f (Some 0%Z))).1
    = lazy.all_results
        (lazy.build_indices room_types rates prices availability)
        (lazy.search_predicate f)
        (lazy.candidates
           (lazy.build_indices room_types rates prices availability) hotels)
  ∧ length (lazy.to_list (sample.two_rates (Some 0%Z))).1 = 2.
Proof.
  split; [|split].
  - unfold lazy.to_list.
    apply (take_results_unlimited _
             (lazy.lazy_search_results hotels room_types rates prices
                availability f None)); [done|done|cbn; lia].
  - unfold lazy.to_list.
    apply (take_results_unlimited _
             (lazy.lazy_search_results hotels room_types rates prices
                availability f (Some 0%Z))); [done|done|cbn; lia].
  - vm_compute. reflexivity.
Qed.

(** C7 (where the code departs from the claim).  On the sample with two
    matching candidates and [limit=1], [list(...)] receives one result,
    yet the generator has examined both candidates: after the first
    result the loop draws the next offer from [lazy_offers] before it
    tests the limit.  A consumer that stops after its first result has
    made the generator examine one candidate only. *)
Theorem lazy_search_limit_draws_next_offer_first :
  length (lazy.to_list (sample.two_rates (Some 1%Z))).1 = 1
  ∧ lazy.og_examined
      (lazy.sg_offers (lazy.to_list (sample.two_rates (Some 1%Z))).2) = 2
  ∧ (lazy.take_results 1 (sample.two_rates (Some 1%Z))).1
    = (lazy.to_list (sample.two_rates (Some 1%Z))).1
  ∧ lazy.og_examined
      (lazy.sg_offers (lazy.take_results 1 (sample.two_rates (Some 1%Z))).2)
    = 1.
Proof. repeat split; vm_compute; reflexivity. Qed.

(** ** Ranking (core/service.py) *)

Section sorting.
Context {A : Type}.
Implicit Types (key : A → Z) (R : relation A) (l : list A).

Lemma insert_desc_perm key (x : A) l :
  service.insert_desc key x l ≡ₚ x :: l.
Proof.
  induction l as [|y l IH]; cbn; [done|].
  destruct (key x <? key y)%Z; [|done].
  rewrite IH. apply Permutation_swap.
Qed.

Lemma sort_reverse_perm key l : service.sort_reverse key l ≡ₚ l.
Proof.
  induction l as [|x l IH]; cbn; [done|].
  fold (service.sort_reverse key l). rewrite insert_desc_perm. by rewrite IH.
Qed.

Lemma then_by_key key R (x y : A) :
  service.then_by key R x y → (key y ≤ key x)%Z.
Proof. intros [H|[H _]]; lia. Qed.

(** Inserting an element that [R]-precedes the whole list keeps the list
    ordered by key first and by [R] among equal keys. *)
Lemma insert_desc_sorted key R (x : A) l :
  StronglySorted (service.then_by key R) l → Forall (R x) l →
  StronglySorted (service.then_by key R) (service.insert_desc key x l).
Proof.
  induction l as [|y l IH]; intros Hs HR; cbn.
  - repeat constructor.
  - apply StronglySorted_inv in Hs as [Hs Hy].
    apply Forall_cons in HR as [HRy HR].
    destruct (Z.ltb_spec (key x) (key y)) as [Hlt|Hge].
    + constructor; [by apply IH|].
      rewrite insert_desc_perm. constructor; [by left|done].
    + constructor; [by constructor|].
      constructor.
      * destruct (Z.eq_dec (key x) (key y)); [by right|left; lia].
      * rewrite Forall_forall in Hy, HR |- *. intros z Hz.
        pose proof (then_by_key _ _ _ _ (Hy z Hz)).
        destruct (Z.eq_dec (key x) (key z)); [right; auto|left; lia].
Qed.

(** One sort: stable, descending. *)
Lemma sort_reverse_sorted key R l :
  StronglySorted R l →
  StronglySorted (service.then_by key R) (service.sort_reverse key l).
Proof.
  induction l as [|x l IH]; intros Hs; cbn; [constructor|].
  apply StronglySorted_inv in Hs as [Hs Hx].
  fold (service.sort_reverse key l).
  apply insert_desc_sorted; [by apply IH|].
  by rewrite sort_reverse_perm.
Qed.

(** One sort per scorer, in order. *)
Lemma sort_each_perm (scorers : list (A → Z)) l :
  foldl (λ results scorer, service.sort_reverse scorer results) l scorers
  ≡ₚ l.
Proof.
  revert l. induction scorers as [|s scorers IH]; intros l; cbn; [done|].
  rewrite IH. apply sort_reverse_perm.
Qed.

Lemma sort_each_sorted (scorers : list (A → Z)) R l :
  StronglySorted R l →
  StronglySorted (service.order_after scorers R)
    (foldl (λ results scorer, service.sort_reverse scorer results) l scorers).
Proof.
  revert R l. induction scorers as [|s scorers IH]; intros R l Hs; cbn.
  - done.
  - apply IH. by apply sort_reverse_sorted.
Qed.

Lemma order_after_last (init : list (A → Z)) (last : A → Z) R :
  service.order_after (init ++ [last]) R
  = service.then_by last (service.order_after init R).
Proof. unfold service.order_after. by rewrite foldl_app. Qed.

Lemma StronglySorted_weaken (R1 R2 : relation A) l :
  (∀ x y, R1 x y → R2 x y) → StronglySorted R1 l → StronglySorted R2 l.
Proof.
  intros Himp. induction 1 as [|x l Hs IH Hx]; constructor; [done|].
  eapply Forall_impl; eauto.
Qed.

End sorting.

(** C2.  [SearchService.search] returns a rearrangement of the filtered
    offers that equals one stable descending sort per scorer, applied in
    configuration order.  When the scorers are [init] followed by [last],
    the result is in descending order of [last]'s key, and offers tied on
    it are in the order the earlier scorers [init] produced (recursively:
    descending by the scorer before, and so on down to the order [R] the
    filtered list had, which offers tied on every key keep). *)
Theorem search_sorts_by_each_scorer_in_order
    (self : service.SearchService) (hotels : list Hotel)
    (room_types : list RoomType) (rates : list RatePlan)
    (prices : list Price) (availability : list Availability)
    (request : service.search_request) :
  service.search self hotels room_types rates prices availability request
  ≡ₚ service.filtered_results self hotels room_types rates prices
       availability request
  ∧ service.search self hotels room_types rates prices availability request
    = foldl (λ results scorer, service.sort_reverse scorer results)
        (service.filtered_results self hotels room_types rates prices
           availability request)
        (service.scorers self)
  ∧ (∀ R : relation lazy.search_result,
       StronglySorted R
         (service.filtered_results self hotels room_types rates prices
            availability request) →
       StronglySorted (service.order_after (service.scorers self) R)
         (service.search self hotels room_types rates prices availability
            request))
  ∧ (∀ init last, service.scorers self = init ++ [last] →
       StronglySorted (λ x y, (last y ≤ last x)%Z)
         (service.search self hotels room_types rates prices availability
            request)
       ∧ ∀ R : relation lazy.search_result,
           StronglySorted R
             (service.filtered_results self hotels room_types rates prices
                availability request) →
           StronglySorted
             (service.then_by last (service.order_after init R))
             (service.search self hotels room_types rates prices
                availability request)).
Proof.
  unfold service.search.
  set (filtered := service.filtered_results self hotels room_types rates
                     prices availability request).
  split; [apply sort_each_perm|].
  split; [reflexivity|].
  split; [intros R HR; by apply sort_each_sorted|].
  intros init last Hscorers.
  assert (Hlex : ∀ R : relation lazy.search_result,
            StronglySorted R filtered →
            StronglySorted
              (service.then_by last (service.order_after init R))
              (foldl (λ results scorer, service.sort_reverse scorer results)
                 filtered (service.scorers self))).
  { intros R HR. rewrite <- order_after_last, <- Hscorers.
    by apply sort_each_sorted. }
  split; [|exact Hlex].
  apply (StronglySorted_weaken
           (service.then_by last
              (service.order_after init (λ _ _, True)))).
  - intros x y. apply then_by_key.
  - apply Hlex. clear. induction filtered as [|x l IH]; constructor; [done|].
    by apply Forall_forall.
Qed.

(** A run of the factory's service: the two offers of the sample tie on
    availability and on stars, so the first scorer, the negated price,
    decides; the cheaper rate comes first. *)
Example search_sample_order :
  map lazy.result_rate
    (service.search service.create_search_service
       [sample.hotel_1] [sample.room_1] [sample.rate_1; sample.rate_2]
       [{| Price_id := "p2"; Price_rate_id := "rate_2";
           Price_date := "2024-01-01"; Price_amount := 80;
           Price_currency := "USD" |}] []
       {| service.request_filters := sample.no_filters;
          service.request_limit := None |})
  = [sample.rate_2; sample.rate_1].
Proof. vm_compute. reflexivity. Qed.

(** ** The event bus (core/frp.py) *)

Section bus_facts.
Context {W : Type}.
Implicit Types (s : frp.system (W:=W)) (event : Event).

Lemma new_system_wf (w : W) : frp.wf (frp.new_system w).
Proof.
  unfold frp.wf, frp.new_system. cbn.
  assert (Hkeys : ∀ k r,
    (<["cancellations" := 4]> (<["search_queries" := 3]>
      (<["price_changes" := 2]> (<["recent_bookings" := 1]>
      (<["active_holds" := 0]> (∅ : gmap string nat))))) : gmap string nat)
      !! k = Some r →
    (k = "cancellations" ∧ r = 4) ∨ (k = "search_queries" ∧ r = 3)
    ∨ (k = "price_changes" ∧ r = 2) ∨ (k = "recent_bookings" ∧ r = 1)
    ∨ (k = "active_holds" ∧ r = 0)).
  { intros k r H.
    repeat (apply lookup_insert_Some in H as [[<- <-]|[_ H]]; [tauto|]).
    by rewrite lookup_empty in H. }
  split; [|split].
  - intros k Hk. unfold frp.state_keys in Hk.
    repeat (apply elem_of_cons in Hk as [->|Hk]; [by eexists|]).
    by apply elem_of_nil in Hk.
  - intros k1 k2 r H1 H2.
    apply Hkeys in H1. apply Hkeys in H2.
    destruct H1 as [[-> ->]|[[-> ->]|[[-> ->]|[[-> ->]|[-> ->]]]]];
      destruct H2 as [[-> ?]|[[-> ?]|[[-> ?]|[[-> ?]|[-> ?]]]]];
      first [reflexivity|discriminate].
  - intros k r H. apply Hkeys in H.
    destruct H as [[-> ->]|[[-> ->]|[[-> ->]|[[-> ->]|[-> ->]]]]]; lia.
Qed.

Lemma state_append_spec (key : string) (x : frp.entry) s :
  frp.wf s → key ∈ frp.state_keys →
  ∃ s', frp.state_append key x s = (Ok (), s')
        ∧ frp.wf s' ∧ frp.same_frame s s'
        ∧ frp.derived s' key = frp.derived s key ++ [x]
        ∧ ∀ k, k ≠ key → frp.derived s' k = frp.derived s k.
Proof.
  intros (Hbound & Hinj & Halloc) Hkey.
  destruct (Hbound key Hkey) as [r Hr].
  unfold frp.state_append. rewrite Hr. eexists. split; [reflexivity|].
  split; [|split; [|split]].
  - done.
  - by repeat split.
  - unfold frp.derived, frp.read. cbn. rewrite Hr. cbn.
    unfold frp.deref at 1. cbn. by rewrite lookup_insert_eq.
  - intros k Hk. unfold frp.derived, frp.read. cbn.
    destruct (frp._state (frp.sys_bus s) !! k) as [r'|] eqn:Hr'; [|done].
    cbn. unfold frp.deref at 1. cbn.
    rewrite lookup_insert_ne; [done|].
    intros <-. apply Hk. by eapply Hinj.
Qed.

Lemma remove_hold_spec event s :
  frp.wf s →
  ∃ s', frp.remove_hold event s = (Ok (), s')
        ∧ frp.wf s' ∧ frp.same_frame s s'
        ∧ frp.derived s' "active_holds"
          = List.filter (frp.keeps_hold event) (frp.derived s "active_holds")
        ∧ ∀ k, k ≠ "active_holds" → frp.derived s' k = frp.derived s k.
Proof.
  intros (Hbound & Hinj & Halloc).
  destruct (Hbound "active_holds") as [r Hr]; [by left|].
  unfold frp.remove_hold. rewrite Hr. cbn.
  eexists. split; [reflexivity|].
  split; [|split; [|split]].
  - split; [|split]; cbn.
    + intros k Hk. destruct (decide (k = "active_holds")) as [->|Hne].
      * rewrite lookup_insert_eq. by eexists.
      * rewrite lookup_insert_ne by done. by apply Hbound.
    + intros k1 k2 r0 H1 H2.
      apply lookup_insert_Some in H1 as [[<- <-]|[Hn1 H1]];
        apply lookup_insert_Some in H2 as [[<- Heq]|[Hn2 H2]].
      * done.
      * apply Halloc in H2. lia.
      * subst r0. apply Halloc in H1. lia.
      * by eapply Hinj.
    + intros k r0 H.
      apply lookup_insert_Some in H as [[<- <-]|[_ H]]; [lia|].
      apply Halloc in H. lia.
  - by repeat split.
  - unfold frp.derived, frp.read. cbn. rewrite lookup_insert_eq, Hr. cbn.
    unfold frp.deref at 1. cbn. by rewrite lookup_insert_eq.
  - intros k Hk. unfold frp.derived, frp.read. cbn.
    rewrite lookup_insert_ne by done.
    destruct (frp._state (frp.sys_bus s) !! k) as [r'|] eqn:Hr'; [|done].
    cbn. unfold frp.deref at 1. cbn.
    rewrite lookup_insert_ne; [done|].
    apply Halloc in Hr'. lia.
Qed.

Lemma same_frame_trans s1 s2 s3 :
  frp.same_frame s1 s2 → frp.same_frame s2 s3 → frp.same_frame s1 s3.
Proof. unfold frp.same_frame. intuition congruence. Qed.

(** [_update_state] on a well-formed bus: it returns, and the derived
    state becomes the reduced one. *)
Lemma update_state_spec event s :
  frp.wf s →
  ∃ s', frp._update_state event s = (Ok (), s')
        ∧ frp.wf s' ∧ frp.same_frame s s'
        ∧ ∀ key, frp.derived s' key = frp.reduced event (frp.derived s) key.
Proof.
  intros Hwf. unfold frp._update_state, frp.reduced.
  assert (Happend : ∀ k, k ∈ frp.state_keys →
    ∃ s', frp.state_append k (frp.entry_of event) s = (Ok (), s')
          ∧ frp.wf s' ∧ frp.same_frame s s'
          ∧ ∀ key, frp.derived s' key
                   = if String.eqb key k
                     then frp.derived s key ++ [frp.entry_of event]
                     else frp.derived s key).
  { intros k Hk.
    destruct (state_append_spec k (frp.entry_of event) s Hwf Hk)
      as (s' & Hs' & Hwf' & Hfr & Hkey & Hother).
    exists s'. split; [done|]. split; [done|]. split; [done|]. intros key.
    destruct (String.eqb_spec key k) as [->|Hne]; auto. }
  destruct (String.eqb_spec (Event_name event) "HOLD") as [_|_].
  { apply Happend. unfold frp.state_keys. rewrite !elem_of_cons. tauto. }
  destruct (String.eqb_spec (Event_name event) "BOOKED") as [_|_].
  { destruct (state_append_spec "recent_bookings" (frp.entry_of event) s Hwf)
      as (s1 & Hs1 & Hwf1 & Hfr1 & Hkey1 & Hother1);
      [unfold frp.state_keys; rewrite !elem_of_cons; tauto|].
    destruct (remove_hold_spec event s1 Hwf1)
      as (s2 & Hs2 & Hwf2 & Hfr2 & Hkey2 & Hother2).
    exists s2. unfold py.bind. rewrite Hs1, Hs2.
    split; [done|]. split; [done|].
    split; [by eapply same_frame_trans|]. intros key.
    destruct (String.eqb_spec key "recent_bookings") as [->|Hne1].
    - rewrite Hother2 by done. done.
    - destruct (String.eqb_spec key "active_holds") as [->|Hne2].
      + rewrite Hkey2, Hother1 by done. done.
      + rewrite Hother2, Hother1 by done. done. }
  destruct (String.eqb_spec (Event_name event) "CANCELLED") as [_|_].
  { apply Happend. unfold frp.state_keys. rewrite !elem_of_cons. tauto. }
  destruct (String.eqb_spec (Event_name event) "PRICE_CHANGED") as [_|_].
  { apply Happend. unfold frp.state_keys. rewrite !elem_of_cons. tauto. }
  destruct (String.eqb_spec (Event_name event) "SEARCH") as [_|_].
  { apply Happend. unfold frp.state_keys. rewrite !elem_of_cons. tauto. }
  exists s. split; [done|]. split; [done|]. split; [|done].
  by repeat split.
Qed.

End bus_facts.

Section publish_facts.
Context {W : Type}.
Implicit Types (s : frp.system (W:=W)) (event : Event).

(** The invariant and the derived state only read the references and the
    store. *)
Lemma wf_same_state s s' :
  frp._state (frp.sys_bus s') = frp._state (frp.sys_bus s) →
  frp.sys_store s' = frp.sys_store s → frp.wf s → frp.wf s'.
Proof. unfold frp.wf. intros -> ->. done. Qed.

Lemma derived_same_state s s' key :
  frp._state (frp.sys_bus s') = frp._state (frp.sys_bus s) →
  frp.sys_store s' = frp.sys_store s → frp.derived s' key = frp.derived s key.
Proof. unfold frp.derived. intros -> ->. done. Qed.

(** The loop body never raises: a fault of the filter or of the callback
    ends in the handler.  An accepted subscriber's callback is called on
    the environment as it stands; a rejected one is skipped. *)
Lemma deliver_spec (subscriber : frp.Subscription (W:=W)) event s :
  ∃ s', frp.deliver subscriber event s = (Ok (), s')
        ∧ frp.sys_bus s' = frp.sys_bus s
        ∧ frp.sys_store s' = frp.sys_store s
        ∧ frp.sys_notified s'
          = frp.sys_notified s
            ++ (if frp.accepts event subscriber
                then [frp.Subscription_id subscriber] else [])
        ∧ frp.sys_world s'
          = (if frp.accepts event subscriber
             then (frp.Subscription_callback subscriber event
                     (frp.sys_world s)).2
             else frp.sys_world s).
Proof.
  unfold frp.deliver, frp.accepts, try_except, py.bind, py.ret.
  destruct (frp.Subscription_filter_predicate subscriber) as [p|].
  - destruct (p event) as [[|]|e]; cbn.
    + unfold frp.in_world. cbn.
      destruct (frp.Subscription_callback subscriber event (frp.sys_world s))
        as [[[]|e] w']; cbn; eexists; repeat split.
    + eexists. repeat split. by rewrite app_nil_r.
    + eexists. repeat split. by rewrite app_nil_r.
  - cbn. unfold frp.in_world. cbn.
    destruct (frp.Subscription_callback subscriber event (frp.sys_world s))
      as [[[]|e] w']; cbn; eexists; repeat split.
Qed.

(** The notification loop: every accepted subscriber is called, in
    registration order, each on the environment its predecessor left,
    whether or not a predecessor raised. *)
Lemma notify_spec (subscribers : list (frp.Subscription (W:=W))) event s :
  ∃ s', frp.notify subscribers event s = (Ok (), s')
        ∧ frp.sys_bus s' = frp.sys_bus s
        ∧ frp.sys_store s' = frp.sys_store s
        ∧ frp.sys_notified s'
          = frp.sys_notified s
            ++ map frp.Subscription_id
                 (List.filter (frp.accepts event) subscribers)
        ∧ frp.sys_world s'
          = foldl (λ w sub, (frp.Subscription_callback sub event w).2)
                  (frp.sys_world s)
                  (List.filter (frp.accepts event) subscribers).
Proof.
  revert s. induction subscribers as [|sub subscribers IH]; intros s.
  - exists s. cbn. repeat split. by rewrite app_nil_r.
  - cbn [frp.notify]. unfold py.bind.
    destruct (deliver_spec sub event s) as (s1 & -> & Hb1 & Hh1 & Hn1 & Hw1).
    destruct (IH s1) as (s2 & -> & Hb2 & Hh2 & Hn2 & Hw2).
    exists s2. split; [done|].
    split; [congruence|]. split; [congruence|].
    rewrite Hn2, Hw2, Hn1, Hw1. cbn [List.filter].
    destruct (frp.accepts event sub); cbn.
    + by rewrite <- app_assoc.
    + by rewrite app_nil_r.
Qed.

(** [publish] on a well-formed bus. *)
Lemma publish_spec event s :
  frp.wf s →
  ∃ s', frp.publish event s = (Ok (), s')
        ∧ frp.wf s'
        ∧ frp._subscribers (frp.sys_bus s') = frp._subscribers (frp.sys_bus s)
        ∧ frp._event_history (frp.sys_bus s')
          = frp._event_history (frp.sys_bus s) ++ [event]
        ∧ (∀ key, frp.derived s' key
                  = frp.reduced event (frp.derived s) key)
        ∧ frp.sys_notified s'
          = frp.sys_notified s
            ++ map frp.Subscription_id
                 (List.filter (frp.accepts event)
                    (frp.subscribers_of event (frp.sys_bus s)))
        ∧ frp.sys_world s'
          = foldl (λ w sub, (frp.Subscription_callback sub event w).2)
                  (frp.sys_world s)
                  (List.filter (frp.accepts event)
                     (frp.subscribers_of event (frp.sys_bus s))).
Proof.
  intros Hwf. unfold frp.publish, py.bind.
  unfold frp.append_history at 1.
  match goal with
  | |- context [frp._update_state event ?s0] => set (sh := s0)
  end.
  assert (Hwfh : frp.wf sh) by (by apply (wf_same_state s)).
  destruct (update_state_spec event sh Hwfh)
    as (s1 & -> & Hwf1 & (Hsub & Hhist & Hout & Hworld & Hnot) & Hred).
  unfold frp.subscribers_of.
  replace (frp._subscribers (frp.sys_bus s))
    with (frp._subscribers (frp.sys_bus s1)) by (by rewrite Hsub).
  assert (Hd : ∀ key, frp.derived s1 key
                      = frp.reduced event (frp.derived s) key).
  { intros key. rewrite Hred. unfold frp.reduced.
    by rewrite !(derived_same_state s sh). }
  destruct (frp._subscribers (frp.sys_bus s1) !! Event_name event)
    as [subscribers|] eqn:Hsubs.
  - destruct (notify_spec subscribers event s1)
      as (s2 & -> & Hb2 & Hh2 & Hn2 & Hw2).
    exists s2. split; [done|].
    split; [by apply (wf_same_state s1); congruence|].
    split; [by rewrite Hb2|]. split; [by rewrite Hb2, Hhist|].
    split; [intros key; rewrite <- Hd;
            apply derived_same_state; congruence|].
    cbn. rewrite Hn2, Hw2, Hnot, Hworld. done.
  - exists s1. split; [done|]. split; [done|]. split; [done|].
    split; [by rewrite Hhist|]. split; [done|].
    cbn. rewrite Hnot, Hworld, app_nil_r. done.
Qed.

End publish_facts.

(** C6.  On a well-formed bus [publish] returns normally whatever the
    subscribers do: the event is appended to the history, the derived
    state is reduced, and every subscriber registered for the event's name
    whose filter is absent or accepts the event has its callback called,
    in registration order, each on the environment its predecessor left,
    also after a predecessor's filter or callback raised.  (Callbacks act
    on their own environment; the bus is out of their reach.) *)
Theorem publish_isolates_subscriber_faults (W : Type)
    (s : frp.system (W:=W)) (event : Event) :
  frp.wf s →
  (frp.publish event s).1 = Ok ()
  ∧ frp.wf (frp.publish event s).2
  ∧ frp._event_history (frp.sys_bus (frp.publish event s).2)
    = frp._event_history (frp.sys_bus s) ++ [event]
  ∧ (∀ key, frp.derived (frp.publish event s).2 key
            = frp.reduced event (frp.derived s) key)
  ∧ frp.sys_notified (frp.publish event s).2
    = frp.sys_notified s
      ++ map frp.Subscription_id
           (List.filter (frp.accepts event)
              (frp.subscribers_of event (frp.sys_bus s)))
  ∧ frp.sys_world (frp.publish event s).2
    = foldl (λ w sub, (frp.Subscription_callback sub event w).2)
            (frp.sys_world s)
            (List.filter (frp.accepts event)
               (frp.subscribers_of event (frp.sys_bus s))).
Proof.
  intros Hwf.
  destruct (publish_spec event s Hwf)
    as (s' & -> & Hwf' & _ & Hhist & Hred & Hnot & Hworld).
  cbn [fst snd]. done.
Qed.

Lemma bus_two_subscribers_wf : frp.wf sample.bus_two_subscribers.
Proof.
  apply (wf_same_state (frp.new_system [])); [done|done|].
  apply new_system_wf.
Qed.

Lemma publish_isolates_subscriber_faults_witness :
  frp.wf sample.bus_two_subscribers
  ∧ (frp.publish sample.hold_h1 sample.bus_two_subscribers).1 = Ok ()
  ∧ frp.sys_notified
      (frp.publish sample.hold_h1 sample.bus_two_subscribers).2
    = ["sub-1"; "sub-2"]
  ∧ frp.sys_world (frp.publish sample.hold_h1 sample.bus_two_subscribers).2
    = ["second saw e1"].
Proof.
  split; [exact bus_two_subscribers_wf|].
  pose proof (publish_isolates_subscriber_faults (list string)
                sample.bus_two_subscribers sample.hold_h1
                bus_two_subscribers_wf)
    as (Hok & _ & _ & _ & Hnot & Hworld).
  split; [exact Hok|]. split; [exact Hnot|exact Hworld].
Defined.

(** The same run evaluated: the first subscriber's fault is reported on
    standard output and the second subscriber is still called. *)
Example publish_two_subscribers_run :
  frp.sys_stdout (frp.publish sample.hold_h1 sample.bus_two_subscribers).2
  = ["Error in event subscriber sub-1: boom"]
  ∧ frp.sys_notified
      (frp.publish sample.hold_h1 sample.bus_two_subscribers).2
    = ["sub-1"; "sub-2"]
  ∧ frp.sys_world (frp.publish sample.hold_h1 sample.bus_two_subscribers).2
    = ["second saw e1"].
Proof. repeat split; vm_compute; reflexivity. Qed.

(** The test of the BOOKED branch, for a payload whose [hold_id] is
    ["h1"]: an entry is dropped exactly when its ['id'] is ["h1"]. *)
Lemma keeps_hold_h1 (booked : Event) (hold : gmap string value) :
  Event_payload booked !! "hold_id" = Some (VStr "h1") →
  frp.keeps_hold booked hold
  = negb (bool_decide (hold !! "id" = Some (VStr "h1"))).
Proof.
  intros Hid. unfold frp.keeps_hold, eqb_opt. rewrite Hid. cbn.
  destruct (hold !! "id") as [[| | |id]|] eqn:Hhold; cbn;
    try (rewrite bool_decide_eq_false_2 by discriminate; reflexivity).
  destruct (String.eqb_spec id "h1") as [->|Hne].
  - by rewrite bool_decide_eq_true_2.
  - rewrite bool_decide_eq_false_2; [done|]. by intros [= ->].
Qed.

(** The entry built from an event keeps the payload's ['id']. *)
Lemma entry_of_id (event : Event) :
  frp.entry_of event !! "id" = Event_payload event !! "id".
Proof.
  unfold frp.entry_of. by rewrite !lookup_insert_ne by done.
Qed.

(** C5.  From any well-formed bus: publishing a HOLD event whose payload
    has id ["h1"] appends the payload, augmented with the event id and
    timestamp, to [active_holds]; publishing then a BOOKED event whose
    payload has hold_id ["h1"] appends its augmented payload to
    [recent_bookings] and leaves in [active_holds] exactly the entries
    whose id is not ["h1"].  SEARCH, CANCELLED and PRICE_CHANGED events
    append to [search_queries], [cancellations] and [price_changes].
    The augmented payload is the payload with ['event_id'] bound to the
    event's id and ['timestamp'] to its time: the entry reads these two
    under those keys and what the payload holds under every other key. *)
Theorem publish_reduces_events (W : Type) (s : frp.system (W:=W))
    (hold booked : Event) :
  frp.wf s →
  Event_name hold = "HOLD" →
  Event_payload hold !! "id" = Some (VStr "h1") →
  Event_name booked = "BOOKED" →
  Event_payload booked !! "hold_id" = Some (VStr "h1") →
  frp.derived (frp.publish hold s).2 "active_holds"
  = frp.derived s "active_holds"
    ++ [<["timestamp" := VStr (Event_ts hold)]>
          (<["event_id" := VStr (Event_id hold)]> (Event_payload hold))]
  ∧ frp.entry_of hold !! "id" = Some (VStr "h1")
  ∧ frp.derived (frp.publish booked (frp.publish hold s).2).2
      "recent_bookings"
    = frp.derived (frp.publish hold s).2 "recent_bookings"
      ++ [<["timestamp" := VStr (Event_ts booked)]>
            (<["event_id" := VStr (Event_id booked)]>
               (Event_payload booked))]
  ∧ frp.derived (frp.publish booked (frp.publish hold s).2).2 "active_holds"
    = List.filter
        (λ h, negb (bool_decide (h !! "id" = Some (VStr "h1"))))
        (frp.derived (frp.publish hold s).2 "active_holds")
  ∧ (∀ h, h ∈ frp.derived (frp.publish booked (frp.publish hold s).2).2
                "active_holds" →
          h !! "id" ≠ Some (VStr "h1"))
  ∧ (∀ event, Event_name event = "SEARCH" →
       frp.derived (frp.publish event s).2 "search_queries"
       = frp.derived s "search_queries" ++ [frp.entry_of event])
  ∧ (∀ event, Event_name event = "CANCELLED" →
       frp.derived (frp.publish event s).2 "cancellations"
       = frp.derived s "cancellations" ++ [frp.entry_of event])
  ∧ (∀ event, Event_name event = "PRICE_CHANGED" →
       frp.derived (frp.publish event s).2 "price_changes"
       = frp.derived s "price_changes" ++ [frp.entry_of event])
  ∧ (∀ event,
       frp.entry_of event !! "event_id" = Some (VStr (Event_id event))
       ∧ frp.entry_of event !! "timestamp" = Some (VStr (Event_ts event))
       ∧ ∀ key, key ≠ "event_id" → key ≠ "timestamp" →
                frp.entry_of event !! key = Event_payload event !! key).
Proof.
  intros Hwf Hhold Hid Hbooked Hhid.
  destruct (publish_spec hold s Hwf) as (s1 & Hs1 & Hwf1 & _ & _ & Hred1 & _).
  destruct (publish_spec booked s1 Hwf1) as (s2 & Hs2 & _ & _ & _ & Hred2 & _).
  rewrite Hs1. cbn [snd]. rewrite Hs2. cbn [snd].
  assert (Hfilter :
    frp.derived s2 "active_holds"
    = List.filter (λ h, negb (bool_decide (h !! "id" = Some (VStr "h1"))))
        (frp.derived s1 "active_holds")).
  { rewrite Hred2. unfold frp.reduced. rewrite Hbooked. cbn.
    apply List.filter_ext. intros h. by apply keeps_hold_h1. }
  split; [rewrite Hred1; unfold frp.reduced; by rewrite Hhold|].
  split; [by rewrite entry_of_id|].
  split; [rewrite Hred2; unfold frp.reduced; by rewrite Hbooked|].
  split; [exact Hfilter|].
  split.
  { intros h Hh. rewrite Hfilter in Hh.
    apply list_elem_of_In, List.filter_In in Hh as [_ Hh].
    apply negb_true_iff, bool_decide_eq_false in Hh. exact Hh. }
  split; [|split; [|split]].
  1-3: intros event Hname;
    destruct (publish_spec event s Hwf) as (s' & -> & _ & _ & _ & Hred & _);
    cbn [snd]; rewrite Hred; unfold frp.reduced; by rewrite Hname.
  intros event. unfold frp.entry_of. split; [|split].
  - rewrite lookup_insert_ne by done. by rewrite lookup_insert_eq.
  - by rewrite lookup_insert_eq.
  - intros key Hid' Hts. by rewrite !lookup_insert_ne by done.
Qed.

Lemma publish_reduces_events_witness :
  frp.wf sample.fresh_bus
  ∧ frp.derived (frp.publish sample.hold_h1 sample.fresh_bus).2 "active_holds"
    = [<["timestamp" := VStr "2024-01-01T10:00:00"]>
         (<["event_id" := VStr "e1"]> {["id" := VStr "h1"]})]
  ∧ frp.derived
      (frp.publish sample.booked_h1
         (frp.publish sample.hold_h1 sample.fresh_bus).2).2 "recent_bookings"
    = [<["timestamp" := VStr "2024-01-01T10:05:00"]>
         (<["event_id" := VStr "e2"]> {["hold_id" := VStr "h1"]})]
  ∧ frp.derived
      (frp.publish sample.booked_h1
         (frp.publish sample.hold_h1 sample.fresh_bus).2).2 "active_holds"
    = [].
Proof.
  split; [exact (new_system_wf tt)|].
  pose proof (publish_reduces_events unit sample.fresh_bus sample.hold_h1
                sample.booked_h1 (new_system_wf tt) eq_refl eq_refl eq_refl
                eq_refl)
    as (Hhold & _ & Hbooked & Hremoved & _).
  split; [exact Hhold|]. split; [exact Hbooked|].
  rewrite Hremoved. vm_compute. reflexivity.
Defined.

(** C3 (where the code departs from the claim).  [get_state] copies the
    dict but not the lists in it.  On a fresh bus, the list a snapshot
    holds under ['active_holds'] is empty when the snapshot is taken and
    holds the HOLD entry after a later [publish]; appending to that list
    through the snapshot changes the derived state of the bus.  Only the
    rebinding done by a BOOKED event stays invisible to the snapshot. *)
Theorem get_state_snapshot_shares_lists :
  frp.read (frp.sys_store sample.fresh_bus) sample.snapshot "active_holds"
  = []
  ∧ frp.read (frp.sys_store (frp.publish sample.hold_h1 sample.fresh_bus).2)
      sample.snapshot "active_holds"
    = [frp.entry_of sample.hold_h1]
  ∧ frp.derived sample.fresh_bus "active_holds" = []
  ∧ frp.derived
      (frp.snapshot_append sample.snapshot "active_holds"
         (frp.entry_of sample.hold_h1) sample.fresh_bus).2 "active_holds"
    = [frp.entry_of sample.hold_h1]
  ∧ frp.read
      (frp.sys_store
         (frp.publish sample.booked_h1
            (frp.publish sample.hold_h1 sample.fresh_bus).2).2)
      sample.snapshot "active_holds"
    = [frp.entry_of sample.hold_h1]
  ∧ frp.derived
      (frp.publish sample.booked_h1
         (frp.publish sample.hold_h1 sample.fresh_bus).2).2 "active_holds"
    = [].
Proof. repeat split; vm_compute; reflexivity. Qed.

(** ** Adequacy of [to_list] and the limit of [lazy_search_results] *)

Section lazy_limit.
Import lazy.

(** A consumer that calls [next] more often than there are pending
    candidates reaches [StopIteration]: [to_list] drains the generator. *)
Lemma take_results_finishes (n : nat) (g : search_gen) :
  length (og_pending (sg_offers g)) < n →
  sg_finished (take_results n g).2 = true.
Proof.
  revert g. induction n as [|n IH]; intros g Hlen; [lia|].
  destruct g as [[ix p pending ex] limit count fin]. cbn in Hlen.
  cbn [take_results]. unfold search_next, offers_next.
  cbn [sg_finished sg_offers og_index og_predicate og_pending og_examined
       sg_limit sg_count].
  destruct fin; [done|].
  pose proof (offers_scan_spec ix p pending ex) as Hscan.
  destruct (offers_scan ix p pending ex) as [[[o|] rest] ex']; [|done].
  destruct Hscan as (skipped & c & -> & _ & _ & _ & _).
  rewrite length_app in Hlen. cbn [length] in Hlen.
  destruct (limit_reached limit count); [done|].
  match goal with
  | |- context [take_results n ?g'] =>
      specialize (IH g'); destruct (take_results n g') as [rs g'']
  end.
  cbn in IH |- *. apply IH. lia.
Qed.

Lemma to_list_finishes (g : search_gen) : sg_finished (to_list g).2 = true.
Proof. unfold to_list. apply take_results_finishes. lia. Qed.

End lazy_limit.

(** With a positive limit, draining [lazy_search_results] yields at most
    [limit] results and ends the generator, so that a further [next]
    yields nothing. *)
Theorem lazy_search_results_at_most_limit
    (hotels : list Hotel) (room_types : list RoomType)
    (rates : list RatePlan) (prices : list Price)
    (availability : list Availability) (f : lazy.filters) (limit : Z) :
  (0 < limit)%Z →
  (length
     (lazy.to_list
        (lazy.lazy_search_results hotels room_types rates prices
           availability f (Some limit))).1 ≤ Z.to_nat limit)%nat
  ∧ (lazy.search_next
       (lazy.to_list
          (lazy.lazy_search_results hotels room_types rates prices
             availability f (Some limit))).2).1 = None.
Proof.
  intros Hpos. split.
  - unfold lazy.to_list.
    match goal with
    | |- context [lazy.take_results ?n ?g] =>
        pose proof (take_results_bounded n g limit eq_refl Hpos) as Hb
    end.
    cbn [lazy.sg_count lazy.lazy_search_results] in Hb.
    replace (limit - 0)%Z with limit in Hb by lia. apply Hb. lia.
  - rewrite search_next_finished; [done|]. apply to_list_finishes.
Qed.

Lemma lazy_search_results_at_most_limit_witness :
  (0 < 1)%Z
  ∧ (length (lazy.to_list (sample.two_rates (Some 1%Z))).1 ≤ 1)%nat.
Proof.
  split; [lia|].
  exact (proj1 (lazy_search_results_at_most_limit
                  [sample.hotel_1] [sample.room_1]
                  [sample.rate_1; sample.rate_2] [] [] sample.no_filters
                  1%Z ltac:(lia))).
Defined.

(** A consumer that stops once it holds [k] results has made the
    generator examine a prefix [pre] of the pending candidates that ends
    with the candidate of its last result: nothing beyond the candidates
    needed for the results it took. *)
Theorem take_results_examines_needed_prefix
    (k : nat) (g : lazy.search_gen) :
  lazy.sg_finished g = false →
  length (lazy.take_results k g).1 = k →
  ∃ pre,
    lazy.og_pending (lazy.sg_offers g)
    = pre ++ lazy.og_pending (lazy.sg_offers (lazy.take_results k g).2)
    ∧ lazy.og_examined (lazy.sg_offers (lazy.take_results k g).2)
      = lazy.og_examined (lazy.sg_offers g) + length pre
    ∧ (lazy.take_results k g).1
      = lazy.all_results (lazy.og_index (lazy.sg_offers g))
          (lazy.og_predicate (lazy.sg_offers g)) pre
    ∧ (pre = []
       ∨ ∃ pre0 c, pre = pre0 ++ [c]
                   ∧ lazy.accepts (lazy.og_index (lazy.sg_offers g))
                       (lazy.og_predicate (lazy.sg_offers g)) c = true).
Proof.
  revert g. induction k as [|k IH]; intros g Hfin Hlen.
  { exists []. cbn. repeat split; [lia|by left]. }
  destruct g as [[ix p pending ex] limit count fin].
  cbn in Hfin. subst fin. revert Hlen. cbn [lazy.take_results].
  unfold lazy.search_next, lazy.offers_next.
  cbn [lazy.sg_finished lazy.sg_offers lazy.og_index lazy.og_predicate
       lazy.og_pending lazy.og_examined lazy.sg_limit lazy.sg_count].
  pose proof (offers_scan_spec ix p pending ex) as Hscan.
  destruct (lazy.offers_scan ix p pending ex) as [[[o|] rest] ex'];
    [|cbn; discriminate].
  destruct Hscan as (skipped & c & -> & Hskip & Hc & -> & ->).
  destruct (lazy.limit_reached limit count); [cbn; discriminate|].
  match goal with
  | |- context [lazy.take_results k ?g'] =>
      specialize (IH g' eq_refl); destruct (lazy.take_results k g') as [rs g'']
  end.
  cbn [fst snd length] in IH |- *. intros [= Hlen].
  destruct (IH Hlen) as (pre & Hpre & Hex & Hres & Hlast). clear IH.
  cbn [lazy.sg_offers lazy.og_index lazy.og_predicate lazy.og_pending
       lazy.og_examined] in Hpre, Hex, Hres, Hlast.
  exists (skipped ++ c :: pre). split; [|split; [|split]].
  - rewrite Hpre. by rewrite <- app_assoc.
  - rewrite Hex, !length_app. cbn [length]. lia.
  - rewrite Hres. unfold lazy.all_results.
    rewrite List.filter_app, Hskip. cbn. by rewrite Hc.
  - right. destruct Hlast as [->|(pre0 & c' & -> & Hc')].
    + exists skipped, c. done.
    + exists (skipped ++ c :: pre0), c'. split; [|done].
      by rewrite <- app_assoc.
Qed.

Lemma take_results_examines_needed_prefix_witness :
  lazy.sg_finished (sample.two_rates (Some 1%Z)) = false
  ∧ length (lazy.take_results 1 (sample.two_rates (Some 1%Z))).1 = 1
  ∧ ∃ pre,
      lazy.og_pending (lazy.sg_offers (sample.two_rates (Some 1%Z)))
      = pre ++ lazy.og_pending
                 (lazy.sg_offers
                    (lazy.take_results 1 (sample.two_rates (Some 1%Z))).2)
      ∧ lazy.og_examined
          (lazy.sg_offers
             (lazy.take_results 1 (sample.two_rates (Some 1%Z))).2)
        = 0 + length pre.
Proof.
  split; [reflexivity|]. split; [reflexivity|].
  destruct (take_results_examines_needed_prefix 1
              (sample.two_rates (Some 1%Z)) eq_refl eq_refl)
    as (pre & Hpre & Hex & _).
  exists pre. split; [exact Hpre|exact Hex].
Defined.

(** ** The filter functions (core/recursion.py) *)

(** [compose_filters] is the conjunction of its filters: none accepts
    every item, and two lists of filters compose to the conjunction of
    the two compositions. *)
Theorem compose_filters_is_conjunction (A : Type)
    (fs gs : list (A → bool)) (f g : A → bool) (item : A) :
  recursion.compose_filters [] item = true
  ∧ recursion.compose_filters [f; g] item = f item && g item
  ∧ recursion.compose_filters (fs ++ gs) item
    = recursion.compose_filters fs item && recursion.compose_filters gs item
  ∧ (recursion.compose_filters fs item = true ↔ ∀ h, h ∈ fs → h item = true).
Proof.
  unfold recursion.compose_filters. split; [|split; [|split]].
  - reflexivity.
  - cbn. by rewrite andb_true_r.
  - apply forallb_app.
  - rewrite forallb_forall. setoid_rewrite <- list_elem_of_In. done.
Qed.

Lemma compose_filter_funcs (filters : recursion.SearchFilters)
    (hotel : Hotel) :
  recursion.compose_filters (recursion.filter_funcs filters) hotel = true
  ↔ recursion.matches filters hotel.
Proof.
  unfold recursion.filter_funcs, recursion.matches, recursion.compose_filters.
  rewrite !forallb_app, !andb_true_iff.
  assert (Hconj : ∀ A1 A2 A3 B1 B2 B3 : Prop,
            (A1 ↔ B1) → (A2 ↔ B2) → (A3 ↔ B3) →
            (A1 ∧ A2 ∧ A3 ↔ B1 ∧ B2 ∧ B3)) by tauto.
  apply Hconj; clear Hconj.
  - destruct (recursion.SearchFilters_city filters) as [city|]; cbn.
    + destruct (String.eqb_spec city "") as [->|Hne]; cbn.
      * split; [|done]. intros _ c [= <-] Hc. done.
      * unfold recursion.by_city. rewrite andb_true_r.
        destruct (String.eqb_spec (lazy.lower (Hotel_city hotel))
                    (lazy.lower city)) as [Heq|Hneq].
        -- split; [|done]. by intros _ c [= <-] _.
        -- split; [done|]. intros H. exfalso. by apply Hneq, H.
    + split; [|done]. by intros _ c.
  - destruct (recursion.SearchFilters_features filters) as [|x xs] eqn:Hf.
    + cbn. split; [|done]. intros _ feature Hin. by apply elem_of_nil in Hin.
    + cbn [forallb]. rewrite andb_true_r. unfold recursion.by_features.
      rewrite forallb_forall. setoid_rewrite <- list_elem_of_In.
      setoid_rewrite bool_decide_eq_true. done.
  - destruct (recursion.SearchFilters_stars filters) as [|x xs] eqn:Hs.
    + cbn. split; [|done]. by intros _ ?.
    + cbn [forallb]. rewrite andb_true_r, bool_decide_eq_true.
      split; [by intros H _|]. intros H. by apply H.
Qed.

(** [filter_hotels] keeps, in their order, exactly the hotels that pass
    the tests the filters ask for: the city, compared without regard to
    case, when a non-empty city is given; every required feature; the
    star rating, when ratings are given.  With nothing asked the hotels
    come back unchanged, and filtering twice filters once. *)
Theorem filter_hotels_keeps_matching_hotels
    (hotels : list Hotel) (filters : recursion.SearchFilters) :
  (∀ hotel, hotel ∈ recursion.filter_hotels hotels filters
            ↔ hotel ∈ hotels ∧ recursion.matches filters hotel)
  ∧ recursion.filter_hotels hotels filters `sublist_of` hotels
  ∧ (recursion.filter_funcs filters = [] →
     recursion.filter_hotels hotels filters = hotels)
  ∧ recursion.filter_hotels (recursion.filter_hotels hotels filters) filters
    = recursion.filter_hotels hotels filters.
Proof.
  assert (Hall : recursion.filter_hotels hotels filters
                 = List.filter
                     (recursion.compose_filters
                        (recursion.filter_funcs filters)) hotels
                 ∨ (recursion.filter_funcs filters = []
                    ∧ recursion.filter_hotels hotels filters = hotels)).
  { unfold recursion.filter_hotels.
    destruct (recursion.filter_funcs filters); [by right|by left]. }
  assert (Hnil : recursion.filter_funcs filters = [] →
                 ∀ hotel, recursion.matches filters hotel).
  { intros Hf hotel. apply compose_filter_funcs. by rewrite Hf. }
  assert (Hsub : ∀ (p : Hotel → bool) l, List.filter p l `sublist_of` l).
  { intros p l. induction l as [|x l IH]; cbn; [done|].
    destruct (p x); [by apply sublist_skip|by apply sublist_cons]. }
  assert (Hidem : ∀ (p : Hotel → bool) l,
            List.filter p (List.filter p l) = List.filter p l).
  { intros p l. induction l as [|x l IH]; cbn; [done|].
    destruct (p x) eqn:Hp; cbn; [rewrite Hp; by f_equal|done]. }
  repeat apply conj.
  - intros hotel. destruct Hall as [->|[Hf ->]].
    + rewrite list_elem_of_In, List.filter_In, <- list_elem_of_In.
      by rewrite compose_filter_funcs.
    + split; [intros H; split; [done|by apply Hnil]|by intros [H _]].
  - destruct Hall as [->|[_ ->]]; [apply Hsub|done].
  - intros Hf. unfold recursion.filter_hotels. by rewrite Hf.
  - unfold recursion.filter_hotels.
    destruct (recursion.filter_funcs filters); [done|apply Hidem].
Qed.

(** ** Composition with Either and Maybe (core/compose.py) *)

Section either_compose_facts.
Context {W V : Type}.
Implicit Types (functions : list (V → Py W V)) (w : W).

Lemma either_loop_Left functions (msg : string) w :
  pipelines.either_loop functions (Left msg) w = (Ok (Left msg), w).
Proof.
  revert w. induction functions as [|f functions IH]; intros w; [done|].
  cbn [pipelines.either_loop]. unfold py.bind at 1. cbn. apply IH.
Qed.

Lemma either_loop_Right functions (x : V) w :
  pipelines.either_loop functions (Right x) w
  = pipelines.Either_try_except (pipelines.ftypes_compose functions x) w.
Proof.
  revert x w. induction functions as [|f functions IH]; intros x w; [done|].
  cbn [pipelines.either_loop pipelines.ftypes_compose Either_bind].
  unfold pipelines.Either_try_except at 1 2, try_except, py.bind, py.ret.
  destruct (f x w) as [[y|e] w1]; cbn.
  - rewrite IH. unfold pipelines.Either_try_except, try_except, py.bind, py.ret.
    by destruct (pipelines.ftypes_compose functions y w1) as [[z|e] w2].
  - apply either_loop_Left.
Qed.

End either_compose_facts.

(** [either_compose] never raises.  It runs its functions from the first
    to the last, each on the result of the one before; when all return,
    it returns the last result in a [Right]; when one raises, it returns
    [Left] of the text of that exception and the functions after it are
    not run (the environment is the one the raising function left). *)
Theorem either_compose_returns_first_failure (W V : Type)
    (functions : list (V → Py W V)) (arg : V) (w : W) :
  pipelines.either_compose functions arg w
  = (match pipelines.ftypes_compose functions arg w with
     | (Ok v, w') => (Ok (Right v), w')
     | (Raise e, w') => (Ok (Left (str e)), w')
     end)
  ∧ (∀ before after f x e w1 w2,
       functions = before ++ f :: after →
       pipelines.ftypes_compose before arg w = (Ok x, w1) →
       f x w1 = (Raise e, w2) →
       pipelines.either_compose functions arg w = (Ok (Left (str e)), w2)).
Proof.
  assert (Hrun : pipelines.either_compose functions arg w
    = (match pipelines.ftypes_compose functions arg w with
       | (Ok v, w') => (Ok (Right v), w')
       | (Raise e, w') => (Ok (Left (str e)), w')
       end)).
  { unfold pipelines.either_compose. rewrite either_loop_Right.
    unfold pipelines.Either_try_except, try_except, py.bind, py.ret.
    by destruct (pipelines.ftypes_compose functions arg w) as [[v|e] w']. }
  split; [exact Hrun|].
  intros before after f x e w1 w2 -> Hbefore Hf.
  rewrite Hrun.
  assert (Happ : pipelines.ftypes_compose (before ++ f :: after) arg w
                 = (Raise e, w2)); [|by rewrite Happ].
  clear Hrun. revert arg w Hbefore.
  induction before as [|g before IH]; intros arg w Hbefore.
  - cbn in Hbefore. injection Hbefore as -> ->.
    cbn. unfold py.bind. by rewrite Hf.
  - cbn in Hbefore |- *. unfold py.bind in Hbefore |- *.
    destruct (g arg w) as [[y|e'] w3]; [by apply IH|discriminate].
Qed.

(** ** The domain validators (core/ftypes.py) *)

Section validators_facts.
Import validators.

(** The pure [bind] and [map] are the methods of [ftypes] at functions
    without effects. *)
Lemma bind_is_Either_bind {W E T U} (m : Either E T) (f : T → Either E U)
    (w : W) :
  Either_bind m (λ x, py.ret (f x)) w = (Ok (bind m f), w).
Proof. by destruct m. Qed.

Lemma map_is_Either_map {W E T U} (m : Either E T) (f : T → U) (w : W) :
  Either_map m (λ x, py.ret (f x)) w = (Ok (map m f), w).
Proof. by destruct m. Qed.

Lemma validate_items_Left availability rules items (e : string) :
  validate_items availability rules items (Left e) = Left e.
Proof. induction items as [|item items IH]; [done|]. cbn. apply IH. Qed.

Lemma validate_cart_item_Right item availability rules x :
  validate_cart_item item availability rules = Right x → x = item.
Proof.
  unfold validate_cart_item.
  repeat match goal with |- context [if ?c then _ else _] => destruct c end;
    by intros [= <-].
Qed.

Lemma validate_items_Right availability rules items (b : Booking) :
  Forall (λ i, validate_cart_item i availability rules = Right i) items →
  validate_items availability rules items (Right b) = Right b.
Proof.
  induction 1 as [|item items Hitem _ IH]; [done|].
  cbn. rewrite Hitem. cbn. apply IH.
Qed.

Lemma validate_items_first_Left availability rules before item after
    (b : Booking) (e : string) :
  Forall (λ i, validate_cart_item i availability rules = Right i) before →
  validate_cart_item item availability rules = Left e →
  validate_items availability rules (before ++ item :: after) (Right b)
  = Left e.
Proof.
  intros Hbefore Hitem. unfold validate_items. rewrite foldl_app.
  fold (validate_items availability rules before (Right b)).
  rewrite validate_items_Right by done. cbn. rewrite Hitem. cbn.
  apply validate_items_Left.
Qed.

Lemma validate_items_Right_inv availability rules items (b b0 : Booking) :
  validate_items availability rules items (Right b) = Right b0 →
  b0 = b
  ∧ Forall (λ i, validate_cart_item i availability rules = Right i) items.
Proof.
  revert b0. induction items as [|item items IH] using rev_ind; intros b0.
  { intros [= <-]. by split. }
  unfold validate_items. rewrite foldl_app. cbn [foldl].
  fold (validate_items availability rules items (Right b)).
  destruct (validate_items availability rules items (Right b))
    as [b1|e1] eqn:Hitems; [|discriminate].
  destruct (IH b1 eq_refl) as [-> Hall]. cbn.
  destruct (validate_cart_item item availability rules) as [x|e2] eqn:Hitem;
    [|discriminate].
  intros [= <-]. split; [done|].
  apply Forall_app. split; [done|]. constructor; [|constructor].
  by rewrite (validate_cart_item_Right _ _ _ _ Hitem) in Hitem.
Qed.

End validators_facts.

(** [validate_booking] reports the error of the first cart item that
    [validate_cart_item] rejects and validates nothing after it; when
    every item passes, its result is that of the total check; it returns
    [Right] only of the booking it was given, and only when no item has
    more than four guests and the total is within 10 of 100 per guest. *)
Theorem validate_booking_reports_first_invalid_item
    (booking : Booking) (prices : list Price)
    (availability : list Availability) (rules : list Rule) :
  (∀ before item after e,
     Booking_items booking = before ++ item :: after →
     Forall (λ i, validators.validate_cart_item i availability rules
                  = Right i) before →
     validators.validate_cart_item item availability rules = Left e →
     validators.validate_booking booking prices availability rules = Left e)
  ∧ (Forall (λ i, validators.validate_cart_item i availability rules
                  = Right i) (Booking_items booking) →
     validators.validate_booking booking prices availability rules
     = validators.validate_booking_total booking prices)
  ∧ (∀ b, validators.validate_booking booking prices availability rules
          = Right b →
          b = booking
          ∧ Forall (λ i, (CartItem_guests i ≤ 4)%Z) (Booking_items booking)
          ∧ (Z.abs (validators.calculated_total (Booking_items booking)
                    - Booking_total booking) ≤ 10)%Z).
Proof.
  unfold validators.validate_booking. split; [|split].
  - intros before item after e -> Hbefore Hitem.
    by rewrite (validate_items_first_Left _ _ _ _ _ _ e).
  - intros Hall. by rewrite validate_items_Right.
  - intros b Hb.
    destruct (validators.validate_items availability rules
                (Booking_items booking) (Right booking))
      as [b0|e0] eqn:Hitems; [|discriminate].
    destruct (validate_items_Right_inv _ _ _ _ _ Hitems) as [-> Hall].
    cbn in Hb.
    unfold validators.validate_booking_total in Hb.
    destruct (Z.ltb_spec 10
                (Z.abs (validators.calculated_total (Booking_items booking)
                        - Booking_total booking))) as [Hgt|Hle];
      [discriminate|].
    injection Hb as <-. split; [done|]. split; [|done].
    eapply Forall_impl; [exact Hall|]. intros i Hi.
    unfold validators.validate_cart_item in Hi.
    destruct (negb _); [discriminate|].
    destruct (Z.ltb_spec 4 (CartItem_guests i)); [discriminate|lia].
Qed.

Lemma calculated_total_acc (items : list CartItem) (acc : Z) :
  foldl (λ acc item, acc + CartItem_guests item * 100)%Z acc items
  = (acc + validators.calculated_total items)%Z.
Proof.
  unfold validators.calculated_total. revert acc.
  induction items as [|item items IH]; intros acc; cbn; [lia|].
  rewrite IH, (IH (0 + _)%Z). lia.
Qed.

Lemma calculated_total_cons (item : CartItem) (items : list CartItem) :
  validators.calculated_total (item :: items)
  = (CartItem_guests item * 100 + validators.calculated_total items)%Z.
Proof.
  unfold validators.calculated_total at 1. cbn. rewrite calculated_total_acc.
  lia.
Qed.

(** The factory's quoter charges three nights of 100 per guest. *)
Lemma sum_quotes_factory (prices : list Price) (items : list CartItem)
    (acc : Z) :
  service.sum_quotes service.calculate_item_price prices items acc
  = Ok (acc + 3 * validators.calculated_total items)%Z.
Proof.
  revert acc. induction items as [|item items IH]; intros acc.
  - cbn. f_equal. unfold validators.calculated_total. cbn. lia.
  - rewrite calculated_total_cons. cbn [service.sum_quotes].
    change (service.calculate_item_price item prices)
      with (Ok (CartItem_guests item * 100 * 3)%Z).
    unfold mbind, py.outcome_bind. rewrite IH. f_equal. lia.
Qed.

(** The total the booking service's factory quoter computes (300 per
    guest) never passes [validate_booking_total], which expects 100 per
    guest within 10, unless the guests sum to zero. *)
Theorem factory_total_fails_total_validation
    (booking : Booking) (prices : list Price) (total : Z) :
  service.sum_quotes service.calculate_item_price prices
    (Booking_items booking) 0 = Ok total →
  Booking_total booking = total →
  validators.calculated_total (Booking_items booking) ≠ 0%Z →
  total = (3 * validators.calculated_total (Booking_items booking))%Z
  ∧ validators.validate_booking_total booking prices
    = Left ("Price mismatch detected. Expected: "
            +:+ pretty (validators.calculated_total (Booking_items booking))
            +:+ ", Got: " +:+ pretty total).
Proof.
  rewrite sum_quotes_factory. intros [= <-] Htotal Hne.
  split; [lia|]. unfold validators.validate_booking_total. rewrite Htotal.
  destruct (Z.ltb_spec 10
              (Z.abs (validators.calculated_total (Booking_items booking)
                      - (0 + 3 * validators.calculated_total
                                   (Booking_items booking)))))
    as [_|Hle]; [done|].
  pose proof (Z.mod_pos_bound
                (validators.calculated_total (Booking_items booking)) 100
                ltac:(lia)) as Hmod.
  assert (Hdiv : (validators.calculated_total (Booking_items booking)
                  mod 100 = 0)%Z).
  { clear. induction (Booking_items booking) as [|item items IH]; [done|].
    rewrite calculated_total_cons, Z.add_comm, Z.mod_add by lia. exact IH. }
  apply Z.mod_divide in Hdiv as [k Hk]; lia.
Qed.

Lemma factory_total_fails_total_validation_witness :
  service.sum_quotes service.calculate_item_price []
    (Booking_items fixtures.booking_600) 0 = Ok 600%Z
  ∧ validators.validate_booking_total fixtures.booking_600 []
    = Left "Price mismatch detected. Expected: 200, Got: 600".
Proof.
  split; [reflexivity|].
  refine (proj2 (factory_total_fails_total_validation fixtures.booking_600
                   [] 600%Z eq_refl eq_refl _)).
  vm_compute. lia.
Defined.

(** ** [validate_dates] and the quote *)

Lemma quote_offer_fields (a : memo.quote_args) (now : string)
    (c : memo.cache) (d1 d2 : memo.date) :
  memo.cache_ok c →
  memo.strptime (memo.arg_checkin a) = Some d1 →
  memo.strptime (memo.arg_checkout a) = Some d2 →
  ∃ q, (memo.quote_offer a now c).1 = Ok q
       ∧ memo.quote_nights q = memo.days_between d1 d2
       ∧ memo.quote_total_price q = (memo.quote_nights q * 100)%Z.
Proof.
  intros Hok H1 H2. unfold memo.quote_offer.
  destruct (memo.cache_lookup a c) as [q|] eqn:Hq.
  - destruct (cache_ok_lookup a c q Hok Hq) as [now' Hbody].
    exists q. split; [reflexivity|].
    destruct (quote_offer_body_fields a now' q d1 d2 H1 H2 Hbody)
      as (? & ? & _). done.
  - destruct (memo.quote_offer_body a now) as [q|e] eqn:Hbody.
    + exists q. split; [reflexivity|].
      destruct (quote_offer_body_fields a now q d1 d2 H1 H2 Hbody)
        as (? & ? & _). done.
    + unfold memo.quote_offer_body in Hbody.
      rewrite H1, H2 in Hbody. discriminate.
Qed.

(** A stay that [validate_dates] accepts is quoted at 1 to 30 nights and
    at 100 to 3000; [quote_offer] itself checks nothing: for parseable
    dates that [validate_dates] rejects as not after the checkin, it
    returns a quote of zero or fewer nights at a total of zero or less. *)
Theorem validated_stay_is_quoted_within_bounds
    (a : memo.quote_args) (now : string) (c : memo.cache) :
  memo.cache_ok c →
  (validators.validate_dates (memo.arg_checkin a) (memo.arg_checkout a)
   = Right (memo.arg_checkin a, memo.arg_checkout a) →
   ∃ q, (memo.quote_offer a now c).1 = Ok q
        ∧ (1 ≤ memo.quote_nights q ≤ 30)%Z
        ∧ (100 ≤ memo.quote_total_price q ≤ 3000)%Z)
  ∧ (validators.validate_dates (memo.arg_checkin a) (memo.arg_checkout a)
     = Left "Checkout date must be after checkin date" →
     ∃ q, (memo.quote_offer a now c).1 = Ok q
          ∧ (memo.quote_nights q ≤ 0)%Z
          ∧ (memo.quote_total_price q ≤ 0)%Z).
Proof.
  intros Hok. unfold validators.validate_dates.
  destruct (memo.strptime (memo.arg_checkin a)) as [d1|] eqn:H1;
    [|split; discriminate].
  destruct (memo.strptime (memo.arg_checkout a)) as [d2|] eqn:H2;
    [|split; discriminate].
  destruct (quote_offer_fields a now c d1 d2 Hok H1 H2)
    as (q & Hq & Hn & Ht).
  unfold memo.days_between in *.
  destruct (Z.leb_spec (memo.toordinal d2) (memo.toordinal d1)) as [Hle|Hgt].
  - split; [discriminate|]. intros _. exists q. split; [done|]. lia.
  - destruct (Z.ltb_spec 30 (memo.toordinal d2 - memo.toordinal d1));
      split; try discriminate.
    intros _. exists q. split; [done|]. lia.
Qed.

Lemma validated_stay_is_quoted_within_bounds_witness :
  memo.cache_ok []
  ∧ ∃ q, (memo.quote_offer fixtures.quote_args_1 "2024-01-01T09:00:00" []).1
         = Ok q
         ∧ (1 ≤ memo.quote_nights q ≤ 30)%Z
         ∧ (100 ≤ memo.quote_total_price q ≤ 3000)%Z.
Proof.
  split; [exact cache_ok_nil|].
  refine (proj1 (validated_stay_is_quoted_within_bounds
                   fixtures.quote_args_1 "2024-01-01T09:00:00" []
                   cache_ok_nil) _).
  vm_compute. reflexivity.
Defined.

(** [safe_rate] returns the first rate plan carrying the id, and
    [Nothing] exactly when no rate plan carries it; [to_either] then
    turns the miss into [Left] of the given message. *)
Theorem safe_rate_finds_first_match (rates : list RatePlan)
    (rate_id msg : string) :
  (∀ rate, validators.safe_rate rates rate_id = Just rate
           ↔ ∃ before after,
               rates = before ++ rate :: after
               ∧ RatePlan_id rate = rate_id
               ∧ ∀ r, r ∈ before → RatePlan_id r ≠ rate_id)
  ∧ (validators.safe_rate rates rate_id = Nothing
     ↔ ∀ r, r ∈ rates → RatePlan_id r ≠ rate_id)
  ∧ (pipelines.Maybe_to_either (validators.safe_rate rates rate_id) msg
     = Left msg
     ↔ ∀ r, r ∈ rates → RatePlan_id r ≠ rate_id).
Proof.
  assert (Hnothing : validators.safe_rate rates rate_id = Nothing
                     ↔ ∀ r, r ∈ rates → RatePlan_id r ≠ rate_id).
  { induction rates as [|x rates IH]; cbn.
    - split; [|done]. intros _ r Hr. by apply elem_of_nil in Hr.
    - destruct (String.eqb_spec (RatePlan_id x) rate_id) as [Heq|Hne].
      + split; [discriminate|]. intros H. exfalso. apply (H x); [by left|done].
      + rewrite IH. split.
        * intros H r Hr. apply elem_of_cons in Hr as [->|Hr]; auto.
        * intros H r Hr. apply H. by right. }
  split; [|split; [exact Hnothing|]].
  - clear Hnothing. intros rate. induction rates as [|x rates IH]; cbn.
    + split; [discriminate|]. intros (before & after & H & _).
      by destruct before.
    + destruct (String.eqb_spec (RatePlan_id x) rate_id) as [Heq|Hne].
      * split.
        -- intros [= <-]. exists [], rates. repeat split; [done|].
           intros r Hr. by apply elem_of_nil in Hr.
        -- intros (before & after & H & Hid & Hfirst).
           destruct before as [|y before]; cbn in H.
           ++ by injection H as <- _.
           ++ injection H as <- _. exfalso. apply (Hfirst x); [by left|done].
      * rewrite IH. split.
        -- intros (before & after & -> & Hid & Hfirst).
           exists (x :: before), after. repeat split; [done|].
           intros r Hr. apply elem_of_cons in Hr as [->|Hr]; auto.
        -- intros (before & after & H & Hid & Hfirst).
           destruct before as [|y before]; cbn in H.
           ++ injection H as -> _. done.
           ++ injection H as <- ->. exists before, after.
              repeat split; [done|]. intros r Hr. apply Hfirst. by right.
  - rewrite <- Hnothing.
    destruct (validators.safe_rate rates rate_id); cbn; split;
      done || discriminate.
Qed.

(** [safe_booking_pipeline] never returns a [Right].  For dates that
    [validate_dates] accepts it ends in a [NameError] for the name
    [data], which its second lambda reads and nothing binds; otherwise it
    returns the [Left] of [validate_dates]. *)
Theorem safe_booking_pipeline_never_returns_right
    (booking_data : validators.pipeline_data) (rates : list RatePlan)
    (rooms : list RoomType) (availability : list Availability) :
  (∀ rate, validators.safe_booking_pipeline booking_data rates rooms
             availability ≠ validators.Returns (Right rate))
  ∧ (validators.safe_booking_pipeline booking_data rates rooms availability
     = validators.RaisesNameError "data"
     ↔ ∃ d1 d2,
         memo.strptime (validators.pipeline_checkin booking_data) = Some d1
         ∧ memo.strptime (validators.pipeline_checkout booking_data)
           = Some d2
         ∧ (0 < memo.days_between d1 d2 ≤ 30)%Z)
  ∧ (∀ e, validators.safe_booking_pipeline booking_data rates rooms
            availability = validators.Returns (Left e) →
          validators.validate_dates
            (validators.pipeline_checkin booking_data)
            (validators.pipeline_checkout booking_data) = Left e).
Proof.
  unfold validators.safe_booking_pipeline, validators.validate_dates,
    memo.days_between.
  destruct (memo.strptime (validators.pipeline_checkin booking_data))
    as [d1|] eqn:H1;
    destruct (memo.strptime (validators.pipeline_checkout booking_data))
      as [d2|] eqn:H2.
  - destruct (Z.leb_spec (memo.toordinal d2) (memo.toordinal d1)) as [Hle|Hgt].
    + split; [done|]. split; [|by intros e [= <-]].
      split; [done|]. intros (x & y & [= <-] & [= <-] & Hdays). lia.
    + destruct (Z.ltb_spec 30 (memo.toordinal d2 - memo.toordinal d1))
        as [Hlong|Hshort].
      * split; [done|]. split; [|by intros e [= <-]].
        split; [done|]. intros (x & y & [= <-] & [= <-] & Hdays). lia.
      * split; [done|]. split; [|done].
        split; [|done]. intros _. exists d1, d2. repeat split; [lia|done].
  - split; [done|]. split; [|by intros e [= <-]].
    split; [done|]. by intros (x & y & _ & ? & _).
  - split; [done|]. split; [|by intros e [= <-]].
    split; [done|]. by intros (x & y & ? & _).
  - split; [done|]. split; [|by intros e [= <-]].
    split; [done|]. by intros (x & y & ? & _).
Qed.

(** ** The booking pipeline (core/compose.py) *)

(** [create_booking_pipeline] never raises and touches nothing.  For
    dates that parse it reports the first check that fails, in the order:
    checkout after checkin, stay of at most 30 days, at least one guest,
    at most ten guests, room not sold out.  When all pass it computes
    [total_price] (nights times the price per night, 100 by default,
    times the guests) and [final_price]: the total, or the total times
    0.9 when the checkin is more than 30 days ahead.  If that product
    raises (the total is beyond the range of floats), the result is the
    [Left] of the exception's text; otherwise it is the [Right] of the
    booking with [available], [nights], [total_price], [final_price], a
    booking id, and the status ["confirmed"]. *)
Theorem create_booking_pipeline_reports_first_failed_check
    (W F : Type) (times_0_9 : Z → outcome F) (now : booking_pipeline.clock)
    (uid created : string) (b : booking_pipeline.booking (F:=F))
    (d1 d2 : memo.date) (w : W) :
  memo.strptime (booking_pipeline.booking_checkin b) = Some d1 →
  memo.strptime (booking_pipeline.booking_checkout b) = Some d2 →
  let total :=
    (memo.days_between d1 d2
     * default 100 (booking_pipeline.booking_price_per_night b)
     * booking_pipeline.booking_guests b)%Z in
  let early := (30 <? booking_pipeline.days_until now d1)%Z in
  let confirmed final_price :=
    {| booking_pipeline.booking_checkin := booking_pipeline.booking_checkin b;
       booking_pipeline.booking_checkout :=
         booking_pipeline.booking_checkout b;
       booking_pipeline.booking_guests := booking_pipeline.booking_guests b;
       booking_pipeline.booking_room_type_id :=
         booking_pipeline.booking_room_type_id b;
       booking_pipeline.booking_price_per_night :=
         booking_pipeline.booking_price_per_night b;
       booking_pipeline.booking_available := Some true;
       booking_pipeline.booking_total_price := Some total;
       booking_pipeline.booking_nights := Some (memo.days_between d1 d2);
       booking_pipeline.booking_early_booking_discount :=
         early || booking_pipeline.booking_early_booking_discount b;
       booking_pipeline.booking_final_price := Some final_price;
       booking_pipeline.booking_booking_id := Some ("BK_" +:+ uid);
       booking_pipeline.booking_status := Some "confirmed";
       booking_pipeline.booking_created_at := Some created |} in
  booking_pipeline.create_booking_pipeline times_0_9 now uid created b w
  = (Ok (if (memo.days_between d1 d2 <=? 0)%Z
         then Left "Checkout date must be after checkin date"
         else if (30 <? memo.days_between d1 d2)%Z
         then Left "Maximum stay is 30 days"
         else if (booking_pipeline.booking_guests b <=? 0)%Z
         then Left "Number of guests must be positive"
         else if (10 <? booking_pipeline.booking_guests b)%Z
         then Left "Maximum 10 guests per booking"
         else if bool_decide (booking_pipeline.booking_room_type_id b
                              = Some "room_sold_out")
         then Left "Room not available for selected dates"
         else if early
         then match times_0_9 total with
              | Ok x => Right (confirmed (booking_pipeline.Float x))
              | Raise e => Left (str e)
              end
         else Right (confirmed (booking_pipeline.Int total))),
     w).
Proof.
  intros H1 H2 total early confirmed.
  unfold booking_pipeline.create_booking_pipeline, pipelines.either_compose.
  cbn [List.map]. rewrite either_loop_Right.
  unfold pipelines.Either_try_except, try_except.
  cbn [pipelines.ftypes_compose]. unfold py.bind, pipelines.of_outcome, py.ret.
  unfold booking_pipeline.validate_booking_dates at 1. rewrite H1, H2.
  subst confirmed total. unfold memo.days_between.
  destruct (Z.leb_spec (memo.toordinal d2) (memo.toordinal d1)) as [Hle|Hgt].
  { destruct (Z.leb_spec (memo.toordinal d2 - memo.toordinal d1) 0);
      [done|lia]. }
  destruct (Z.leb_spec (memo.toordinal d2 - memo.toordinal d1) 0); [lia|].
  destruct (30 <? memo.toordinal d2 - memo.toordinal d1)%Z; [done|].
  unfold booking_pipeline.validate_guest_count at 1.
  destruct (booking_pipeline.booking_guests b <=? 0)%Z; [done|].
  destruct (10 <? booking_pipeline.booking_guests b)%Z; [done|].
  unfold booking_pipeline.check_room_availability at 1.
  destruct (bool_decide (booking_pipeline.booking_room_type_id b
                         = Some "room_sold_out")); [done|].
  unfold booking_pipeline.calculate_total_price at 1.
  cbn [booking_pipeline.booking_checkin booking_pipeline.booking_checkout].
  rewrite H1, H2.
  unfold booking_pipeline.apply_discounts at 1.
  cbn [booking_pipeline.booking_checkin booking_pipeline.booking_total_price].
  rewrite H1. fold early.
  cbn [booking_pipeline.booking_price_per_night
       booking_pipeline.booking_guests].
  unfold memo.days_between.
  destruct early; cbn [mbind outcome_bind]; [|reflexivity].
  match goal with
  | |- context [times_0_9 ?t] => destruct (times_0_9 t) as [x|e]
  end; reflexivity.
Qed.

Lemma create_booking_pipeline_witness :
  booking_pipeline.create_booking_pipeline (W:=unit)
    fixtures.float_times_0_9 fixtures.new_year_morning
    "1A2B3C4D" "2024-01-01T09:00:00" fixtures.same_day_booking tt
  = (Ok (Left "Checkout date must be after checkin date"), tt)
  ∧ booking_pipeline.create_booking_pipeline (W:=unit)
      fixtures.float_times_0_9 fixtures.new_year_morning
      "1A2B3C4D" "2024-01-01T09:00:00" fixtures.early_booking tt
    = (Ok (Right
             {| booking_pipeline.booking_checkin := "2024-03-01";
                booking_pipeline.booking_checkout := "2024-03-03";
                booking_pipeline.booking_guests := 2;
                booking_pipeline.booking_room_type_id := None;
                booking_pipeline.booking_price_per_night := None;
                booking_pipeline.booking_available := Some true;
                booking_pipeline.booking_total_price := Some 400%Z;
                booking_pipeline.booking_nights := Some 2%Z;
                booking_pipeline.booking_early_booking_discount := true;
                booking_pipeline.booking_final_price :=
                  Some (booking_pipeline.Float 360%float);
                booking_pipeline.booking_booking_id := Some "BK_1A2B3C4D";
                booking_pipeline.booking_status := Some "confirmed";
                booking_pipeline.booking_created_at :=
                  Some "2024-01-01T09:00:00" |}), tt)
  ∧ booking_pipeline.create_booking_pipeline (W:=unit)
      fixtures.float_times_0_9 fixtures.new_year_morning
      "1A2B3C4D" "2024-01-01T09:00:00" fixtures.huge_price_booking tt
    = (Ok (Left "int too large to convert to float"), tt).
Proof.
  split; [|split].
  - exact (create_booking_pipeline_reports_first_failed_check unit _
             fixtures.float_times_0_9 fixtures.new_year_morning
             "1A2B3C4D" "2024-01-01T09:00:00" fixtures.same_day_booking
             fixtures.january_15 fixtures.january_15 tt eq_refl eq_refl).
  - exact (create_booking_pipeline_reports_first_failed_check unit _
             fixtures.float_times_0_9 fixtures.new_year_morning
             "1A2B3C4D" "2024-01-01T09:00:00" fixtures.early_booking
             {| memo.year := 2024; memo.month := 3; memo.day := 1 |}
             {| memo.year := 2024; memo.month := 3; memo.day := 3 |}
             tt eq_refl eq_refl).
  - rewrite (create_booking_pipeline_reports_first_failed_check unit _
               fixtures.float_times_0_9 fixtures.new_year_morning
               "1A2B3C4D" "2024-01-01T09:00:00" fixtures.huge_price_booking
               {| memo.year := 2024; memo.month := 3; memo.day := 1 |}
               {| memo.year := 2024; memo.month := 3; memo.day := 3 |}
               tt eq_refl eq_refl).
    vm_compute. reflexivity.
Defined.

(** ** Memoisation (core/memo.py) *)

Section cache_facts.
Import memo.

Lemma cache_remove_lookup_None (a : quote_args) (c : cache) :
  cache_lookup a c = None → cache_remove a c = c.
Proof.
  unfold cache_remove. induction c as [|[k q] c IH]; [done|].
  cbn [cache_lookup].
  destruct (decide (k = a)) as [->|Hne]; [discriminate|].
  intros H. rewrite filter_cons. cbn [fst].
  destruct (decide (k ≠ a)); [|done]. f_equal. by apply IH.
Qed.

Lemma cache_remove_idemp (a : quote_args) (c : cache) :
  cache_remove a (cache_remove a c) = cache_remove a c.
Proof.
  unfold cache_remove. induction c as [|[k q] c IH]; [done|].
  rewrite filter_cons. cbn. destruct (decide (k ≠ a)) as [Hne|Heq]; [|done].
  rewrite filter_cons. cbn. destruct (decide (k ≠ a)); [|done]. by f_equal.
Qed.

Lemma cache_lookup_remove (a : quote_args) (c : cache) :
  cache_lookup a (cache_remove a c) = None.
Proof.
  unfold cache_remove. induction c as [|[k q] c IH]; [done|].
  rewrite filter_cons. cbn. destruct (decide (k ≠ a)) as [Hne|Heq]; [|done].
  cbn. destruct (decide (k = a)); [done|exact IH].
Qed.

Lemma cache_remove_cons_same (a : quote_args) (q : quote) (c : cache) :
  cache_remove a ((a, q) :: c) = cache_remove a c.
Proof.
  unfold cache_remove. rewrite filter_cons. cbn.
  destruct (decide (a ≠ a)); done.
Qed.

Lemma cache_lookup_remove_None (a b : quote_args) (c : cache) :
  cache_lookup a c = None → cache_lookup a (cache_remove b c) = None.
Proof.
  unfold cache_remove. induction c as [|[k q] c IH]; [done|].
  cbn [cache_lookup]. destruct (decide (k = a)) as [->|Hne]; [done|].
  intros Hmiss. rewrite filter_cons. cbn [fst].
  destruct (decide (k ≠ b)); [|by apply IH].
  cbn [cache_lookup]. destruct (decide (k = a)); [done|by apply IH].
Qed.

Lemma cache_lookup_take_None (a : quote_args) (n : nat) (c : cache) :
  cache_lookup a c = None → cache_lookup a (take n c) = None.
Proof.
  revert n. induction c as [|[k q] c IH]; intros [|n]; cbn; try done.
  destruct (decide (k = a)); [done|]. apply IH.
Qed.

End cache_facts.

(** Memoisation: once a call has returned, repeating it, with the same
    argument values passed in the same form, returns the very same
    record, [calculated_at] of the first call included, whatever the
    clock reads, and leaves the cache as it is.  The same values passed
    in another form (by keyword instead of by position, say) are another
    key: unless a call in that form is cached too, the body runs again
    and the record it returns carries the new [calculated_at]. *)
Theorem quote_offer_repeat_returns_cached
    (a : memo.quote_args) (now later : string) (c c' : memo.cache)
    (q : memo.quote) :
  memo.quote_offer a now c = (Ok q, c') →
  memo.quote_offer a later c' = (Ok q, c')
  ∧ (∀ form, form ≠ memo.arg_form a →
       memo.cache_lookup (memo_runs.with_form form a) c = None →
       (memo.quote_offer (memo_runs.with_form form a) later c').1
       = memo.quote_offer_body a later
       ∧ ∀ q', memo.quote_offer_body a later = Ok q' →
               memo.quote_calculated_at q' = later).
Proof.
  intros Hcall. split.
  - revert Hcall. unfold memo.quote_offer at 1.
    destruct (memo.cache_lookup a c) as [q0|] eqn:Hq.
    + intros [= <- <-]. unfold memo.quote_offer. cbn [memo.cache_lookup].
      destruct (decide (a = a)); [|done].
      by rewrite cache_remove_cons_same, cache_remove_idemp.
    + destruct (memo.quote_offer_body a now) as [q0|e]; [|discriminate].
      intros [= <- <-]. unfold memo.quote_offer.
      change (take memo.maxsize ((a, q0) :: c))
        with ((a, q0) :: take 127 c).
      cbn [memo.cache_lookup]. destruct (decide (a = a)); [|done].
      rewrite cache_remove_cons_same, cache_remove_lookup_None; [done|].
      by apply cache_lookup_take_None.
  - intros form Hform Hmiss.
    assert (Hne : a ≠ memo_runs.with_form form a).
    { intros Heq. apply Hform.
      by apply (f_equal memo.arg_form) in Heq. }
    assert (Hmiss' : memo.cache_lookup (memo_runs.with_form form a) c'
                     = None).
    { revert Hcall. unfold memo.quote_offer.
      destruct (memo.cache_lookup a c) as [q0|] eqn:Hq.
      - intros [= <- <-]. cbn [memo.cache_lookup].
        destruct (decide (a = memo_runs.with_form form a)); [done|].
        by apply cache_lookup_remove_None.
      - destruct (memo.quote_offer_body a now) as [q0|e]; [|discriminate].
        intros [= <- <-].
        change (take memo.maxsize ((a, q0) :: c))
          with ((a, q0) :: take 127 c).
        cbn [memo.cache_lookup].
        destruct (decide (a = memo_runs.with_form form a)); [done|].
        by apply cache_lookup_take_None. }
    assert (Hbody : memo.quote_offer_body (memo_runs.with_form form a) later
                    = memo.quote_offer_body a later) by done.
    split.
    + unfold memo.quote_offer. rewrite Hmiss', Hbody.
      by destruct (memo.quote_offer_body a later).
    + intros q'. unfold memo.quote_offer_body.
      destruct (memo.strptime (memo.arg_checkin a)); [|discriminate].
      destruct (memo.strptime (memo.arg_checkout a)); [|discriminate].
      by intros [= <-].
Qed.

Lemma quote_offer_repeat_returns_cached_witness :
  memo.quote_offer fixtures.quote_args_1 "2024-01-01T09:00:00" []
  = (Ok fixtures.quote_1, [(fixtures.quote_args_1, fixtures.quote_1)])
  ∧ memo.quote_offer fixtures.quote_args_1 "2030-06-30T23:59:59"
      [(fixtures.quote_args_1, fixtures.quote_1)]
    = (Ok fixtures.quote_1, [(fixtures.quote_args_1, fixtures.quote_1)])
  ∧ ∃ q', (memo.quote_offer
             (memo_runs.with_form memo_runs.params_form
                fixtures.quote_args_1)
             "2030-06-30T23:59:59"
             [(fixtures.quote_args_1, fixtures.quote_1)]).1 = Ok q'
          ∧ memo.quote_calculated_at q' = "2030-06-30T23:59:59".
Proof.
  split; [vm_compute; reflexivity|].
  destruct (quote_offer_repeat_returns_cached fixtures.quote_args_1
              "2024-01-01T09:00:00" "2030-06-30T23:59:59" []
              [(fixtures.quote_args_1, fixtures.quote_1)] fixtures.quote_1)
    as [Hhit Hother]; [vm_compute; reflexivity|].
  split; [exact Hhit|].
  destruct (Hother memo_runs.params_form) as [Hrun Hat];
    [discriminate|reflexivity|].
  eexists. split; [rewrite Hrun; vm_compute; reflexivity|reflexivity].
Defined.

Section cache_runs.
Import memo.

Lemma cache_keys_remove (a : quote_args) (c : cache) :
  NoDup c.*1 → NoDup (cache_remove a c).*1 ∧ a ∉ (cache_remove a c).*1.
Proof.
  unfold cache_remove. induction c as [|[k q] c IH]; cbn [fmap list_fmap].
  { intros _. split; [constructor|]. apply not_elem_of_nil. }
  intros [Hk Hnd]%NoDup_cons. destruct (IH Hnd) as [IH1 IH2].
  rewrite filter_cons. cbn [fst]. destruct (decide (k ≠ a)) as [Hne|Heq].
  - cbn [fmap list_fmap fst]. split.
    + apply NoDup_cons. split; [|done].
      intros Hin. apply Hk.
      apply list_elem_of_fmap in Hin as ([k' q'] & -> & Hin).
      apply list_elem_of_filter in Hin as [_ Hin].
      apply list_elem_of_fmap. by exists (k', q').
    + apply not_elem_of_cons. split; [done|done].
  - done.
Qed.

Lemma cache_lookup_None_keys (a : quote_args) (c : cache) :
  cache_lookup a c = None → a ∉ c.*1.
Proof.
  induction c as [|[k q] c IH]; cbn [cache_lookup fmap list_fmap fst].
  { intros _. apply not_elem_of_nil. }
  destruct (decide (k = a)); [discriminate|]. intros H.
  apply not_elem_of_cons. split; [done|by apply IH].
Qed.

(** One call keeps the keys distinct. *)
Lemma quote_offer_keys_NoDup (a : quote_args) (now : string) (c : cache) :
  NoDup c.*1 → NoDup (quote_offer a now c).2.*1.
Proof.
  intros Hnd. unfold quote_offer.
  destruct (cache_lookup a c) as [q|] eqn:Hq; cbn [snd].
  - destruct (cache_keys_remove a c Hnd) as [H1 H2].
    cbn [fmap list_fmap fst]. by apply NoDup_cons.
  - destruct (quote_offer_body a now) as [q|e]; cbn [snd]; [|done].
    rewrite fmap_take. eapply sublist_NoDup; [|apply sublist_take].
    cbn [fmap list_fmap fst]. apply NoDup_cons.
    split; [by apply cache_lookup_None_keys|done].
Qed.

End cache_runs.

(** After any sequence of calls that starts with an empty cache, the
    cache holds at most 128 entries, no two for the same call (the same
    argument values passed in the same form), and each entry was
    computed from its own arguments.  It can hold two entries for the
    same argument values: a call and then the same values passed in
    another form leave one entry each. *)
Theorem run_calls_keeps_cache_invariants
    (calls : list (memo.quote_args * string)) :
  (length (memo_runs.run_calls calls []) ≤ memo.maxsize)%nat
  ∧ NoDup (memo_runs.run_calls calls []).*1
  ∧ memo.cache_ok (memo_runs.run_calls calls [])
  ∧ (∀ a form now1 now2 q1,
       form ≠ memo.arg_form a →
       memo.quote_offer_body a now1 = Ok q1 →
       ∃ q2, memo.quote_offer_body a now2 = Ok q2
             ∧ memo_runs.run_calls
                 [(a, now1); (memo_runs.with_form form a, now2)] []
               = [(memo_runs.with_form form a, q2); (a, q1)]).
Proof.
  assert (Hinv : ∀ c,
    (length c ≤ memo.maxsize)%nat ∧ NoDup c.*1 ∧ memo.cache_ok c →
    (length (memo_runs.run_calls calls c) ≤ memo.maxsize)%nat
    ∧ NoDup (memo_runs.run_calls calls c).*1
    ∧ memo.cache_ok (memo_runs.run_calls calls c)).
  { unfold memo_runs.run_calls.
    induction calls as [|[a now] calls IH]; intros c (Hlen & Hnd & Hok);
      [done|].
    cbn [foldl fst snd]. apply IH. split; [|split].
    - by apply quote_offer_cache_size.
    - by apply quote_offer_keys_NoDup.
    - by apply quote_offer_cache_ok. }
  destruct (Hinv []) as (Hlen & Hnd & Hok).
  { split; [cbn; lia|]. split; [constructor|apply cache_ok_nil]. }
  split; [exact Hlen|]. split; [exact Hnd|]. split; [exact Hok|].
  intros a form now1 now2 q1 Hform Hbody.
  assert (Hne : a ≠ memo_runs.with_form form a).
  { intros Heq. apply Hform.
      by apply (f_equal memo.arg_form) in Heq. }
  assert (∃ q2, memo.quote_offer_body a now2 = Ok q2) as [q2 Hbody2].
  { revert Hbody. unfold memo.quote_offer_body.
    destruct (memo.strptime (memo.arg_checkin a)); [|discriminate].
    destruct (memo.strptime (memo.arg_checkout a)); [|discriminate].
    eauto. }
  exists q2. split; [exact Hbody2|].
  unfold memo_runs.run_calls. cbn [foldl fst snd].
  unfold memo.quote_offer at 2. cbn [memo.cache_lookup]. rewrite Hbody.
  cbn [snd]. change (take memo.maxsize [(a, q1)]) with [(a, q1)].
  unfold memo.quote_offer. cbn [memo.cache_lookup].
  destruct (decide (a = memo_runs.with_form form a)); [done|].
  change (memo.quote_offer_body (memo_runs.with_form form a) now2)
    with (memo.quote_offer_body a now2).
  rewrite Hbody2. reflexivity.
Qed.

Section lru.
Import memo.
Variables (a : quote_args) (q : quote).

(** The entry for [a] sits behind at most [n] entries for other
    arguments. *)
Let at_depth (n : nat) (c : cache) : Prop :=
  ∃ pre post, c = pre ++ (a, q) :: post ∧ (length pre ≤ n)%nat ∧ a ∉ pre.*1.

Lemma cache_remove_keys (b : quote_args) (c : cache) :
  a ∉ c.*1 → a ∉ (cache_remove b c).*1.
Proof.
  unfold cache_remove. intros Hnot Hin. apply Hnot.
  apply list_elem_of_fmap in Hin as ([k' q'] & -> & Hin).
  apply list_elem_of_filter in Hin as [_ Hin].
  apply list_elem_of_fmap. by exists (k', q').
Qed.

Lemma cache_remove_length (b : quote_args) (c : cache) :
  (length (cache_remove b c) ≤ length c)%nat.
Proof. unfold cache_remove. apply length_filter. Qed.

Lemma at_depth_lookup (n : nat) (c : cache) :
  at_depth n c → cache_lookup a c = Some q.
Proof.
  intros (pre & post & -> & _ & Hnot).
  induction pre as [|[k q'] pre IH]; cbn [app cache_lookup].
  - by destruct (decide (a = a)).
  - cbn [fmap list_fmap fst] in Hnot.
    apply not_elem_of_cons in Hnot as [Hne Hnot].
    destruct (decide (k = a)); [done|]. by apply IH.
Qed.

Lemma at_depth_step (n : nat) (c : cache) (b : quote_args) (now : string) :
  at_depth n c → (n < 127)%nat → b ≠ a →
  at_depth (S n) (quote_offer b now c).2.
Proof.
  intros (pre & post & -> & Hlen & Hnot) Hn Hb. unfold quote_offer.
  destruct (cache_lookup b (pre ++ (a, q) :: post)) as [qb|] eqn:Hqb;
    cbn [snd].
  - exists ((b, qb) :: cache_remove b pre), (cache_remove b post).
    split; [|split].
    + unfold cache_remove. rewrite filter_app, filter_cons. cbn [fst].
      destruct (decide (a ≠ b)) as [|Hab]; [done|].
      destruct Hab. congruence.
    + cbn [length]. pose proof (cache_remove_length b pre). lia.
    + cbn [fmap list_fmap fst]. apply not_elem_of_cons.
      split; [done|by apply cache_remove_keys].
  - destruct (quote_offer_body b now) as [qb|e]; cbn [snd].
    + exists ((b, qb) :: pre), (take (127 - S (length pre)) post).
      split; [|split].
      * change ((b, qb) :: pre ++ (a, q) :: post)
          with (((b, qb) :: pre) ++ (a, q) :: post).
        rewrite take_app. rewrite take_ge by (cbn [length]; unfold maxsize; lia).
        f_equal. cbn [length]. unfold maxsize.
        replace (128 - S (length pre))%nat
          with (S (127 - S (length pre))) by lia.
        done.
      * cbn [length]. lia.
      * cbn [fmap list_fmap fst]. apply not_elem_of_cons. by split.
    + exists pre, post. split; [done|]. split; [lia|done].
Qed.

Lemma at_depth_run (calls : list (quote_args * string)) (n : nat)
    (c : cache) :
  at_depth n c → (n + length calls ≤ 127)%nat →
  Forall (λ call, call.1 ≠ a) calls →
  at_depth (n + length calls) (memo_runs.run_calls calls c).
Proof.
  unfold memo_runs.run_calls. revert n c.
  induction calls as [|[b now] calls IH]; intros n c Hc Hn Hcalls.
  - cbn. by rewrite Nat.add_0_r.
  - apply Forall_cons in Hcalls as [Hb Hcalls]. cbn [length] in Hn.
    cbn [foldl fst snd length].
    replace (n + S (length calls))%nat with (S n + length calls)%nat by lia.
    apply IH; [|lia|done]. apply at_depth_step; [done|lia|done].
Qed.

Lemma at_depth_after_call (now : string) (c c1 : cache) :
  quote_offer a now c = (Ok q, c1) → at_depth 0 c1.
Proof.
  unfold quote_offer.
  destruct (cache_lookup a c) as [q0|] eqn:Hq.
  - intros [= <- <-]. exists [], (cache_remove a c).
    split; [done|]. split; [done|apply not_elem_of_nil].
  - destruct (quote_offer_body a now) as [q0|e]; [|discriminate].
    intros [= <- <-]. exists [], (take 127 c).
    split; [done|]. split; [done|apply not_elem_of_nil].
Qed.

(** The statement used below, without the local abbreviation. *)
Lemma cached_entry_survives (now later : string) (c c1 : cache)
    (calls : list (quote_args * string)) :
  quote_offer a now c = (Ok q, c1) →
  (length calls ≤ 127)%nat →
  Forall (λ call, call.1 ≠ a) calls →
  (quote_offer a later (memo_runs.run_calls calls c1)).1 = Ok q.
Proof.
  intros Hcall Hlen Hcalls.
  pose proof (at_depth_run calls 0 c1 (at_depth_after_call _ _ _ Hcall)
                ltac:(lia) Hcalls) as Hdepth.
  apply at_depth_lookup in Hdepth. unfold quote_offer. by rewrite Hdepth.
Qed.

End lru.

(** Least-recently-used eviction: a record returned by [quote_offer] is
    still served from the cache after up to 127 calls for other
    arguments, whether those hit, miss or raise. *)
Theorem cached_quote_survives_127_other_calls
    (a : memo.quote_args) (q : memo.quote) (now later : string)
    (c c1 : memo.cache) (calls : list (memo.quote_args * string)) :
  memo.quote_offer a now c = (Ok q, c1) →
  (length calls ≤ 127)%nat →
  Forall (λ call, call.1 ≠ a) calls →
  (memo.quote_offer a later (memo_runs.run_calls calls c1)).1 = Ok q.
Proof. apply cached_entry_survives. Qed.


Lemma cached_quote_survives_127_other_calls_witness :
  memo.quote_offer fixtures.quote_args_1 "2024-01-01T09:00:00" []
  = (Ok fixtures.quote_1, [(fixtures.quote_args_1, fixtures.quote_1)])
  ∧ (memo.quote_offer fixtures.quote_args_1 "2030-06-30T23:59:59"
       (memo_runs.run_calls
          [(fixtures.quote_args_2, "2024-01-02T10:00:00")]
          [(fixtures.quote_args_1, fixtures.quote_1)])).1
    = Ok fixtures.quote_1.
Proof.
  split; [vm_compute; reflexivity|].
  apply (cached_quote_survives_127_other_calls fixtures.quote_args_1
           fixtures.quote_1 "2024-01-01T09:00:00" "2030-06-30T23:59:59" []
           [(fixtures.quote_args_1, fixtures.quote_1)]
           [(fixtures.quote_args_2, "2024-01-02T10:00:00")]).
  - vm_compute. reflexivity.
  - cbn [length]. lia.
  - apply Forall_cons. split; [|apply Forall_nil_2].
    cbn [fst]. intros [=].
Defined.


(** ** What [search] returns (core/service.py, core/lazy.py) *)

Section search_facts.
Import lazy.

(** With a truthy limit [L] a consumer that keeps calling [next] receives
    the first [L - count] matching offers and no more; a negative limit
    yields nothing. *)
Lemma take_results_limited (n : nat) (g : search_gen) (L : Z) :
  sg_finished g = false → sg_limit g = Some L → L ≠ 0%Z →
  (0 ≤ sg_count g)%Z →
  length (og_pending (sg_offers g)) < n →
  (take_results n g).1
  = take (Z.to_nat (L - sg_count g))
      (all_results (og_index (sg_offers g)) (og_predicate (sg_offers g))
         (og_pending (sg_offers g))).
Proof.
  revert g. induction n as [|n IH]; intros g Hfin HL HL0 Hcount Hlen; [lia|].
  destruct g as [[ix p pending ex] limit count fin].
  cbn in Hfin, HL, Hcount, Hlen. subst fin limit. cbn [take_results].
  unfold search_next, offers_next. cbn [sg_finished sg_offers og_index
    og_predicate og_pending og_examined sg_limit sg_count].
  pose proof (offers_scan_spec ix p pending ex) as Hscan.
  destruct (offers_scan ix p pending ex) as [[[o|] rest] ex'].
  - destruct Hscan as (skipped & c & -> & Hskip & Hc & -> & ->).
    assert (all_results ix p (skipped ++ c :: rest)
            = make_result (make_offer ix c) :: all_results ix p rest) as ->.
    { unfold all_results. rewrite List.filter_app, Hskip. cbn.
      by rewrite Hc. }
    unfold limit_reached, truthy_int.
    change (default 0%Z (Some L)) with L.
    destruct (Z.eqb_spec L 0) as [|_]; [done|]. cbn [negb andb].
    rewrite length_app in Hlen. cbn [length] in Hlen.
    destruct (Z.leb_spec L count) as [Hge|Hlt].
    + cbn [fst]. by replace (Z.to_nat (L - count)) with 0%nat by lia.
    + match goal with
      | |- context [take_results n ?g'] =>
          specialize (IH g' eq_refl eq_refl HL0);
          destruct (take_results n g') as [rs g'']
      end.
      cbn in IH |- *. rewrite IH by lia.
      replace (Z.to_nat (L - count)) with (S (Z.to_nat (L - (count + 1))))
        by lia.
      done.
  - destruct Hscan as (-> & Hnone & ->). cbn [fst].
    unfold all_results. rewrite Hnone. cbn. by rewrite take_nil.
Qed.

End search_facts.

(** [SearchService.search] draws the offers that match the request in
    walk order, stops at the limit (50 when the request has none; every
    match when the limit is [None] or 0; nothing when it is negative),
    and only then applies the service's own filters and sorts: the result
    is a rearrangement of the drawn offers that pass every filter. *)
Theorem search_filters_the_first_limit_matches
    (self : service.SearchService) (hotels : list Hotel)
    (room_types : list RoomType) (rates : list RatePlan)
    (prices : list Price) (availability : list Availability)
    (request : service.search_request) :
  let ix := lazy.build_indices room_types rates prices availability in
  let matches :=
    lazy.all_results ix
      (lazy.search_predicate (service.request_filters request))
      (lazy.candidates ix hotels) in
  let drawn :=
    match service.request_limit request with
    | None => take 50 matches
    | Some None => matches
    | Some (Some L) => if (L =? 0)%Z then matches
                       else take (Z.to_nat L) matches
    end in
  service.search self hotels room_types rates prices availability request
  ≡ₚ List.filter (service.apply_filters self) drawn.
Proof.
  intros ix matches drawn. unfold service.search.
  rewrite sort_each_perm. unfold service.filtered_results.
  assert ((lazy.to_list
             (lazy.lazy_search_results hotels room_types rates prices
                availability (service.request_filters request)
                (service.request_limit_or_50 request))).1 = drawn) as ->;
    [|done].
  unfold lazy.to_list, service.request_limit_or_50, drawn.
  destruct (service.request_limit request) as [[L|]|];
    [change (default (Some 50%Z) (Some (Some L))) with (Some L)
    |change (default (Some 50%Z) (Some (@None Z))) with (@None Z)
    |change (default (Some 50%Z) (@None (option Z))) with (Some 50%Z)].
  - destruct (Z.eqb_spec L 0) as [HL0|HL].
    + rewrite HL0.
      match goal with
      | |- context [lazy.take_results ?n ?g] =>
          apply (take_results_unlimited n g)
      end; [done|done|cbn; lia].
    + match goal with
      | |- context [lazy.take_results ?n ?g] =>
          rewrite (take_results_limited n g L)
      end; [|done|done|done|cbn; lia|cbn; lia].
      cbn [lazy.sg_count lazy.lazy_search_results].
      by replace (L - 0)%Z with L by lia.
  - match goal with
    | |- context [lazy.take_results ?n ?g] =>
        apply (take_results_unlimited n g)
    end; [done|done|cbn; lia].
  - match goal with
    | |- context [lazy.take_results ?n ?g] =>
        rewrite (take_results_limited n g 50)
    end; [|done|done|done|cbn; lia|cbn; lia].
    done.
Qed.


(** ** Holds and the integration workflows (core/service.py) *)

Section hold_facts.
Import workflows.

Lemma validate_hold_items_Right availability items (hold : hold_data) :
  Forall (λ i, validators.validate_cart_item i availability [] = Right i)
         items →
  validate_hold_items availability items hold = Right hold.
Proof.
  induction 1 as [|item items Hitem _ IH]; [done|].
  cbn [validate_hold_items]. by rewrite Hitem.
Qed.

Lemma validate_hold_items_first_Left availability before item after
    (hold : hold_data) (e : string) :
  Forall (λ i, validators.validate_cart_item i availability [] = Right i)
         before →
  validators.validate_cart_item item availability [] = Left e →
  validate_hold_items availability (before ++ item :: after) hold
  = Left ("Item validation failed: " +:+ e).
Proof.
  intros Hbefore Hitem.
  induction Hbefore as [|i before Hi _ IH]; cbn [app validate_hold_items].
  - by rewrite Hitem.
  - by rewrite Hi.
Qed.

End hold_facts.

(** [hold_booking] of the factory's booking service never consults the
    guest mapping or the service's validators.  A cart whose items all
    pass [validate_cart_item] is held at three nights of 100 per guest,
    whatever its dates; otherwise the result is the error of the first
    invalid item behind the prefix ["Item validation failed: "]. *)
Theorem hold_booking_holds_every_valid_cart
    (booking_uid booking_now : string) (guest : gmap string value)
    (cart_items : list CartItem) (prices : list Price)
    (availability : list Availability) (uid now : string) :
  let held :=
    workflows.hold_booking
      (service.create_booking_service booking_uid booking_now) guest
      cart_items prices availability uid now in
  (Forall (λ i, validators.validate_cart_item i availability [] = Right i)
          cart_items →
   held
   = Right {| workflows.hold_guest := guest;
              workflows.hold_items := cart_items;
              workflows.hold_prices := prices;
              workflows.hold_availability := availability;
              workflows.hold_hold_id := "hold_" +:+ uid;
              workflows.hold_created_at := now;
              workflows.hold_total :=
                Some (3 * validators.calculated_total cart_items)%Z;
              workflows.hold_status := Some "held" |})
  ∧ (∀ before item after e,
       cart_items = before ++ item :: after →
       Forall (λ i, validators.validate_cart_item i availability []
                    = Right i) before →
       validators.validate_cart_item item availability [] = Left e →
       held = Left ("Item validation failed: " +:+ e)).
Proof.
  intros held. subst held. unfold workflows.hold_booking.
  cbn [validators.bind]. unfold workflows.validate_hold.
  cbn [workflows.hold_availability workflows.hold_items]. split.
  - intros Hall. rewrite validate_hold_items_Right by done.
    cbn [validators.bind]. unfold workflows.calculate_hold_totals.
    cbn [workflows.hold_prices workflows.hold_items service.quoter
         service.create_booking_service].
    rewrite sum_quotes_factory. cbn -[Z.mul]. done.
  - intros before item after e -> Hbefore Hitem.
    by rewrite (validate_hold_items_first_Left _ _ _ _ _ e).
Qed.


Section parallel_facts.
Import workflows.

Let hotel_of (r : lazy.search_result) : string :=
  Hotel_id (lazy.result_hotel r).

Lemma search_parallel_map self requests hotels room_types rates prices
    availability :
  search_parallel self requests hotels room_types rates prices availability
  = map (service.search self hotels room_types rates prices availability)
        requests.
Proof.
  unfold search_parallel.
  induction requests as [|request requests IH]; [done|].
  cbn in IH |- *. by rewrite IH.
Qed.

Lemma unique_by_hotel_snoc (l : list lazy.search_result)
    (x : lazy.search_result) :
  unique_by_hotel (l ++ [x])
  = if bool_decide (hotel_of x ∈ (unique_by_hotel l).*1)
    then unique_by_hotel l
    else unique_by_hotel l ++ [(hotel_of x, x)].
Proof. unfold unique_by_hotel. by rewrite foldl_app. Qed.

(** The dict after the loop: distinct keys, each value stored under its
    own hotel id, a key for every result seen, and every value the first
    result of its hotel. *)
Lemma unique_by_hotel_spec (l : list lazy.search_result) :
  NoDup (unique_by_hotel l).*1
  ∧ (∀ k r, (k, r) ∈ unique_by_hotel l → k = hotel_of r)
  ∧ (∀ x, x ∈ l → hotel_of x ∈ (unique_by_hotel l).*1)
  ∧ (∀ k r, (k, r) ∈ unique_by_hotel l →
       ∃ pre post, l = pre ++ r :: post
                   ∧ ∀ x, x ∈ pre → hotel_of x ≠ hotel_of r).
Proof.
  induction l as [|x l (Hnd & Hkey & Hall & Hfirst)] using rev_ind.
  { cbn. split; [constructor|]. split; [intros k r Hin|split].
    - by apply elem_of_nil in Hin.
    - intros x Hin. by apply elem_of_nil in Hin.
    - intros k r Hin. by apply elem_of_nil in Hin. }
  rewrite unique_by_hotel_snoc.
  destruct (bool_decide_reflect (hotel_of x ∈ (unique_by_hotel l).*1))
    as [Hin|Hnotin].
  - split; [done|]. split; [done|]. split.
    + intros y [Hy| ->%list_elem_of_singleton]%elem_of_app; [by apply Hall|done].
    + intros k r Hr. destruct (Hfirst k r Hr) as (pre & post & -> & Hpre).
      exists pre, (post ++ [x]). split; [|done].
      by rewrite <- app_assoc.
  - split; [|split; [|split]].
    + rewrite fmap_app. apply NoDup_app. split; [done|]. split.
      * intros k Hk [->|Hnil]%elem_of_cons; [done|].
        by apply elem_of_nil in Hnil.
      * cbn. apply NoDup_singleton.
    + intros k r [Hr|Hr]%elem_of_app; [by apply Hkey|].
      apply list_elem_of_singleton in Hr. by injection Hr as -> ->.
    + intros y Hy. rewrite fmap_app. apply elem_of_app.
      apply elem_of_app in Hy as [Hy|Hy]; [left; by apply Hall|right].
      apply list_elem_of_singleton in Hy as ->. cbn. apply list_elem_of_here.
    + intros k r [Hr|Hr]%elem_of_app.
      * destruct (Hfirst k r Hr) as (pre & post & -> & Hpre).
        exists pre, (post ++ [x]). split; [|done].
        by rewrite <- app_assoc.
      * apply list_elem_of_singleton in Hr. injection Hr as -> ->.
        exists l, []. split; [done|].
        intros y Hy Heq. apply Hnotin. rewrite <- Heq. by apply Hall.
Qed.

Lemma unique_results_spec (l : list lazy.search_result) :
  NoDup (hotel_of <$> (unique_by_hotel l).*2)
  ∧ (∀ x, x ∈ l → hotel_of x ∈ hotel_of <$> (unique_by_hotel l).*2)
  ∧ (∀ u, u ∈ (unique_by_hotel l).*2 →
       ∃ pre post, l = pre ++ u :: post
                   ∧ ∀ x, x ∈ pre → hotel_of x ≠ hotel_of u).
Proof.
  destruct (unique_by_hotel_spec l) as (Hnd & Hkey & Hall & Hfirst).
  assert (hotel_of <$> (unique_by_hotel l).*2 = (unique_by_hotel l).*1)
    as Hkeys.
  { rewrite <- list_fmap_compose. apply Forall_fmap_ext.
    apply Forall_forall. intros [k r] Hin. cbn. symmetry. by apply Hkey. }
  rewrite Hkeys. split; [done|]. split; [done|].
  intros u ([k r] & -> & Hin)%list_elem_of_fmap. cbn. by apply (Hfirst k).
Qed.

End parallel_facts.

(** [parallel_search_workflow] reports one result count per request, in
    request order, and keeps for every hotel found the first result of
    that hotel in the concatenation of the searches: the unique results
    have pairwise distinct hotel ids, every hotel of every result is
    among them, and no result before a kept one has its hotel id. *)
Theorem parallel_search_workflow_keeps_first_result_per_hotel
    (self : service.SearchService)
    (search_requests : list service.search_request) (hotels : list Hotel)
    (room_types : list RoomType) (rates : list RatePlan)
    (prices : list Price) (availability : list Availability) :
  let hotel_of := λ r, Hotel_id (lazy.result_hotel r) in
  let searches :=
    map (service.search self hotels room_types rates prices availability)
        search_requests in
  let report :=
    workflows.parallel_search_workflow self search_requests hotels
      room_types rates prices availability in
  workflows.total_searches report = length search_requests
  ∧ workflows.results_per_search report = length <$> searches
  ∧ workflows.total_results report = length (concat searches)
  ∧ workflows.unique_hotels report
    = length (workflows.unique_results report)
  ∧ NoDup (hotel_of <$> workflows.unique_results report)
  ∧ (∀ x, x ∈ concat searches →
       hotel_of x ∈ hotel_of <$> workflows.unique_results report)
  ∧ (∀ u, u ∈ workflows.unique_results report →
       ∃ pre post, concat searches = pre ++ u :: post
                   ∧ ∀ x, x ∈ pre → hotel_of x ≠ hotel_of u).
Proof.
  intros hotel_of searches report. subst report.
  unfold workflows.parallel_search_workflow.
  rewrite search_parallel_map. fold searches.
  cbn [workflows.total_searches workflows.results_per_search
       workflows.total_results workflows.unique_hotels
       workflows.unique_results].
  split; [done|]. split; [done|]. split; [done|].
  split; [by rewrite length_fmap|].
  apply unique_results_spec.
Qed.


Section integration_facts.
Import workflows.
Context {W Quote : Type}.
Variable calculate_quote : unit → outcome Quote.

Let run_in_executor_error : string :=
  "BaseEventLoop.run_in_executor() got an unexpected keyword argument 'hotel_id'".

(** No quote coroutine of the workflow returns: each one raises at its
    call of [run_in_executor]. *)
Lemma quotes_of_none (items : list quote_item) :
  service.quotes_of (calculate_single_quote calculate_quote) items = [].
Proof. induction items as [|item items IH]; [done|]. cbn. apply IH. Qed.

Lemma failures_of_all (items : list quote_item) :
  service.failures_of (calculate_single_quote calculate_quote) items
  = map (λ item, {| service.failed_item := item;
                    service.failed_error := run_in_executor_error |}) items.
Proof.
  induction items as [|item items IH]; [done|].
  unfold service.failures_of in IH |- *. cbn [omap list_omap map].
  rewrite IH. done.
Qed.

Lemma quote_batch_all_fail (items : list quote_item) :
  service.quote_batch (calculate_single_quote calculate_quote) items
  = Ok {| service.successful := [];
          service.failed :=
            map (λ item, {| service.failed_item := item;
                            service.failed_error := run_in_executor_error |})
                items;
          service.total_count := length items;
          service.success_count := 0;
          service.failure_count := length items |}.
Proof.
  unfold service.quote_batch, service.enumerate.
  pose proof (group_results_from (calculate_single_quote calculate_quote)
                [] items [] []) as Hloop.
  cbn [app length] in Hloop.
  unfold service.gather in Hloop |- *. rewrite length_map, Hloop.
  rewrite quotes_of_none, failures_of_all. cbn. by rewrite length_map.
Qed.

End integration_facts.

(** [end_to_end_workflow] never reaches its booking step.  When the
    search finds nothing it returns the failure of step ['search'].
    Otherwise every quote request of the batch fails at
    [run_in_executor], which takes no keyword arguments, so the workflow
    returns the failure of step ['quotation'], with one failed quote for
    each of the top three results.  In both cases it returns normally and
    leaves the event bus as it was: no hold and no booking is published,
    whatever the services, the guest and the data. *)
Theorem end_to_end_workflow_stops_at_quotation
    (W Quote : Type) (calculate_quote : unit → outcome Quote)
    (self : workflows.IntegrationService) (r : workflows.request)
    (guest_data : gmap string value) (hotels : list Hotel)
    (room_types : list RoomType) (rates : list RatePlan)
    (prices : list Price) (availability : list Availability)
    (rules : list Rule) (rd : workflows.readings)
    (s : frp.system (W:=W)) :
  workflows.end_to_end_workflow calculate_quote self r guest_data hotels
    room_types rates prices availability rules rd s
  = (Ok match service.search (workflows.search_service self) hotels
                room_types rates prices availability
                (workflows.request_search r) with
        | [] => workflows.SearchFailed
        | results =>
            workflows.QuotationFailed
              (map (λ result,
                      {| service.failed_item :=
                           workflows.quote_item_of r result;
                         service.failed_error :=
                           "BaseEventLoop.run_in_executor() got an unexpected keyword argument 'hotel_id'" |})
                   (take 3 results))
        end, s).
Proof.
  unfold workflows.end_to_end_workflow.
  destruct (service.search _ _ _ _ _ _ _) as [|result results]; [done|].
  unfold py.bind, workflows.lift. rewrite quote_batch_all_fail.
  cbn [service.successful service.failed]. unfold py.ret.
  by rewrite map_map.
Qed.


(** ** The bus' history and subscriptions (core/frp.py) *)

Section history_facts.
Import bus_queries.
Context {W : Type}.
Implicit Types (s : frp.system (W:=W)) (event : Event).

Lemma publish_all_spec (events : list Event) s :
  frp.wf s →
  ∃ s', publish_all events s = (Ok (), s')
        ∧ frp.wf s'
        ∧ frp._subscribers (frp.sys_bus s') = frp._subscribers (frp.sys_bus s)
        ∧ frp._event_history (frp.sys_bus s')
          = frp._event_history (frp.sys_bus s) ++ events.
Proof.
  revert s. induction events as [|event events IH]; intros s Hwf.
  - exists s. cbn. by rewrite app_nil_r.
  - destruct (publish_spec event s Hwf)
      as (s1 & Hpub & Hwf1 & Hsub1 & Hhist1 & _).
    destruct (IH s1 Hwf1) as (s' & Hall & Hwf' & Hsub' & Hhist').
    exists s'. cbn [publish_all]. unfold py.bind. rewrite Hpub, Hall.
    split; [done|]. split; [done|]. split; [congruence|].
    rewrite Hhist', Hhist1. by rewrite <- app_assoc.
Qed.

End history_facts.

(** Events published on a well-formed bus, whatever its subscribers and
    whatever they do, are all recorded behind the events recorded before,
    in publication order, and [publish] returns normally each time.
    [get_event_history] returns the last [limit] recorded events for a
    positive [limit], and of those with the given name when [event_type]
    is a non-empty string; with [limit=0] the slice starts at index 0, so
    the whole history is returned, not an empty one.  A new bus is
    well formed and has no history: it returns the published events. *)
Theorem event_history_returns_the_last_published_events
    (W : Type) (s : frp.system (W:=W)) (events : list Event) (limit : Z)
    (event_type : string) :
  frp.wf s →
  let run := bus_queries.publish_all events s in
  let recorded := frp._event_history (frp.sys_bus s) ++ events in
  let named :=
    List.filter (λ e, String.eqb (Event_name e) event_type) recorded in
  run.1 = Ok ()
  ∧ frp.wf run.2
  ∧ frp._subscribers (frp.sys_bus run.2) = frp._subscribers (frp.sys_bus s)
  ∧ frp._event_history (frp.sys_bus run.2) = recorded
  ∧ bus_queries.get_event_history 0 None (frp.sys_bus run.2) = recorded
  ∧ ((0 < limit)%Z →
     bus_queries.get_event_history limit None (frp.sys_bus run.2)
     = drop (length recorded - Z.to_nat limit) recorded
     ∧ (length (bus_queries.get_event_history limit None
                  (frp.sys_bus run.2))
        = Nat.min (Z.to_nat limit) (length recorded)))
  ∧ (event_type ≠ "" → (0 < limit)%Z →
     bus_queries.get_event_history limit (Some event_type)
       (frp.sys_bus run.2)
     = drop (length named - Z.to_nat limit) named)
  ∧ (event_type ≠ "" →
     bus_queries.get_event_history 0 (Some event_type) (frp.sys_bus run.2)
     = named)
  ∧ (∀ w : W,
       frp._event_history
         (frp.sys_bus (bus_queries.publish_all events (frp.new_system w)).2)
       = events).
Proof.
  intros Hwf run recorded named. subst run.
  assert (Hnew : ∀ w : W,
            frp._event_history
              (frp.sys_bus
                 (bus_queries.publish_all events (frp.new_system w)).2)
            = events).
  { intros w.
    destruct (publish_all_spec events (frp.new_system w) (new_system_wf w))
      as (s' & Hrun & _ & _ & Hhist).
    rewrite Hrun. cbn [snd]. by rewrite Hhist. }
  destruct (publish_all_spec events s Hwf) as (s' & -> & Hwf' & Hsub & Hhist).
  cbn [fst snd]. fold recorded in Hhist.
  unfold bus_queries.get_event_history, bus_queries.last_slice.
  rewrite Hhist. cbn [lazy.truthy_str].
  split; [done|]. split; [done|]. split; [done|]. split; [done|].
  split; [done|]. split; [|split; [|split; [|exact Hnew]]].
  - intros Hpos. destruct (Z.ltb_spec 0 limit); [|lia].
    split; [done|]. rewrite length_drop. lia.
  - intros Hne Hpos.
    destruct (String.eqb_spec event_type ""); [done|]. cbn [negb].
    destruct (Z.ltb_spec 0 limit); [|lia]. done.
  - intros Hne.
    destruct (String.eqb_spec event_type ""); [done|]. done.
Qed.

Lemma event_history_returns_the_last_published_events_witness :
  frp.wf sample.bus_two_subscribers
  ∧ (bus_queries.publish_all [sample.hold_h1; sample.booked_h1]
       sample.bus_two_subscribers).1 = Ok ()
  ∧ bus_queries.get_event_history 1 None
      (frp.sys_bus
         (bus_queries.publish_all [sample.hold_h1; sample.booked_h1]
            sample.bus_two_subscribers).2)
    = [sample.booked_h1]
  ∧ bus_queries.get_event_history 0 None
      (frp.sys_bus
         (bus_queries.publish_all [sample.hold_h1; sample.booked_h1]
            sample.bus_two_subscribers).2)
    = [sample.hold_h1; sample.booked_h1].
Proof.
  split; [exact bus_two_subscribers_wf|].
  destruct (event_history_returns_the_last_published_events (list string)
              sample.bus_two_subscribers [sample.hold_h1; sample.booked_h1]
              1%Z "HOLD" bus_two_subscribers_wf)
    as (Hok & _ & _ & _ & Hall & Hlast & _).
  split; [exact Hok|]. split; [|exact Hall].
  exact (proj1 (Hlast ltac:(lia))).
Defined.

Section subscription_facts.
Import bus_queries.
Context {W : Type}.
Implicit Types (b : frp.EventBus (W:=W)) (sub : frp.Subscription (W:=W)).

Lemma unused_id_lookup (sub_id : string) b (event_type : string) sub :
  unused_id sub_id b →
  sub ∈ default [] (frp._subscribers b !! event_type) →
  frp.Subscription_id sub ≠ sub_id.
Proof.
  intros Hfresh Hin.
  destruct (frp._subscribers b !! event_type) as [subscribers|] eqn:Hsubs.
  - pose proof (map_Forall_lookup_1 _ _ _ _ Hfresh Hsubs) as Hall.
    cbn in Hall. rewrite Forall_forall in Hall. by apply Hall.
  - by apply elem_of_nil in Hin.
Qed.

Lemma pop_first_unused (sub_id : string) (subscribers : list frp.Subscription) :
  (∀ sub, sub ∈ subscribers → frp.Subscription_id sub ≠ sub_id) →
  pop_first sub_id subscribers = None.
Proof.
  induction subscribers as [|sub rest IH]; intros Hfresh; [done|].
  cbn [pop_first].
  destruct (String.eqb_spec (frp.Subscription_id sub) sub_id) as [Heq|_].
  - by destruct (Hfresh sub (list_elem_of_here _ _)).
  - rewrite IH; [done|]. intros sub' Hin. apply Hfresh. by right.
Qed.

Lemma pop_first_last (sub_id : string) (subscribers : list frp.Subscription)
    sub :
  (∀ sub', sub' ∈ subscribers → frp.Subscription_id sub' ≠ sub_id) →
  frp.Subscription_id sub = sub_id →
  pop_first sub_id (subscribers ++ [sub]) = Some subscribers.
Proof.
  intros Hfresh Hid.
  induction subscribers as [|sub' rest IH]; cbn [app pop_first].
  - by rewrite Hid, String.eqb_refl.
  - destruct (String.eqb_spec (frp.Subscription_id sub') sub_id) as [Heq|_].
    + by destruct (Hfresh sub' (list_elem_of_here _ _)).
    + rewrite IH; [done|]. intros sub'' Hin. apply Hfresh. by right.
Qed.

Lemma unsubscribe_unused (order : list string) (sub_id : string) b :
  unused_id sub_id b → unsubscribe order sub_id b = (false, b).
Proof.
  intros Hfresh. induction order as [|event_type order IH]; [done|].
  cbn [unsubscribe]. rewrite pop_first_unused; [done|].
  intros sub Hin. by apply (unused_id_lookup sub_id b event_type).
Qed.

(** The sum of the lengths of the subscriber lists does not depend on the
    order in which the dict is walked. *)
Lemma count_all_insert (m : gmap string (list (frp.Subscription (W:=W))))
    (k : string) (l : list frp.Subscription) :
  map_fold (λ _ subs total, total + length subs) 0 (<[k := l]> m)
  = map_fold (λ _ subs total, total + length subs) 0 (delete k m)
    + length l.
Proof.
  rewrite <- insert_delete_eq.
  rewrite map_fold_insert_L; [done| |apply lookup_delete_eq].
  intros. lia.
Qed.

Lemma count_all_lookup (m : gmap string (list (frp.Subscription (W:=W))))
    (k : string) :
  map_fold (λ _ subs total, total + length subs) 0 m
  = map_fold (λ _ subs total, total + length subs) 0 (delete k m)
    + length (default [] (m !! k)).
Proof.
  destruct (m !! k) as [l|] eqn:Hk.
  - rewrite (map_fold_delete_L _ _ k l m); [done| |done]. intros. lia.
  - rewrite delete_id by done. cbn. lia.
Qed.

End subscription_facts.

(** [subscribe] registers the subscription behind those already
    registered for its event type and for no other type: the count of
    that type and the total count grow by one, the counts of the other
    types stay. *)
Theorem subscribe_adds_one_subscriber (W : Type)
    (b : frp.EventBus (W:=W)) (event_type : string)
    (callback : Event → Py W unit)
    (filter_predicate : option (Event → outcome bool)) (sub_id : string) :
  let subscription :=
    {| frp.Subscription_id := sub_id;
       frp.Subscription_event_type := event_type;
       frp.Subscription_callback := callback;
       frp.Subscription_filter_predicate := filter_predicate |} in
  let b' :=
    (frp.subscribe event_type callback filter_predicate sub_id b).2 in
  (frp.subscribe event_type callback filter_predicate sub_id b).1 = sub_id
  ∧ (∀ event,
       frp.subscribers_of event b'
       = if String.eqb (Event_name event) event_type
         then frp.subscribers_of event b ++ [subscription]
         else frp.subscribers_of event b)
  ∧ bus_queries.get_subscriber_count None b'
    = S (bus_queries.get_subscriber_count None b)
  ∧ (∀ other, other ≠ "" →
       bus_queries.get_subscriber_count (Some other) b'
       = if String.eqb other event_type
         then S (bus_queries.get_subscriber_count (Some other) b)
         else bus_queries.get_subscriber_count (Some other) b).
Proof.
  intros subscription b'. subst b'. unfold frp.subscribe. cbn [fst snd].
  fold subscription. split; [done|]. split; [|split].
  - intros event. unfold frp.subscribers_of. cbn [frp._subscribers].
    destruct (String.eqb_spec (Event_name event) event_type) as [->|Hne].
    + by rewrite lookup_insert_eq.
    + by rewrite lookup_insert_ne.
  - unfold bus_queries.get_subscriber_count.
    cbn [lazy.truthy_str frp._subscribers].
    rewrite count_all_insert, (count_all_lookup (frp._subscribers b) event_type).
    rewrite length_app. cbn [length]. lia.
  - intros other Hother. unfold bus_queries.get_subscriber_count.
    cbn [lazy.truthy_str frp._subscribers].
    destruct (String.eqb_spec other "") as [|_]; [done|]. cbn [negb].
    change (default "" (Some other)) with other.
    destruct (String.eqb_spec other event_type) as [->|Hne].
    + rewrite lookup_insert_eq. cbn. rewrite length_app. cbn. lia.
    + by rewrite lookup_insert_ne.
Qed.

(** Subscribing under an id no subscription of the bus carries and
    unsubscribing that id again is a round trip: [unsubscribe] returns
    [True], and afterwards every event has the subscribers it had before,
    in the same order, and the total count is the old one.  On the bus
    before, [unsubscribe] of that id returns [False] and changes
    nothing.  (The event type is a key of the dict after [subscribe], so
    it occurs in the iteration order.) *)
Theorem subscribe_then_unsubscribe_restores_subscribers (W : Type)
    (b : frp.EventBus (W:=W)) (event_type : string)
    (callback : Event → Py W unit)
    (filter_predicate : option (Event → outcome bool)) (sub_id : string)
    (order : list string) :
  bus_queries.unused_id sub_id b →
  event_type ∈ order →
  let b1 :=
    (frp.subscribe event_type callback filter_predicate sub_id b).2 in
  let b2 := (bus_queries.unsubscribe order sub_id b1).2 in
  (bus_queries.unsubscribe order sub_id b1).1 = true
  ∧ (∀ event, frp.subscribers_of event b2 = frp.subscribers_of event b)
  ∧ bus_queries.get_subscriber_count None b2
    = bus_queries.get_subscriber_count None b
  ∧ frp._event_history b2 = frp._event_history b
  ∧ frp._state b2 = frp._state b
  ∧ bus_queries.unsubscribe order sub_id b = (false, b).
Proof.
  intros Hfresh Horder b1 b2.
  set (subscription :=
         {| frp.Subscription_id := sub_id;
            frp.Subscription_event_type := event_type;
            frp.Subscription_callback := callback;
            frp.Subscription_filter_predicate := filter_predicate |}).
  set (old := default [] (frp._subscribers b !! event_type)).
  assert (Hold : ∀ sub, sub ∈ old → frp.Subscription_id sub ≠ sub_id).
  { intros sub Hin. by apply (unused_id_lookup sub_id b event_type). }
  assert (Hun : bus_queries.unsubscribe order sub_id b1
                = (true,
                   {| frp._subscribers :=
                        <[event_type := old]> (frp._subscribers b1);
                      frp._event_history := frp._event_history b;
                      frp._state := frp._state b |})).
  { clear b2. induction order as [|t order IH].
    { by apply elem_of_nil in Horder. }
    cbn [bus_queries.unsubscribe].
    destruct (decide (t = event_type)) as [->|Hne].
    - subst b1. unfold frp.subscribe. cbn [snd frp._subscribers].
      rewrite lookup_insert_eq. cbn [default from_option id].
      fold old. fold subscription.
      by rewrite (pop_first_last sub_id old subscription).
    - apply elem_of_cons in Horder as [Heq|Horder]; [congruence|].
      rewrite pop_first_unused.
      + by apply IH.
      + intros sub Hin. subst b1. unfold frp.subscribe in Hin.
        cbn [snd frp._subscribers] in Hin.
        rewrite lookup_insert_ne in Hin by done.
        by apply (unused_id_lookup sub_id b t). }
  subst b2. rewrite Hun. cbn [fst snd frp._event_history frp._state].
  split; [done|]. split; [|split; [|split; [done|split; [done|]]]].
  - intros event. unfold frp.subscribers_of. cbn [frp._subscribers].
    subst b1. unfold frp.subscribe. cbn [snd frp._subscribers].
    rewrite insert_insert_eq.
    destruct (decide (Event_name event = event_type)) as [->|Hne].
    + by rewrite lookup_insert_eq.
    + by rewrite lookup_insert_ne.
  - unfold bus_queries.get_subscriber_count.
    cbn [lazy.truthy_str frp._subscribers].
    subst b1. unfold frp.subscribe. cbn [snd frp._subscribers].
    rewrite insert_insert_eq, count_all_insert.
    by rewrite (count_all_lookup (frp._subscribers b) event_type).
  - by apply unsubscribe_unused.
Qed.

Lemma subscribe_then_unsubscribe_restores_subscribers_witness :
  (bus_queries.unsubscribe ["BOOKED"; "HOLD"] "sub-3"
     (frp.subscribe "HOLD" sample.logging_callback None "sub-3"
        (frp.sys_bus sample.bus_two_subscribers)).2).1 = true
  ∧ bus_queries.get_subscriber_count None
      (bus_queries.unsubscribe ["BOOKED"; "HOLD"] "sub-3"
         (frp.subscribe "HOLD" sample.logging_callback None "sub-3"
            (frp.sys_bus sample.bus_two_subscribers)).2).2
    = bus_queries.get_subscriber_count None
        (frp.sys_bus sample.bus_two_subscribers).
Proof.
  assert (Hfresh : bus_queries.unused_id "sub-3"
                     (frp.sys_bus sample.bus_two_subscribers)).
  { unfold bus_queries.unused_id. apply (bool_decide_unpack _).
    vm_compute. exact I. }
  pose proof (subscribe_then_unsubscribe_restores_subscribers
                (list string) (frp.sys_bus sample.bus_two_subscribers)
                "HOLD" sample.logging_callback None "sub-3"
                ["BOOKED"; "HOLD"] Hfresh
                ltac:(right; left)) as (Htrue & _ & Hcount & _).
  split; [exact Htrue|exact Hcount].
Defined.


(** ** [safe_compose] (core/compose.py) *)

Section safe_compose_facts.
Context {W V : Type}.
Implicit Types (functions : list (V → Py W (option V))).

Lemma safe_loop_Nothing functions (w : W) :
  pipelines.safe_loop functions Nothing w = (Ok Nothing, w).
Proof.
  revert w. induction functions as [|f functions IH]; intros w; [done|].
  cbn [pipelines.safe_loop Maybe_bind]. unfold py.bind, py.ret. apply IH.
Qed.

Lemma safe_loop_app functions1 functions2 (result : Maybe V) (w : W) :
  pipelines.safe_loop (functions1 ++ functions2) result w
  = match pipelines.safe_loop functions1 result w with
    | (Ok result', w') => pipelines.safe_loop functions2 result' w'
    | (Raise e, w') => (Raise e, w')
    end.
Proof.
  revert result w.
  induction functions1 as [|f functions1 IH]; intros result w; [done|].
  cbn [app pipelines.safe_loop]. unfold py.bind.
  destruct (Maybe_bind result _ w) as [[result'|e] w']; [apply IH|done].
Qed.

End safe_compose_facts.

(** [safe_compose] runs its functions from the first to the last, each
    on the value the one before returned.  When the functions [before]
    have returned [x], the next function decides: if it returns [None]
    the result is [Nothing] and no later function is run; if it raises,
    the exception reaches the caller (it is not turned into a value, as
    [either_compose] does); if it returns a value, the functions after it
    go on from that value. *)
Theorem safe_compose_stops_at_first_none (W V : Type)
    (before after : list (V → Py W (option V)))
    (f : V → Py W (option V)) (arg x : V) (w w1 w2 : W) :
  pipelines.safe_compose before arg w = (Ok (Just x), w1) →
  (f x w1 = (Ok None, w2) →
   pipelines.safe_compose (before ++ f :: after) arg w = (Ok Nothing, w2))
  ∧ (∀ e, f x w1 = (Raise e, w2) →
       pipelines.safe_compose (before ++ f :: after) arg w = (Raise e, w2))
  ∧ (∀ y, f x w1 = (Ok (Some y), w2) →
       pipelines.safe_compose (before ++ f :: after) arg w
       = pipelines.safe_loop after (Just y) w2).
Proof.
  unfold pipelines.safe_compose. intros Hbefore.
  rewrite safe_loop_app, Hbefore.
  cbn [pipelines.safe_loop Maybe_bind]. unfold py.bind, py.ret.
  split; [|split].
  - intros ->. cbn [pipelines.Maybe_from_nullable]. apply safe_loop_Nothing.
  - by intros e ->.
  - by intros y ->.
Qed.

Lemma safe_compose_stops_at_first_none_witness :
  pipelines.safe_compose
    [(λ x w, (Ok (Some (x + 1)%Z), w)); (λ x w, (Ok None, w));
     (λ x w, (Raise (ValueError "never run"), w))] 1%Z tt
  = (Ok Nothing, tt).
Proof.
  apply (safe_compose_stops_at_first_none unit Z
           [λ x w, (Ok (Some (x + 1)%Z), w)]
           [λ x w, (Raise (ValueError "never run"), w)]
           (λ x w, (Ok None, w)) 1%Z 2%Z tt tt tt).
  - reflexivity.
  - reflexivity.
Defined.

(** ** The cart (core/transforms.py) *)

(** Holding an item and removing the hold again is a round trip when no
    item of the cart has the new item's id; in general [remove_hold]
    drops every item with the id, those held before included, and keeps
    the other items in their order. *)
Theorem remove_hold_undoes_hold_item (cart : list CartItem)
    (item : CartItem) :
  transforms.remove_hold (transforms.hold_item cart item) (CartItem_id item)
  = transforms.remove_hold cart (CartItem_id item)
  ∧ (Forall (λ held, CartItem_id held ≠ CartItem_id item) cart →
     transforms.remove_hold (transforms.hold_item cart item)
       (CartItem_id item) = cart)
  ∧ (∀ held, held ∈ transforms.remove_hold (transforms.hold_item cart item)
                       (CartItem_id item)
             ↔ held ∈ cart ∧ CartItem_id held ≠ CartItem_id item).
Proof.
  unfold transforms.remove_hold, transforms.hold_item.
  assert (Hdrop : List.filter
                    (λ held, negb (String.eqb (CartItem_id held)
                                     (CartItem_id item)))
                    (cart ++ [item])
                  = List.filter
                      (λ held, negb (String.eqb (CartItem_id held)
                                       (CartItem_id item))) cart).
  { rewrite List.filter_app. cbn. rewrite String.eqb_refl. cbn.
    by rewrite app_nil_r. }
  rewrite Hdrop. split; [done|]. split.
  - clear Hdrop. induction 1 as [|held cart Hheld _ IH]; [done|].
    cbn. destruct (String.eqb_spec (CartItem_id held) (CartItem_id item))
      as [Heq|_]; [by destruct Hheld|]. cbn. by rewrite IH.
  - intros held. rewrite list_elem_of_In, List.filter_In, <- list_elem_of_In.
    destruct (String.eqb_spec (CartItem_id held) (CartItem_id item));
      cbn; intuition congruence.
Qed.

(** ** [quote_with_fallback] (core/service.py) *)

(** [quote_with_fallback] never returns a calculated quote: the call of
    [run_in_executor] with the item as keyword arguments raises for every
    item (for the empty item, [calculate_quote] is called without
    arguments and raises), so the result is always the item extended with
    the fallback price and ['fallback_used': True]. *)
Theorem quote_with_fallback_always_falls_back (Quote : Type)
    (item : gmap string value) (fallback_price : Z) :
  fallback.quote_with_fallback (Quote:=Quote) item fallback_price
  = fallback.Fallback
      (<["fallback_used" := VBool true]>
      (<["currency" := VStr "USD"]>
      (<["final_total" := VInt fallback_price]>
      (<["total_with_tax" := VInt fallback_price]>
      (<["base_price" := VInt fallback_price]> item))))).
Proof.
  unfold fallback.quote_with_fallback.
  by destruct ((map_to_list item).*1) as [|k keys].
Qed.


(** ** The quote service (core/service.py) *)

Section quote_service_facts.
Import quotes.

Lemma quote_offer_returns (a : memo.quote_args) (now : string)
    (c : memo.cache) (d1 d2 : memo.date) :
  memo.cache_ok c →
  memo.strptime (memo.arg_checkin a) = Some d1 →
  memo.strptime (memo.arg_checkout a) = Some d2 →
  ∃ q, (memo.quote_offer a now c).1 = Ok q
       ∧ memo.quote_checkin q = memo.arg_checkin a
       ∧ memo.quote_guests q = memo.arg_guests a
       ∧ memo.quote_nights q = memo.days_between d1 d2.
Proof.
  intros Hok H1 H2.
  assert (Hbody : ∀ now' q, memo.quote_offer_body a now' = Ok q →
            memo.quote_checkin q = memo.arg_checkin a
            ∧ memo.quote_guests q = memo.arg_guests a
            ∧ memo.quote_nights q = memo.days_between d1 d2).
  { intros now' q. unfold memo.quote_offer_body. rewrite H1, H2.
    by intros [= <-]. }
  unfold memo.quote_offer.
  destruct (memo.cache_lookup a c) as [q|] eqn:Hq.
  - destruct (cache_ok_lookup a c q Hok Hq) as [now' Hq'].
    exists q. split; [done|]. by apply (Hbody now').
  - destruct (memo.quote_offer_body a now) as [q|e] eqn:Hq'.
    + exists q. split; [done|]. by apply (Hbody now).
    + unfold memo.quote_offer_body in Hq'. rewrite H1, H2 in Hq'.
      discriminate.
Qed.

End quote_service_facts.

(** [calculate_quote] of the factory's quote service hands the three
    calculators to [pipe], which runs them from the last to the first:
    the discounts are taken from a total of 0, the taxes from a base
    price of 0, and the base price is computed last.  So for every stay
    whose dates parse the quote carries [base_price = nights * 100 *
    guests], while [total_tax], [total_with_tax] and [final_total] are
    computed from 0 and do not depend on the nights or the guests:
    [final_total] is the int 0, or 0 times the discount factors, rounded.
    [safe_calculate_quote] returns that quote in a [Right] whenever the
    guests are positive and the checkin string sorts before the checkout
    string. *)
Theorem calculate_quote_takes_taxes_and_discounts_of_zero
    (F : Type) (to_float : Z → outcome F) (fmul fadd : F → F → F)
    (round2 : F → F) (f_0_1 f_0_05 f_0_95 f_0_9 : F) (zero : F)
    (now : booking_pipeline.clock) (a : memo.quote_args)
    (calculated_at : string) (c : memo.cache) (d1 d2 : memo.date) :
  to_float 0%Z = Ok zero →
  memo.cache_ok c →
  memo.strptime (memo.arg_checkin a) = Some d1 →
  memo.strptime (memo.arg_checkout a) = Some d2 →
  let self :=
    quotes.create_quote_service to_float fmul fadd round2 f_0_1 f_0_05
      f_0_95 f_0_9 now in
  let early := (30 <? booking_pipeline.days_until now d1)%Z in
  let long := (7 <? memo.days_between d1 d2)%Z in
  ∃ q, (quotes.calculate_quote self a calculated_at c).1 = Ok q
       ∧ (quotes.calculate_quote self a calculated_at c).2
         = (memo.quote_offer a calculated_at c).2
       ∧ quotes.quote_base_price q
         = Some (booking_pipeline.Int
                   (memo.days_between d1 d2 * 100 * memo.arg_guests a)%Z)
       ∧ quotes.quote_total_tax q
         = Some (fadd (fmul zero f_0_1) (fmul zero f_0_05))
       ∧ quotes.quote_total_with_tax q
         = Some (fadd zero (fadd (fmul zero f_0_1) (fmul zero f_0_05)))
       ∧ quotes.quote_final_total q
         = Some (match early, long with
                 | false, false => booking_pipeline.Int 0
                 | true, false =>
                     booking_pipeline.Float (round2 (fmul zero f_0_95))
                 | false, true =>
                     booking_pipeline.Float (round2 (fmul zero f_0_9))
                 | true, true =>
                     booking_pipeline.Float
                       (round2 (fmul (fmul zero f_0_95) f_0_9))
                 end)
       ∧ ((0 < memo.arg_guests a)%Z →
          String.leb (memo.arg_checkout a) (memo.arg_checkin a) = false →
          (quotes.safe_calculate_quote self a calculated_at c).1 = Right q).
Proof.
  intros Hzero Hok H1 H2 self early long.
  destruct (quote_offer_returns a calculated_at c d1 d2 Hok H1 H2)
    as (base & Hbase & Hcheckin & Hguests & Hnights).
  assert (Hne : String.eqb (memo.arg_checkin a) "" = false).
  { destruct (String.eqb_spec (memo.arg_checkin a) "") as [Heq|]; [|done].
    rewrite Heq in H1. vm_compute in H1. discriminate. }
  unfold quotes.safe_calculate_quote, quotes.calculate_quote.
  destruct (memo.quote_offer a calculated_at c) as [r c'].
  cbn [fst snd] in Hbase |- *. subst r.
  rewrite pipe_three. subst self.
  destruct base as [hotel_id room_type_id rate_id checkin checkout guests
                      nights total_price currency at_].
  cbn [memo.quote_checkin memo.quote_guests memo.quote_nights]
    in Hcheckin, Hguests, Hnights.
  subst checkin guests nights.
  cbn [quotes.create_quote_service quotes.price_calculator
       quotes.tax_calculator quotes.discount_calculator].
  unfold quotes.apply_discounts, quotes.of_quote_offer.
  cbn [quotes.quote_offer_keys quotes.quote_total_with_tax
       quotes.quote_early_booking_discount quotes.quote_long_stay_discount
       memo.quote_checkin memo.quote_nights].
  rewrite Hne, H1. cbn [negb]. fold early. fold long.
  unfold quotes.times, quotes.as_float.
  destruct early, long.
  all: cbn [mbind outcome_bind]; rewrite ?Hzero; cbn [mbind outcome_bind].
  all: unfold quotes.calculate_taxes, quotes.times, quotes.plus,
         quotes.as_float.
  all: cbn [quotes.quote_base_price default from_option id].
  all: rewrite ?Hzero; cbn [mbind outcome_bind].
  all: eexists; split; [reflexivity|]; split; [reflexivity|].
  all: split; [reflexivity|]; split; [reflexivity|]; split; [reflexivity|].
  all: split; [reflexivity|]; intros Hpos Hleb.
  all: destruct (Z.leb_spec (memo.arg_guests a) 0); [lia|].
  all: by rewrite Hleb.
Qed.

Lemma calculate_quote_takes_taxes_and_discounts_of_zero_witness :
  ∃ q, (quotes.calculate_quote
          (quotes.create_quote_service fixtures.float_of_int PrimFloat.mul
             PrimFloat.add (λ x, x) fixtures.float_0_1 fixtures.float_0_05
             fixtures.float_0_95 fixtures.float_0_9
             fixtures.new_year_morning)
          fixtures.quote_args_1 "2024-01-01T09:00:00" []).1 = Ok q
       ∧ quotes.quote_base_price q = Some (booking_pipeline.Int 600)
       ∧ quotes.quote_total_with_tax q = Some 0%float
       ∧ quotes.quote_final_total q = Some (booking_pipeline.Int 0).
Proof.
  destruct (calculate_quote_takes_taxes_and_discounts_of_zero
              PrimFloat.float fixtures.float_of_int PrimFloat.mul
              PrimFloat.add (λ x, x) fixtures.float_0_1 fixtures.float_0_05
              fixtures.float_0_95 fixtures.float_0_9 0%float
              fixtures.new_year_morning fixtures.quote_args_1
              "2024-01-01T09:00:00" []
              {| memo.year := 2024; memo.month := 1; memo.day := 15 |}
              {| memo.year := 2024; memo.month := 1; memo.day := 18 |}
              eq_refl cache_ok_nil eq_refl eq_refl)
    as (q & Hq & _ & Hbase & _ & Htotal & Hfinal & _).
  exists q. split; [exact Hq|]. split; [exact Hbase|].
  split; [exact Htotal|exact Hfinal].
Defined.


(** ** The booking workflow (core/service.py) *)

(** [create_booking] of the factory's service returns a [Left] for every
    guest and cart: its pipeline starts with the finalizer, which finds
    no ['total']. *)
Lemma create_booking_factory_Left (uid now : string)
    (guest : gmap string value) (items : list CartItem)
    (prices : list Price) (availability : list Availability)
    (rules : list Rule) :
  ∃ e, service.create_booking (service.create_booking_service uid now)
         guest items prices availability rules = Left e.
Proof.
  unfold service.create_booking, compose.PipeLine_run,
    compose.PipeLine_execute.
  cbn [compose.PipeLine_map compose.PipeLine_of compose.PipeLine_value
       compose.PipeLine_functions app].
  rewrite pipe_three. unfold service._finalize_booking at 1.
  cbn [service.finalizer service.create_booking_service].
  rewrite finalize_booking_initial. cbn [mbind outcome_bind]. eauto.
Qed.

(** The workflow built by [create_booking_workflow] never returns a
    booking.  [compose] runs [finalize_booking_creation] first, on the
    request itself; [create_booking] then fails, its error text is lost
    in [get_or_else], and the workflow returns [Left("Booking creation
    failed")] for every request that has a guest and items, whatever the
    other two stages are; they are never run.  A request without
    ['guest'] or ['items'] yields the text of the [KeyError]. *)
Theorem create_booking_workflow_never_books (X : Type)
    (prepare_booking_data enrich_with_pricing
       : booking_workflow.workflow_value (X:=X)
         → outcome (booking_workflow.workflow_value (X:=X)))
    (uid now : string) (request : booking_workflow.workflow_data (X:=X)) :
  booking_workflow.create_booking_workflow prepare_booking_data
    enrich_with_pricing uid now (booking_workflow.Dict request)
  = Left match booking_workflow.data_guest request,
               booking_workflow.data_items request with
         | None, _ => "'guest'"
         | Some _, None => "'items'"
         | Some _, Some _ => "Booking creation failed"
         end.
Proof.
  unfold booking_workflow.create_booking_workflow, compose.compose.
  cbn [reverse rev_append foldl mbind outcome_bind].
  unfold booking_workflow.finalize_booking_creation.
  destruct (booking_workflow.data_guest request) as [guest|]; [|done].
  destruct (booking_workflow.data_items request) as [items|]; [|done].
  cbn [mbind outcome_bind].
  destruct (create_booking_factory_Left uid now guest items [] [] [])
    as [e ->].
  done.
Qed.
